(** * Snapshot ingestion and metric extraction of postgres-toast

    A shallow embedding of the two chart scripts of the repository:

    - [graphs.py]: [load_snapshots], [build_timeseries], [plot_metric] and
      [main], the single-folder pipeline;
    - [monitor/graphs.py]: [load_metrics], the loader of the two-folder
      comparison, which derives one data point per snapshot file, the
      three plotting functions and the main block.

    The scripts work on what [json.load] returns, so the embedding starts
    from parsed JSON values and gives the Python operations the scripts
    apply to them ([x.get(k, d)], [x[k]], iteration, truth value, [/],
    [sum], dictionary keys) the behaviour they have on every JSON value,
    exceptions included. *)

From Stdlib Require Import ZArith String Ascii List SpecFloat Lia.
From stdpp Require Import base option list strings sorting.

Set Default Proof Using "Type".
Local Open Scope Z_scope.

(** ** Exceptions and the error monad *)

(** The exception classes the scripts can meet, and under [OtherError]
    any further class a library may raise, by its name.  All of them
    derive from [Exception], which is what both loaders catch. *)
Inductive exn : Type :=
| KeyError (key : string)
| TypeError
| AttributeError
| ValueError
| ZeroDivisionError
| OverflowError
| OSError
| JSONDecodeError
| UnicodeDecodeError
| OtherError (class : string).

Inductive result (A : Type) : Type :=
| Ok (a : A)
| Raise (e : exn).

Arguments Ok {A} a.
Arguments Raise {A} e.

Definition bind {A B : Type} (c : result A) (k : A -> result B) : result B :=
  match c with
  | Ok a => k a
  | Raise e => Raise e
  end.

Notation "'let!' x ':=' c 'in' k" := (bind c (fun x => k))
  (at level 10, x name, c at level 100, k at level 200).

Definition is_ok {A : Type} (c : result A) : bool :=
  match c with
  | Ok _ => true
  | Raise _ => false
  end.

(** ** JSON values as [json.load] builds them

    Integer literals become Python [int]s, the other number literals
    binary64 [float]s ([spec_float] at precision 53, with the infinities and
    the NaN the decoder accepts), objects become [dict]s: the list of their
    items in insertion order, read by first match. *)
#[warnings="-register-all"]
Inductive json : Type :=
| JNull
| JBool (b : bool)
| JInt (z : Z)
| JFloat (f : spec_float)
| JStr (s : string)
| JArr (items : list json)
| JObj (members : list (string * json)).

Fixpoint dict_lookup (k : string) (members : list (string * json)) : option json :=
  match members with
  | [] => None
  | (k', v) :: rest => if String.eqb k k' then Some v else dict_lookup k rest
  end.

(** [x.get(k, d)]: only dictionaries have the method. *)
Definition py_get (x : json) (k : string) (d : json) : result json :=
  match x with
  | JObj members => Ok (default d (dict_lookup k members))
  | _ => Raise AttributeError
  end.

(** [x[k]] for a string [k]: a missing key of a dictionary is a [KeyError];
    lists and strings want integer indices and the scalars are not
    subscriptable, a [TypeError] each. *)
Definition py_getitem (x : json) (k : string) : result json :=
  match x with
  | JObj members =>
      match dict_lookup k members with
      | Some v => Ok v
      | None => Raise (KeyError k)
      end
  | _ => Raise TypeError
  end.

Fixpoint chars (s : string) : list json :=
  match s with
  | EmptyString => []
  | String c rest => JStr (String c EmptyString) :: chars rest
  end.

(** What a [for] loop or a generator walks over: the items of a list, the
    keys of a dictionary, the characters of a string (its bytes here; the
    scripts fail alike on the first one, whatever it is). *)
Definition py_iter (x : json) : result (list json) :=
  match x with
  | JArr items => Ok items
  | JObj members => Ok (map (fun kv => JStr (fst kv)) members)
  | JStr s => Ok (chars s)
  | _ => Raise TypeError
  end.

Definition float_is_zero (f : spec_float) : bool :=
  match f with
  | S754_zero _ => true
  | _ => false
  end.

(** The truth value tested by [if], [and] and a generator's condition. *)
Definition truthy (x : json) : bool :=
  match x with
  | JNull => false
  | JBool b => b
  | JInt z => negb (z =? 0)
  | JFloat f => negb (float_is_zero f)
  | JStr s => negb (String.eqb s "")
  | JArr items => match items with [] => false | _ => true end
  | JObj members => match members with [] => false | _ => true end
  end.

(** [x == s] for a string literal [s]. *)
Definition eq_str (x : json) (s : string) : bool :=
  match x with
  | JStr s' => String.eqb s' s
  | _ => false
  end.

(** ** Numbers

    [bool] is a subclass of [int]; arithmetic reads [True] as 1. *)
Inductive number : Type :=
| NInt (z : Z)
| NFloat (f : spec_float).

Definition as_number (x : json) : option number :=
  match x with
  | JBool b => Some (NInt (Z.b2z b))
  | JInt z => Some (NInt z)
  | JFloat f => Some (NFloat f)
  | _ => None
  end.

Definition float_is_inf (f : spec_float) : bool :=
  match f with
  | S754_infinity _ => true
  | _ => false
  end.

(** An integer as an unrounded mantissa with exponent 0. *)
Definition raw_of_int (z : Z) : spec_float :=
  match z with
  | Z0 => S754_zero false
  | Zpos p => S754_finite false p 0
  | Zneg p => S754_finite true p 0
  end.

(** [float(z)]: the nearest binary64, or [OverflowError]. *)
Definition float_of_int (z : Z) : result spec_float :=
  let f := binary_normalize 53 1024 z 0 false in
  if float_is_inf f then Raise OverflowError else Ok f.

(** [a / b] on two [int]s: the correctly rounded quotient. *)
Definition int_truediv (a b : Z) : result spec_float :=
  if b =? 0 then Raise ZeroDivisionError
  else
    let q := SFdiv 53 1024 (raw_of_int a) (raw_of_int b) in
    if float_is_inf q then Raise OverflowError else Ok q.

Definition float_truediv (a b : spec_float) : result spec_float :=
  if float_is_zero b then Raise ZeroDivisionError
  else Ok (SFdiv 53 1024 a b).

(** True division [a / b].  Operands that are not numbers are a
    [TypeError]; a zero divisor ([0], [False], [0.0], [-0.0]) is a
    [ZeroDivisionError]; the result is always a [float]. *)
Definition py_truediv (a b : json) : result json :=
  match as_number a, as_number b with
  | Some (NInt x), Some (NInt y) =>
      let! q := int_truediv x y in Ok (JFloat q)
  | Some (NInt x), Some (NFloat g) =>
      let! f := float_of_int x in
      let! q := float_truediv f g in Ok (JFloat q)
  | Some (NFloat f), Some (NInt y) =>
      let! g := float_of_int y in
      let! q := float_truediv f g in Ok (JFloat q)
  | Some (NFloat f), Some (NFloat g) =>
      let! q := float_truediv f g in Ok (JFloat q)
  | _, _ => Raise TypeError
  end.

(** [a + b] as [sum] uses it.  Two [int]s add exactly; a [float] operand
    makes the sum a binary64 addition. *)
Definition py_add (a b : json) : result json :=
  match as_number a, as_number b with
  | Some (NInt x), Some (NInt y) => Ok (JInt (x + y))
  | Some (NInt x), Some (NFloat g) =>
      let! f := float_of_int x in Ok (JFloat (SFadd 53 1024 f g))
  | Some (NFloat f), Some (NInt y) =>
      let! g := float_of_int y in Ok (JFloat (SFadd 53 1024 f g))
  | Some (NFloat f), Some (NFloat g) => Ok (JFloat (SFadd 53 1024 f g))
  | _, _ =>
      match a, b with
      | JStr s, JStr t => Ok (JStr (s +:+ t))
      | JArr l, JArr m => Ok (JArr (l ++ m))
      | _, _ => Raise TypeError
      end
  end.

(** ** Dictionary keys

    Lists and dictionaries are unhashable.  Among the hashable values a
    dictionary identifies those that compare equal: [1], [1.0] and [True]
    are one key.  An [int] and a [float] are compared exactly. *)
Definition hashable (x : json) : bool :=
  match x with
  | JArr _ | JObj _ => false
  | _ => true
  end.

(** The integer a float equals, when there is one. *)
Definition float_as_int (f : spec_float) : option Z :=
  match f with
  | S754_zero _ => Some 0
  | S754_finite s m e =>
      let v := if s then Z.neg m else Z.pos m in
      if 0 <=? e then Some (v * 2 ^ e)
      else if (Z.pos m) mod 2 ^ (- e) =? 0 then Some (v / 2 ^ (- e))
      else None
  | _ => None
  end.

Definition float_is_nan (f : spec_float) : bool :=
  match f with
  | S754_nan => true
  | _ => false
  end.

(** Key equality.  The decoder returns one shared object for every [NaN]
    literal, which a dictionary finds again by identity. *)
Definition key_eqb (a b : json) : bool :=
  match as_number a, as_number b with
  | Some (NInt x), Some (NInt y) => x =? y
  | Some (NInt x), Some (NFloat g) =>
      match float_as_int g with Some y => x =? y | None => false end
  | Some (NFloat f), Some (NInt y) =>
      match float_as_int f with Some x => x =? y | None => false end
  | Some (NFloat f), Some (NFloat g) =>
      SFeqb f g || (float_is_nan f && float_is_nan g)
  | None, None =>
      match a, b with
      | JNull, JNull => true
      | JStr s, JStr t => String.eqb s t
      | _, _ => false
      end
  | _, _ => false
  end.

(** ** File names *)

Definition ends_with (suffix s : string) : bool :=
  let n := String.length suffix in
  let m := String.length s in
  (n <=? m)%nat && String.eqb (substring (m - n) n s) suffix.

(** [fnmatch] of a name against the pattern [stats_*.json]: the star takes
    whatever lies between the two literal parts, the empty string too. *)
Definition glob_match (name : string) : bool :=
  String.prefix "stats_" name
  && ends_with ".json" (substring 6 (String.length name - 6) name).

(** [os.path.join] of a directory and a relative name. *)
Definition path_join (dir name : string) : string :=
  if String.eqb dir "" then name
  else if ends_with "/" dir then dir +:+ name
  else dir +:+ "/" +:+ name.

(** [glob.has_magic]: whether a path holds one of the characters [*], [?]
    and [[], which make [glob.glob] read it as a pattern. *)
Fixpoint has_magic (s : string) : bool :=
  match s with
  | EmptyString => false
  | String c rest =>
      Ascii.eqb c "*" || Ascii.eqb c "?" || Ascii.eqb c "[" || has_magic rest
  end.

(** [s.rstrip("/")] *)
Fixpoint rstrip_slashes (s : string) : string :=
  match s with
  | EmptyString => EmptyString
  | String c rest =>
      match rstrip_slashes rest with
      | EmptyString => if Ascii.eqb c "/" then EmptyString else String c EmptyString
      | kept => String c kept
      end
  end.

(** A path cut after its last slash: what stands up to and including that
    slash, and what follows it. *)
Fixpoint cut_last_slash (p : string) : string * string :=
  match p with
  | EmptyString => (EmptyString, EmptyString)
  | String c rest =>
      let (head, tail) := cut_last_slash rest in
      if Ascii.eqb c "/" then (String c head, tail)
      else
        match head with
        | EmptyString => (EmptyString, String c tail)
        | _ => (String c head, tail)
        end
  end.

(** [os.path.split]: the head loses its trailing slashes unless it consists
    of slashes only. *)
Definition os_path_split (p : string) : string * string :=
  let (head, tail) := cut_last_slash p in
  match rstrip_slashes head with
  | EmptyString => (head, tail)
  | stripped => (stripped, tail)
  end.

(** The path under which [glob.glob(os.path.join(export_dir, "stats_*.json"))]
    returns the entry [name] of the folder: [os.path.join(dirname, name)],
    where [dirname] is the head [os.path.split] cuts off the pattern, and
    the bare name when that head is empty. *)
Definition glob_path (export_dir name : string) : string :=
  path_join (fst (os_path_split (path_join export_dir "stats_*.json"))) name.

(** [sorted] on strings: the order of [str], character by character.  On
    the UTF-8 bytes of the names this is the same order as on their code
    points. *)
Definition sorted (names : list string) : list string :=
  merge_sort String.le names.

(** [os.path.basename]: what follows the last slash. *)
Fixpoint basename_from (acc : string) (path : string) : string :=
  match path with
  | EmptyString => acc
  | String c rest =>
      if Ascii.eqb c "/" then basename_from "" rest
      else basename_from (acc +:+ String c "") rest
  end.

Definition basename (path : string) : string := basename_from "" path.

(** A name without a slash. *)
Fixpoint no_slash (s : string) : bool :=
  match s with
  | EmptyString => true
  | String c rest => negb (Ascii.eqb c "/") && no_slash rest
  end.

(** ** Files and directories

    A file either cannot be opened, or it opens and [json.load] raises
    (unreadable bytes, text that is not JSON) or returns the parsed value.
    A directory is the list of its entries in the order the operating
    system enumerates them, which no caller controls. *)
Inductive file : Type :=
| Unopenable (e : exn)
| Opened (loaded : result json).

Definition directory : Type := list (string * file).

Fixpoint find_file (name : string) (d : directory) : option file :=
  match d with
  | [] => None
  | (n, f) :: rest => if String.eqb name n then Some f else find_file name rest
  end.

(** [json.load(f)] on an open file. *)
Definition json_load (f : result json) : result json := f.

(** [open(name)]: the handle of the file, here what [json.load] will make
    of it. *)
Definition py_open (d : directory) (name : string) : result (result json) :=
  match find_file name d with
  | Some (Opened loaded) => Ok loaded
  | Some (Unopenable e) => Raise e
  | None => Raise OSError
  end.

Definition listdir (d : directory) : list string := map fst d.

(** [glob.glob(os.path.join(export_dir, "stats_*.json"))] for a folder name
    the library takes literally, one with [has_magic export_dir = false]:
    the names that match in the listing [d] of that folder (the empty
    listing when there is no such folder); the path returned for the name
    [n] is [glob_path export_dir n].  When the folder name holds one of
    the three characters, the library reads it as a pattern too and
    searches the folders that match it, which a single directory does not
    describe: the statements below that tell what a folder loads to are
    made for folder names taken literally. *)
Definition glob (d : directory) : list string :=
  filter (fun n => Is_true (glob_match n)) (listdir d).

(** ** A reference parser for timestamps

    The snapshot files of the producer carry timestamps of the layout
    [YYYY-MM-DD] or [YYYY-MM-DDTHH:MM:SS], which every version of
    [datetime.fromisoformat] reads the same way.  [Iso8601.parse] reads
    exactly these; the other layouts, on which the versions of Python
    differ, it rejects.  It instantiates the parser in the concrete runs
    below, whose strings are of these layouts or no date at all. *)
Module Iso8601.

Record civil : Type := {
  year : nat;
  month : nat;
  day : nat;
  hour : nat;
  minute : nat;
  second : nat
}.

Definition digit (c : ascii) : option nat :=
  let n := nat_of_ascii c in
  if ((48 <=? n) && (n <=? 57))%nat then Some (n - 48)%nat else None.

Fixpoint digits (acc : nat) (s : string) : option nat :=
  match s with
  | EmptyString => Some acc
  | String c rest =>
      match digit c with
      | Some n => digits (10 * acc + n)%nat rest
      | None => None
      end
  end.

(** The decimal number written in [len] characters from position [start]. *)
Definition field (start len : nat) (s : string) : option nat :=
  let x := substring start len s in
  if (String.length x =? len)%nat then digits 0%nat x else None.

Definition is_leap (y : nat) : bool :=
  ((y mod 4 =? 0) && negb (y mod 100 =? 0) || (y mod 400 =? 0))%nat.

Definition days_in_month (y m : nat) : nat :=
  match m with
  | 2%nat => if is_leap y then 29%nat else 28%nat
  | 4%nat | 6%nat | 9%nat | 11%nat => 30%nat
  | _ => 31%nat
  end.

Definition valid (t : civil) : bool :=
  ((1 <=? year t) && (1 <=? month t) && (month t <=? 12)
   && (1 <=? day t) && (day t <=? days_in_month (year t) (month t))
   && (hour t <=? 23) && (minute t <=? 59) && (second t <=? 59))%nat.

Definition sep (i : nat) (c : string) (s : string) : bool :=
  String.eqb (substring i 1 s) c.

Definition parse_date (s : string) : option (nat * nat * nat) :=
  if sep 4 "-" s && sep 7 "-" s then
    y ← field 0 4 s; m ← field 5 2 s; d ← field 8 2 s; Some (y, m, d)
  else None.

Definition parse_time (s : string) : option (nat * nat * nat) :=
  if sep 13 ":" s && sep 16 ":" s then
    h ← field 11 2 s; m ← field 14 2 s; x ← field 17 2 s; Some (h, m, x)
  else None.

Definition parse (s : string) : option civil :=
  let n := String.length s in
  t ← (if (n =? 10)%nat then
         '(y, m, d) ← parse_date s;
         Some {| year := y; month := m; day := d;
                 hour := 0; minute := 0; second := 0 |}
       else if (n =? 19)%nat && sep 10 "T" s then
         '(y, m, d) ← parse_date s;
         '(h, mi, x) ← parse_time s;
         Some {| year := y; month := m; day := d;
                 hour := h; minute := mi; second := x |}
       else None);
  if valid t then Some t else None.

(** A clock for the concrete runs: it starts on 2025-01-01 and its n-th
    reading is n seconds later. *)
Definition clock (n : nat) : civil :=
  {| year := 2025; month := 1; day := 1;
     hour := (n / 3600) mod 24; minute := (n / 60) mod 60; second := n mod 60 |}%nat.

End Iso8601.

(** ** Sample snapshot files *)

(** The serialised nullable string [{"String": s, "Valid": valid}]. *)
Definition nullable (s : string) (valid : bool) : json :=
  JObj [("String", JStr s); ("Valid", JBool valid)].

Definition db_record (datname : json) (blks_hit blks_read : Z) : json :=
  JObj [("datname", datname); ("blks_hit", JInt blks_hit);
        ("blks_read", JInt blks_read)].

Definition toast (size : Z) : json := JObj [("toast_size_bytes", JInt size)].

(** A file for [load_metrics]. *)
Definition metrics_file (ts : json) (db_stats toast_stats : list json) : json :=
  JObj [("timestamp", ts); ("db_stats", JArr db_stats);
        ("toast_stats", JArr toast_stats)].

(** A file for [load_snapshots]. *)
Definition stats_file (ts : json) (records : list json) : json :=
  JObj [("timestamp", ts); ("stats", JArr records)].

(** [{"timestamp": "2024-01-01T00:00:00", "stats": [{"datname": "a", "x": 5}]}]
    and its successor of the next day. *)
Definition first_day : json :=
  stats_file (JStr "2024-01-01T00:00:00") [JObj [("datname", JStr "a"); ("x", JInt 5)]].

Definition second_day : json :=
  stats_file (JStr "2024-01-02T00:00:00") [JObj [("datname", JStr "a"); ("x", JInt 7)]].

(** A file without a timestamp, and one whose timestamp is not a date. *)
Definition undated : json := JObj [("stats", JArr [])].

Definition misdated : json := stats_file (JStr "yesterday") [].

(** The postgres database with 10 hits and no read yet. *)
Definition zero_reads : json :=
  metrics_file (JStr "2024-01-01T00:00:00")
    [db_record (nullable "postgres" true) 10 0] [].

(** Two valid postgres records behind one that is marked invalid. *)
Definition two_postgres : json :=
  metrics_file (JStr "2024-01-01T00:00:00")
    [db_record (nullable "postgres" false) 1 1;
     db_record (nullable "postgres" true) 6 3;
     db_record (nullable "postgres" true) 8 2]
    [toast 100; toast 50].

(** Only an invalid postgres record, and no TOAST table. *)
Definition no_postgres : json :=
  metrics_file (JStr "2024-01-01T00:00:00")
    [db_record (nullable "template1" true) 4 2;
     db_record (nullable "postgres" false) 9 3]
    [].

(** A directory listed out of order, with a file that is not JSON and a
    name that does not match. *)
Definition mixed_directory : directory :=
  [("stats_2.json", Opened (Ok second_day));
   ("stats_0.json", Opened (Raise JSONDecodeError));
   ("notes.txt", Opened (Raise JSONDecodeError));
   ("stats_1.json", Opened (Ok first_day))].

(** A directory whose first matching entry cannot be opened. *)
Definition locked_directory : directory :=
  [("stats_1.json", Unopenable OSError);
   ("stats_2.json", Opened (Ok second_day))].

Section Scripts.

(** The [datetime] module is not part of the repository.  Its values, the
    parser [datetime.fromisoformat] ([None] for the strings on which it
    raises [ValueError]) and the clock (the reading returned by the n-th
    call of [datetime.now()]) are taken as given. *)
Variable datetime : Type.
Variable fromisoformat : string -> option datetime.
Variable now : nat -> datetime.

(** [datetime.fromisoformat(x)]: the argument must be a [str]. *)
Definition py_fromisoformat (x : json) : result datetime :=
  match x with
  | JStr s =>
      match fromisoformat s with
      | Some t => Ok t
      | None => Raise ValueError
      end
  | _ => Raise TypeError
  end.

(** ** Data of [graphs.py] *)

(** An element of [snapshots]: [{"timestamp": ts, "stats": ...}]. *)
Record snapshot : Type := {
  timestamp : datetime;
  stats : json
}.

(** [{ datname: ([timestamps], [values]) }], a dictionary in insertion
    order. *)
Definition series : Type := (list datetime * list json)%type.
Definition timeseries : Type := list (json * series).

(** ** Data of [monitor/graphs.py]: the dictionary [data_point] *)
Record data_point : Type := {
  dp_timestamp : datetime;
  blks_ratio : json;
  toast_total : json;
  avg_select_time_ms : json;
  avg_insert_time_ms : json;
  avg_update_time_ms : json;
  avg_delete_time_ms : json;
  avg_select_size_bytes : json
}.

(** ** Lines and charts

    A [line] is what one call of [plt.plot] is given: the two coordinate
    lists, the marker, the line style and the label.  A [chart] is the
    figure one plotting function puts together: its lines in the order of
    the calls, and the texts of the title and of the axes.  A coordinate or
    a label is a [datetime] or a value that came out of a JSON file. *)
Inductive cell : Type :=
| CTime (t : datetime)
| CVal (v : json).

Record line : Type := {
  xs : list cell;
  ys : list cell;
  marker : string;
  linestyle : option string;
  label : cell
}.

Record chart : Type := {
  lines : list line;
  title : string;
  xlabel : string;
  ylabel : string
}.

(** ** The plotting library

    The calls the scripts make on [matplotlib.pyplot], with the arguments
    they pass. *)
Inductive plt_call : Type :=
| Figure (width height : Z)
| Plot (l : line)
| Title (text : string)
| Xlabel (text : string)
| Ylabel (text : string)
| Legend
| Grid (visible : bool)
| Xticks (rotation : Z)
| TightLayout
| Show.

(** ** The world of a run and programs over it *)

(** A printed line: the diagnostic of a loader for one file, whose text
    ends in the message of the exception, or a line of [main]. *)
Inductive message : Type :=
| FileError (filename : string) (e : exn)
| Line (text : string).

(** [print("Нет файлов со статистикой в каталоге", export_dir)] *)
Definition no_statistics (export_dir : string) : message :=
  Line ("Нет файлов со статистикой в каталоге " +:+ export_dir).

(** [print(f"Метрика {metric} не найдена в загруженных данных.")] *)
Definition metric_not_found (metric : string) : message :=
  Line ("Метрика " +:+ metric +:+ " не найдена в загруженных данных.").

(** The state of a run: how often the clock was read, the lines printed,
    and the calls the plotting library has completed, each in order. *)
Record world : Type := {
  clock : nat;
  stdout : list message;
  figures : list plt_call
}.

Definition initial : world := {| clock := 0; stdout := []; figures := [] |}.

Definition prog (A : Type) : Type := world -> result A * world.

Definition ret {A : Type} (a : A) : prog A := fun w => (Ok a, w).

Definition lift {A : Type} (c : result A) : prog A := fun w => (c, w).

Definition and_then {A B : Type} (c : prog A) (k : A -> prog B) : prog B :=
  fun w =>
    match c w with
    | (Ok a, w') => k a w'
    | (Raise e, w') => (Raise e, w')
    end.

(** [try: c except Exception as e: handler] *)
Definition try_except {A : Type} (c : prog A) (handler : exn -> prog A) : prog A :=
  fun w =>
    match c w with
    | (Ok a, w') => (Ok a, w')
    | (Raise e, w') => handler e w'
    end.

Definition datetime_now : prog datetime :=
  fun w =>
    (Ok (now (clock w)),
     {| clock := S (clock w); stdout := stdout w; figures := figures w |}).

(** [print], on a standard output that takes the text. *)
Definition print (m : message) : prog unit :=
  fun w =>
    (Ok tt,
     {| clock := clock w; stdout := stdout w ++ [m]; figures := figures w |}).

(** [matplotlib] is not part of the repository.  Whether it completes a
    call or raises, and what, is taken as given: it may depend on the call
    and on the calls it has completed in the run before.  No script catches
    what the library raises. *)
Variable plt : list plt_call -> plt_call -> result unit.

Definition call (c : plt_call) : prog unit :=
  fun w =>
    match plt (figures w) c with
    | Ok _ =>
        (Ok tt,
         {| clock := clock w; stdout := stdout w; figures := figures w ++ [c] |})
    | Raise e => (Raise e, w)
    end.

Notation "'do' x <- c ; k" := (and_then c (fun x => k))
  (at level 10, x name, c at level 100, k at level 200).

(** ** [graphs.py]: [plot_metric] *)

(** The line of one item of the dictionary:
    [plt.plot(times, values, marker='o', label=dbname)]. *)
Definition metric_line (item : json * series) : line :=
  let '(dbname, (times, values)) := item in
  {| xs := map CTime times; ys := map CVal values;
     marker := "o"; linestyle := None; label := CVal dbname |}.

(** The [for] loop over [timeseries.items()]. *)
Fixpoint plot_items (items : timeseries) : prog unit :=
  match items with
  | [] => ret tt
  | item :: rest =>
      do _ <- call (Plot (metric_line item));
      plot_items rest
  end.

Definition plot_metric (ts : timeseries) (metric : string) : prog unit :=
  do _ <- call (Figure 10 6);
  do _ <- plot_items ts;
  do _ <- call (Xlabel "Время");
  do _ <- call (Ylabel metric);
  do _ <- call (Title ("Динамика метрики " +:+ metric));
  do _ <- call Legend;
  do _ <- call (Grid true);
  do _ <- call TightLayout;
  call Show.

(** The figure [plot_metric] hands to the library: one line for each item
    of the dictionary, in its order. *)
Definition metric_chart (ts : timeseries) (metric : string) : chart :=
  {| lines := map metric_line ts;
     title := "Динамика метрики " +:+ metric;
     xlabel := "Время";
     ylabel := metric |}.

(** ** [graphs.py]: [load_snapshots] *)

(** The body of the [try] for one open file. *)
Definition read_snapshot (f : result json) : prog snapshot :=
  do data <- lift (json_load f);
  do ts_str <- lift (py_get data "timestamp" JNull);
  do ts <- match ts_str with
           | JStr _ => lift (py_fromisoformat ts_str)
           | _ => datetime_now
           end;
  do st <- lift (py_get data "stats" (JArr []));
  ret {| timestamp := ts; stats := st |}.

(** The [for] loop, over the names of the matching entries of the folder;
    the diagnostic names the file by the path [glob] returned for it.
    [open] stands outside the [try]. *)
Fixpoint load_snapshots_loop (export_dir : string) (d : directory)
    (files : list string) (snapshots : list snapshot) : prog (list snapshot) :=
  match files with
  | [] => ret snapshots
  | filename :: rest =>
      do f <- lift (py_open d filename);
      do snapshots' <-
        try_except
          (do snap <- read_snapshot f; ret (snapshots ++ [snap]))
          (fun e =>
             do _ <- print (FileError (glob_path export_dir filename) e);
             ret snapshots);
      load_snapshots_loop export_dir d rest snapshots'
  end.

(** The paths the script sorts are those of one folder and share their
    directory part, so they sort as the names do. *)
Definition load_snapshots (export_dir : string) (d : directory) : prog (list snapshot) :=
  load_snapshots_loop export_dir d (sorted (glob d)) [].

(** ** [graphs.py]: [build_timeseries] *)

Fixpoint ts_lookup (k : json) (ts : timeseries) : option series :=
  match ts with
  | [] => None
  | (k', s) :: rest => if key_eqb k k' then Some s else ts_lookup k rest
  end.

(** [timeseries[k] = s] for a key that is not in the dictionary yet. *)
Definition ts_new (k : json) (s : series) (ts : timeseries) : timeseries :=
  ts ++ [(k, s)].

(** [times.append(t); values.append(v)] on the two lists of the entry of
    [k]. *)
Fixpoint ts_append (k : json) (t : datetime) (v : json) (ts : timeseries) : timeseries :=
  match ts with
  | [] => []
  | (k', (times, values)) :: rest =>
      if key_eqb k k' then (k', (times ++ [t], values ++ [v])) :: rest
      else (k', (times, values)) :: ts_append k t v rest
  end.

(** The body of the inner loop for one record. *)
Definition add_record (t : datetime) (metric : string) (ts : timeseries)
    (record : json) : result timeseries :=
  let! dbname := py_get record "datname" (JStr "unknown") in
  let! value := py_get record metric JNull in
  match value with
  | JNull => Ok ts
  | _ =>
      if negb (hashable dbname) then Raise TypeError
      else
        let ts' :=
          match ts_lookup dbname ts with
          | None => ts_new dbname ([], []) ts
          | Some _ => ts
          end in
        Ok (ts_append dbname t value ts')
  end.

Fixpoint add_records (t : datetime) (metric : string) (ts : timeseries)
    (records : list json) : result timeseries :=
  match records with
  | [] => Ok ts
  | record :: rest =>
      let! ts' := add_record t metric ts record in
      add_records t metric ts' rest
  end.

Fixpoint build_from (ts : timeseries) (snapshots : list snapshot)
    (metric : string) : result timeseries :=
  match snapshots with
  | [] => Ok ts
  | snap :: rest =>
      let t := timestamp snap in
      let! records := py_iter (stats snap) in
      let! ts' := add_records t metric ts records in
      build_from ts' rest metric
  end.

Definition build_timeseries (snapshots : list snapshot) (metric : string) : result timeseries :=
  build_from [] snapshots metric.

(** ** [graphs.py]: [main], after the arguments are parsed *)

Definition is_empty {A : Type} (l : list A) : bool :=
  match l with
  | [] => true
  | _ => false
  end.

Definition main (metric export_dir : string) (d : directory) : prog unit :=
  do snapshots <- load_snapshots export_dir d;
  if is_empty snapshots then print (no_statistics export_dir)
  else
    do ts <- lift (build_timeseries snapshots metric);
    if is_empty ts then print (metric_not_found metric)
    else plot_metric ts metric.

(** ** [monitor/graphs.py]: [load_metrics] *)

(** The condition of the generator on one record:
    [db["datname"]["String"] == "postgres" and db["datname"]["Valid"]].
    The right operand of [and] is evaluated only when the left one holds. *)
Definition is_postgres (db : json) : result bool :=
  let! datname := py_getitem db "datname" in
  let! name := py_getitem datname "String" in
  if eq_str name "postgres" then
    let! datname' := py_getitem db "datname" in
    let! valid := py_getitem datname' "Valid" in
    Ok (truthy valid)
  else Ok false.

(** [next((db for db in db_stats if ...), None)]: the generator is consumed
    up to the first record that passes the test, and no further. *)
Fixpoint find_postgres (db_stats : list json) : result (option json) :=
  match db_stats with
  | [] => Ok None
  | db :: rest =>
      let! hit := is_postgres db in
      if hit then Ok (Some db) else find_postgres rest
  end.

(** The records [content["db_stats"]] iterates over. *)
Definition db_records (content : json) : result (list json) :=
  let! db_stats := py_getitem content "db_stats" in
  py_iter db_stats.

(** The entries [content.get("toast_stats", [])] iterates over. *)
Definition toast_entries (content : json) : result (list json) :=
  let! toast_stats := py_get content "toast_stats" (JArr []) in
  py_iter toast_stats.

(** [pg_stat.get(k, d) if pg_stat else d] *)
Definition get_if (pg_stat : option json) (k : string) (d : json) : result json :=
  match pg_stat with
  | Some r => if truthy r then py_get r k d else Ok d
  | None => Ok d
  end.

(** [blks_hit / blks_read] with the defaults 0 and 1. *)
Definition ratio_of (pg_stat : option json) : result json :=
  let! blks_hit := get_if pg_stat "blks_hit" (JInt 0) in
  let! blks_read := get_if pg_stat "blks_read" (JInt 1) in
  py_truediv blks_hit blks_read.

(** [sum(t.get("toast_size_bytes", 0) for t in toast_stats)], from the
    start value [0], left to right.  (CPython 3.12 and later compensate the
    rounding errors of a sum of floats; sums of [int]s are exact in every
    version.) *)
Fixpoint sum_toast (acc : json) (toast_stats : list json) : result json :=
  match toast_stats with
  | [] => Ok acc
  | t :: rest =>
      let! size := py_get t "toast_size_bytes" (JInt 0) in
      let! acc' := py_add acc size in
      sum_toast acc' rest
  end.

(** The body of the [with] block for one parsed file. *)
Definition read_data_point (content : json) : result data_point :=
  let! ts_str := py_getitem content "timestamp" in
  let! ts := py_fromisoformat ts_str in
  let! dbs := db_records content in
  let! pg_stat := find_postgres dbs in
  let! ratio := ratio_of pg_stat in
  let! toasts := toast_entries content in
  let! toast_sum := sum_toast (JInt 0) toasts in
  let! select_ms := py_get content "avg_select_time_ms" JNull in
  let! insert_ms := py_get content "avg_insert_time_ms" JNull in
  let! update_ms := py_get content "avg_update_time_ms" JNull in
  let! delete_ms := py_get content "avg_delete_time_ms" JNull in
  let! select_size := py_get content "avg_select_size_bytes" JNull in
  Ok {| dp_timestamp := ts;
        blks_ratio := ratio;
        toast_total := toast_sum;
        avg_select_time_ms := select_ms;
        avg_insert_time_ms := insert_ms;
        avg_update_time_ms := update_ms;
        avg_delete_time_ms := delete_ms;
        avg_select_size_bytes := select_size |}.

(** The body of the [try] for one file name: here [open] is inside. *)
Definition read_metrics_file (d : directory) (filename : string) : result data_point :=
  let! f := py_open d filename in
  let! content := json_load f in
  read_data_point content.

Fixpoint load_metrics_loop (d : directory) (names : list string)
    (data : list data_point) : prog (list data_point) :=
  match names with
  | [] => ret data
  | filename :: rest =>
      if negb (ends_with ".json" filename) then load_metrics_loop d rest data
      else
        do data' <-
          try_except
            (do dp <- lift (read_metrics_file d filename); ret (data ++ [dp]))
            (fun e => do _ <- print (FileError filename e); ret data);
        load_metrics_loop d rest data'
  end.

Definition load_metrics (d : directory) : prog (list data_point) :=
  load_metrics_loop d (sorted (listdir d)) [].

(** ** Notions the properties are stated with *)

(** [db["datname"][k]] *)
Definition datname_field (db : json) (k : string) : result json :=
  let! datname := py_getitem db "datname" in
  py_getitem datname k.

(** Append-only growth of the dictionary: every entity keeps its place and
    its key, its two lists are extended at the end by equally many
    elements, and new entities come after the old ones. *)
Inductive grows : timeseries -> timeseries -> Prop :=
| grows_nil (ts' : timeseries) : grows [] ts'
| grows_cons (k : json) (times times' : list datetime)
    (values values' : list json) (ts ts' : timeseries) :
    length times' = length values' ->
    grows ts ts' ->
    grows ((k, (times, values)) :: ts)
          ((k, (times ++ times', values ++ values')) :: ts').

Definition balanced (ts : timeseries) : Prop :=
  Forall (fun e : json * series => length (fst (snd e)) = length (snd (snd e))) ts.

(** No entry of the snapshot carries the metric: [record.get(metric)] is
    [None] on every record of [stats]. *)
Definition lacks_metric (metric : string) (snap : snapshot) : Prop :=
  exists records,
    py_iter (stats snap) = Ok records
    /\ Forall (fun r => py_get r metric JNull = Ok JNull) records.

(** The data point of a directory entry that [load_metrics] can read. *)
Definition metrics_of (d : directory) (filename : string) : option (string * data_point) :=
  if ends_with ".json" filename then
    match read_metrics_file d filename with
    | Ok dp => Some (filename, dp)
    | Raise _ => None
    end
  else None.

(** The successfully parsed files of [load_metrics], in the sorted order of
    their names. *)
Definition parsed_metrics (d : directory) : list (string * data_point) :=
  omap (metrics_of d) (sorted (listdir d)).

(** The diagnostic of a directory entry that [load_metrics] cannot read. *)
Definition metrics_failure (d : directory) (filename : string) : option message :=
  if ends_with ".json" filename then
    match read_metrics_file d filename with
    | Ok _ => None
    | Raise e => Some (FileError filename e)
    end
  else None.

(** A file [load_snapshots] makes a snapshot of: it opens and holds a JSON
    object whose [timestamp], when it is a string, is one the parser
    accepts. *)
Definition readable (d : directory) (filename : string) : bool :=
  match py_open d filename with
  | Ok (Ok (JObj members)) =>
      match dict_lookup "timestamp" members with
      | Some (JStr s) =>
          match fromisoformat s with
          | Some _ => true
          | None => false
          end
      | _ => true
      end
  | _ => false
  end.

(** The successfully parsed files of [load_snapshots], in the sorted order
    of their names. *)
Definition parsed_names (d : directory) : list string :=
  filter (fun n => Is_true (readable d n)) (sorted (glob d)).

(** [snap] is the snapshot of the file [filename]: the [stats] of the
    object the file holds, the empty list when it has none, under the
    timestamp the file gives, or, when that is absent or not a string,
    under one of the readings of the clock from the [first] up to the
    [next]. *)
Definition read_from (first next : nat) (d : directory) (filename : string)
    (snap : snapshot) : Prop :=
  exists members,
    py_open d filename = Ok (Ok (JObj members))
    /\ stats snap = default (JArr []) (dict_lookup "stats" members)
    /\ match dict_lookup "timestamp" members with
       | Some (JStr s) => fromisoformat s = Some (timestamp snap)
       | _ => exists k, (first <= k < next)%nat /\ timestamp snap = now k
       end.

(** [dp] is the data point of the file [filename]: the file holds an
    object whose timestamp parses to that of [dp]; the ratio is that of
    the record selected from [db_stats], the total the sum over
    [toast_stats], and the five averages are the values of the file under
    these names, [None] for a missing one. *)
Definition metrics_from (d : directory) (filename : string) (dp : data_point) : Prop :=
  exists members s dbs pg_stat toasts,
    py_open d filename = Ok (Ok (JObj members))
    /\ dict_lookup "timestamp" members = Some (JStr s)
    /\ fromisoformat s = Some (dp_timestamp dp)
    /\ db_records (JObj members) = Ok dbs
    /\ find_postgres dbs = Ok pg_stat
    /\ ratio_of pg_stat = Ok (blks_ratio dp)
    /\ toast_entries (JObj members) = Ok toasts
    /\ sum_toast (JInt 0) toasts = Ok (toast_total dp)
    /\ avg_select_time_ms dp = default JNull (dict_lookup "avg_select_time_ms" members)
    /\ avg_insert_time_ms dp = default JNull (dict_lookup "avg_insert_time_ms" members)
    /\ avg_update_time_ms dp = default JNull (dict_lookup "avg_update_time_ms" members)
    /\ avg_delete_time_ms dp = default JNull (dict_lookup "avg_delete_time_ms" members)
    /\ avg_select_size_bytes dp
       = default JNull (dict_lookup "avg_select_size_bytes" members).

(** ** [monitor/graphs.py]: the three plotting functions and the main block

    Each function comes twice: first the figure it hands to the library,
    as far as the code of the repository decides it (its lines in the
    order of the calls, or the exception of a comprehension), then, under
    the name [show_...], the function as it runs, call by call on the
    library, in the order of the source. *)

(** [d[key]] on a data point. *)
Definition dp_getitem (d : data_point) (key : string) : result cell :=
  if String.eqb key "timestamp" then Ok (CTime (dp_timestamp d))
  else if String.eqb key "blks_ratio" then Ok (CVal (blks_ratio d))
  else if String.eqb key "toast_total" then Ok (CVal (toast_total d))
  else if String.eqb key "avg_select_time_ms" then Ok (CVal (avg_select_time_ms d))
  else if String.eqb key "avg_insert_time_ms" then Ok (CVal (avg_insert_time_ms d))
  else if String.eqb key "avg_update_time_ms" then Ok (CVal (avg_update_time_ms d))
  else if String.eqb key "avg_delete_time_ms" then Ok (CVal (avg_delete_time_ms d))
  else if String.eqb key "avg_select_size_bytes" then Ok (CVal (avg_select_size_bytes d))
  else Raise (KeyError key).

(** [[d[key] for d in data]] *)
Fixpoint column (key : string) (data : list data_point) : result (list cell) :=
  match data with
  | [] => Ok []
  | d :: rest =>
      let! c := dp_getitem d key in
      let! cs := column key rest in
      Ok (c :: cs)
  end.

Definition plot_two_line_time_series (data1 data2 : list data_point)
    (key title ylabel label1 label2 : string) : result chart :=
  let! times1 := column "timestamp" data1 in
  let! values1 := column key data1 in
  let! times2 := column "timestamp" data2 in
  let! values2 := column key data2 in
  Ok {| lines :=
          [ {| xs := times1; ys := values1; marker := ".";
               linestyle := None; label := CVal (JStr label1) |};
            {| xs := times2; ys := values2; marker := ".";
               linestyle := None; label := CVal (JStr label2) |} ];
        title := title;
        xlabel := "Время";
        ylabel := ylabel |}.

(** The four comprehensions come first, then the library. *)
Definition show_two_line_time_series (data1 data2 : list data_point)
    (key title ylabel label1 label2 : string) : prog unit :=
  do times1 <- lift (column "timestamp" data1);
  do values1 <- lift (column key data1);
  do times2 <- lift (column "timestamp" data2);
  do values2 <- lift (column key data2);
  do _ <- call (Figure 10 5);
  do _ <- call (Plot {| xs := times1; ys := values1; marker := ".";
                        linestyle := None; label := CVal (JStr label1) |});
  do _ <- call (Plot {| xs := times2; ys := values2; marker := ".";
                        linestyle := None; label := CVal (JStr label2) |});
  do _ <- call (Title title);
  do _ <- call (Xlabel "Время");
  do _ <- call (Ylabel ylabel);
  do _ <- call Legend;
  do _ <- call (Grid true);
  do _ <- call (Xticks 45);
  do _ <- call TightLayout;
  call Show.

(** [list(range(len(data)))] *)
Definition indices (data : list data_point) : list cell :=
  map (fun i => CVal (JInt i)) (seqZ 0 (Z.of_nat (length data))).

(** The [for key in keys] loop of [plot_multi_line_indexed]: two calls of
    [plt.plot] for each key. *)
Fixpoint indexed_lines (data1 data2 : list data_point) (keys : list string)
    (label_prefix1 label_prefix2 : string) : result (list line) :=
  match keys with
  | [] => Ok []
  | key :: rest =>
      let! values1 := column key data1 in
      let! values2 := column key data2 in
      let! more := indexed_lines data1 data2 rest label_prefix1 label_prefix2 in
      Ok ({| xs := indices data1; ys := values1; marker := ".";
             linestyle := None;
             label := CVal (JStr (label_prefix1 +:+ ":" +:+ key)) |}
          :: {| xs := indices data2; ys := values2; marker := ".";
                linestyle := None;
                label := CVal (JStr (label_prefix2 +:+ ":" +:+ key)) |}
          :: more)
  end.

Definition plot_multi_line_indexed (data1 data2 : list data_point)
    (keys : list string) (title ylabel label_prefix1 label_prefix2 : string) : result chart :=
  let! ls := indexed_lines data1 data2 keys label_prefix1 label_prefix2 in
  Ok {| lines := ls;
        title := title;
        xlabel := "Индекс метрики (порядковый номер)";
        ylabel := ylabel |}.

(** The loop as it runs: each comprehension is evaluated when its call of
    [plt.plot] is reached. *)
Fixpoint show_indexed_lines (data1 data2 : list data_point)
    (indices1 indices2 : list cell) (keys : list string)
    (label_prefix1 label_prefix2 : string) : prog unit :=
  match keys with
  | [] => ret tt
  | key :: rest =>
      do values1 <- lift (column key data1);
      do _ <- call (Plot {| xs := indices1; ys := values1; marker := ".";
                            linestyle := None;
                            label := CVal (JStr (label_prefix1 +:+ ":" +:+ key)) |});
      do values2 <- lift (column key data2);
      do _ <- call (Plot {| xs := indices2; ys := values2; marker := ".";
                            linestyle := None;
                            label := CVal (JStr (label_prefix2 +:+ ":" +:+ key)) |});
      show_indexed_lines data1 data2 indices1 indices2 rest
        label_prefix1 label_prefix2
  end.

Definition show_multi_line_indexed (data1 data2 : list data_point)
    (keys : list string) (title ylabel label_prefix1 label_prefix2 : string) : prog unit :=
  do _ <- call (Figure 10 6);
  let indices1 := indices data1 in
  let indices2 := indices data2 in
  do _ <- show_indexed_lines data1 data2 indices1 indices2 keys
            label_prefix1 label_prefix2;
  do _ <- call (Title title);
  do _ <- call (Xlabel "Индекс метрики (порядковый номер)");
  do _ <- call (Ylabel ylabel);
  do _ <- call Legend;
  do _ <- call (Grid true);
  do _ <- call TightLayout;
  call Show.

Definition plot_xy_lines (data1 data2 : list data_point)
    (xkey ykey title xlabel ylabel label1 label2 : string) : result chart :=
  let! x1 := column xkey data1 in
  let! y1 := column ykey data1 in
  let! x2 := column xkey data2 in
  let! y2 := column ykey data2 in
  Ok {| lines :=
          [ {| xs := x1; ys := y1; marker := ".";
               linestyle := Some "-"; label := CVal (JStr label1) |};
            {| xs := x2; ys := y2; marker := ".";
               linestyle := Some "-"; label := CVal (JStr label2) |} ];
        title := title;
        xlabel := xlabel;
        ylabel := ylabel |}.

(** Here the figure is opened first, and the comprehensions of the second
    line follow the call that draws the first. *)
Definition show_xy_lines (data1 data2 : list data_point)
    (xkey ykey title xlabel ylabel label1 label2 : string) : prog unit :=
  do _ <- call (Figure 8 6);
  do x1 <- lift (column xkey data1);
  do y1 <- lift (column ykey data1);
  do _ <- call (Plot {| xs := x1; ys := y1; marker := ".";
                        linestyle := Some "-"; label := CVal (JStr label1) |});
  do x2 <- lift (column xkey data2);
  do y2 <- lift (column ykey data2);
  do _ <- call (Plot {| xs := x2; ys := y2; marker := ".";
                        linestyle := Some "-"; label := CVal (JStr label2) |});
  do _ <- call (Title title);
  do _ <- call (Xlabel xlabel);
  do _ <- call (Ylabel ylabel);
  do _ <- call Legend;
  do _ <- call (Grid true);
  do _ <- call TightLayout;
  call Show.

Definition time_keys : list string :=
  ["avg_select_time_ms"; "avg_insert_time_ms"; "avg_update_time_ms";
   "avg_delete_time_ms"].

(** The main block of [monitor/graphs.py] on the two folders named on the
    command line. *)
Definition monitor_main (folder1 folder2 : string) (d1 d2 : directory) : prog unit :=
  let label1 := basename folder1 in
  let label2 := basename folder2 in
  do data1 <- load_metrics d1;
  do data2 <- load_metrics d2;
  do _ <- show_two_line_time_series data1 data2 "blks_ratio"
            "Postgres: blks_hit / blks_read" "Доля попаданий в кэш"
            label1 label2;
  do _ <- show_two_line_time_series data1 data2 "toast_total"
            "Суммарный размер TOAST таблиц" "Размер в байтах"
            label1 label2;
  do _ <- show_multi_line_indexed data1 data2 time_keys
            "Среднее время операций (мс)" "мс" label1 label2;
  show_xy_lines data1 data2
    "avg_select_size_bytes" "avg_select_time_ms"
    "Зависимость времени SELECT от размера JSONB"
    "Размер JSONB (бит)" "Время SELECT (мс)" label1 label2.

(** ** Further notions *)

(** The keys of a data point. *)
Definition dp_keys : list string :=
  ["timestamp"; "blks_ratio"; "toast_total"; "avg_select_time_ms";
   "avg_insert_time_ms"; "avg_update_time_ms"; "avg_delete_time_ms";
   "avg_select_size_bytes"].

(** A line the plotting library accepts: as many abscissas as ordinates. *)
Definition well_shaped (l : line) : Prop := length (xs l) = length (ys l).

(** The calls of a list made one after the other, up to the first one the
    library does not complete. *)
Fixpoint run_calls (calls : list plt_call) : prog unit :=
  match calls with
  | [] => ret tt
  | c :: rest =>
      do _ <- call c;
      run_calls rest
  end.

(** The calls by which each of the four plotting functions draws a chart. *)
Definition metric_calls (c : chart) : list plt_call :=
  Figure 10 6 :: map Plot (lines c)
  ++ [Xlabel (xlabel c); Ylabel (ylabel c); Title (title c);
      Legend; Grid true; TightLayout; Show].

Definition two_line_calls (c : chart) : list plt_call :=
  Figure 10 5 :: map Plot (lines c)
  ++ [Title (title c); Xlabel (xlabel c); Ylabel (ylabel c);
      Legend; Grid true; Xticks 45; TightLayout; Show].

Definition multi_line_calls (c : chart) : list plt_call :=
  Figure 10 6 :: map Plot (lines c)
  ++ [Title (title c); Xlabel (xlabel c); Ylabel (ylabel c);
      Legend; Grid true; TightLayout; Show].

Definition xy_calls (c : chart) : list plt_call :=
  Figure 8 6 :: map Plot (lines c)
  ++ [Title (title c); Xlabel (xlabel c); Ylabel (ylabel c);
      Legend; Grid true; TightLayout; Show].

(** [name] is what follows the last slash of [path]: the whole path when
    there is no slash in it, nothing when it ends in one. *)
Definition after_last_slash (path name : string) : Prop :=
  no_slash name = true
  /\ (path = name \/ exists dir, path = dir +:+ "/" +:+ name).

(** A line without a point. *)
Definition empty_line (l : line) : Prop := xs l = [] /\ ys l = [].

(** The records [build_timeseries] walks over in a snapshot. *)
Definition records_of (snap : snapshot) : list json :=
  match py_iter (stats snap) with
  | Ok records => records
  | Raise _ => []
  end.

(** Whether a record passes the test [value is None] of [build_timeseries],
    so that the loop goes on with it; a record on which [get] fails counts
    as well. *)
Definition carries (metric : string) (record : json) : bool :=
  match py_get record metric JNull with
  | Ok JNull => false
  | _ => true
  end.

(** A record [build_timeseries] can process: a dictionary which lacks the
    metric or whose [datname] can be a dictionary key. *)
Definition record_ok (metric : string) (record : json) : bool :=
  match record with
  | JObj members =>
      match dict_lookup metric members with
      | None | Some JNull => true
      | Some _ => hashable (default (JStr "unknown") (dict_lookup "datname" members))
      end
  | _ => false
  end.

Definition snapshot_ok (metric : string) (snap : snapshot) : bool :=
  is_ok (py_iter (stats snap)) && forallb (record_ok metric) (records_of snap).

(** The number of points in a mapping. *)
Definition point_count (ts : timeseries) : nat :=
  sum_list (map (fun e : json * series => length (snd (snd e))) ts).

(** The number of records of a collection that carry the metric. *)
Definition carrying_records (metric : string) (snapshots : list snapshot) : nat :=
  sum_list (map (fun snap => length (List.filter (carries metric) (records_of snap)))
                snapshots).

(** The points of the entity [name] in a collection: for each record of
    that name that carries the metric, in the order of processing, the
    timestamp of its snapshot and its value.  A record without [datname]
    goes by the name "unknown". *)
Definition named (name : string) (record : json) : bool :=
  match py_get record "datname" (JStr "unknown") with
  | Ok (JStr s) => String.eqb s name
  | _ => false
  end.

Definition value_of (metric : string) (record : json) : json :=
  match py_get record metric JNull with
  | Ok v => v
  | Raise _ => JNull
  end.

Definition points_of (metric name : string) (snapshots : list snapshot) : list (datetime * json) :=
  flat_map
    (fun snap =>
       map (fun r => (timestamp snap, value_of metric r))
           (List.filter (fun r => carries metric r && named name r) (records_of snap)))
    snapshots.

(** A snapshot reduced to the records that carry the metric. *)
Definition prune (metric : string) (snap : snapshot) : snapshot :=
  {| timestamp := timestamp snap;
     stats := JArr (List.filter (carries metric) (records_of snap)) |}.

(** The entry of the mapping that holds the given points: none when there
    is no point. *)
Definition series_of_points (points : list (datetime * json)) : option series :=
  match points with
  | [] => None
  | _ => Some (map fst points, map snd points)
  end.

(** Every entity of the mapping stands under a hashable key that none of
    the keys in front of it ([seen], then the earlier entries) equals, and
    has at least one point. *)
Fixpoint tidy (seen : list json) (ts : timeseries) : Prop :=
  match ts with
  | [] => True
  | (k, s) :: rest =>
      hashable k = true
      /\ Forall (fun k' => key_eqb k k' = false) seen
      /\ snd s <> []
      /\ tidy (seen ++ [k]) rest
  end.

(** Every key of the mapping is a string. *)
Definition string_keyed (ts : timeseries) : Prop :=
  Forall (fun e : json * series => exists s, fst e = JStr s) ts.

(** The mapping [ts] holds, for every name, the points [P] lists for it. *)
Definition holds (ts : timeseries) (P : string -> list (datetime * json)) : Prop :=
  string_keyed ts
  /\ forall name, ts_lookup (JStr name) ts = series_of_points (P name).

(** The entity of a record is a string. *)
Definition string_named (record : json) : Prop :=
  exists s, py_get record "datname" (JStr "unknown") = Ok (JStr s).

(** The diagnostic of a matching file that [load_snapshots] opens but
    cannot read. *)
Definition snapshot_failure (export_dir : string) (d : directory) (filename : string) : option message :=
  match py_open d filename with
  | Ok f =>
      match fst (read_snapshot f initial) with
      | Ok _ => None
      | Raise e => Some (FileError (glob_path export_dir filename) e)
      end
  | Raise _ => None
  end.

(** How often the [try] body of [load_snapshots] reads the clock on a
    file: once when it holds a dictionary whose timestamp is not a string. *)
Definition clock_reads (d : directory) (filename : string) : nat :=
  match py_open d filename with
  | Ok f => clock (snd (read_snapshot f initial))
  | Raise _ => 0%nat
  end.

(** ** Reasoning about the error monad *)

Lemma bind_Ok {A B : Type} (c : result A) (k : A -> result B) (b : B) :
  bind c k = Ok b -> exists a, c = Ok a /\ k a = Ok b.
Proof. destruct c as [a|e]; simpl; [eauto | discriminate]. Qed.

Ltac inv_bind H :=
  let a := fresh "a" in
  let Ha := fresh "Ha" in
  apply bind_Ok in H; destruct H as (a & Ha & H).

(** ** Growth of the time series *)

Lemma grows_refl (ts : timeseries) : grows ts ts.
Proof.
  induction ts as [|[k [times values]] ts IH]; [constructor|].
  rewrite <- (app_nil_r times) at 2. rewrite <- (app_nil_r values) at 2.
  by constructor.
Qed.

Lemma grows_trans (ts1 ts2 ts3 : timeseries) :
  grows ts1 ts2 -> grows ts2 ts3 -> grows ts1 ts3.
Proof.
  intros H12; revert ts3.
  induction H12 as [|k times times' values values' ts ts' Hlen H12 IH];
    intros ts3 H23; [constructor|].
  inversion H23 as [|k0 tm0 times'' vs0 values'' ts0 ts3' Hlen' H23']; subst.
  rewrite <- !app_assoc. constructor; [|by apply IH].
  rewrite !length_app. lia.
Qed.

Lemma grows_ts_new (k : json) (ts : timeseries) : grows ts (ts_new k ([], []) ts).
Proof.
  unfold ts_new. induction ts as [|[k' [times values]] ts IH]; [constructor|].
  simpl. rewrite <- (app_nil_r times) at 2. rewrite <- (app_nil_r values) at 2.
  by constructor.
Qed.

Lemma grows_ts_append (k : json) (t : datetime) (v : json) (ts : timeseries) :
  grows ts (ts_append k t v ts).
Proof.
  induction ts as [|[k' [times values]] ts IH]; [constructor|].
  simpl. destruct (key_eqb k k').
  - constructor; [done | apply grows_refl].
  - rewrite <- (app_nil_r times) at 2. rewrite <- (app_nil_r values) at 2.
    by constructor.
Qed.

Lemma balanced_ts_append (k : json) (t : datetime) (v : json) (ts : timeseries) :
  balanced ts -> balanced (ts_append k t v ts).
Proof.
  unfold balanced. induction 1 as [|[k' [times values]] ts Hx Hts IH]; [constructor|].
  simpl in *. destruct (key_eqb k k'); constructor; simpl; auto.
  rewrite !length_app. simpl. lia.
Qed.

Lemma balanced_ts_new (k : json) (ts : timeseries) :
  balanced ts -> balanced (ts_new k ([], []) ts).
Proof.
  unfold balanced, ts_new. intros H. apply Forall_app. split; [done|].
  by repeat constructor.
Qed.

(** A hashable value is found again under its own key, so the entry
    [add_record] has just made is the one it appends to. *)
Lemma key_eqb_refl (k : json) : hashable k = true -> key_eqb k k = true.
Proof.
  destruct k as [|b|z|f|s| |]; simpl; try done; intros _.
  - apply Z.eqb_refl.
  - apply Z.eqb_refl.
  - destruct f as [s|s| |s m e]; try done; [by destruct s|].
    unfold key_eqb, SFeqb, SFcompare. simpl.
    destruct s; by rewrite Z.compare_refl, Pos.compare_cont_refl.
  - apply String.eqb_refl.
Qed.

Lemma ts_lookup_new (k : json) (s : series) (ts : timeseries) :
  hashable k = true -> ts_lookup k ts = None ->
  ts_lookup k (ts_new k s ts) = Some s.
Proof.
  intros Hk. unfold ts_new.
  induction ts as [|[k' s'] ts IH]; simpl.
  - by rewrite key_eqb_refl.
  - destruct (key_eqb k k'); [discriminate | done].
Qed.

Lemma ts_lookup_append (k : json) (t : datetime) (v : json) (ts : timeseries)
    (times : list datetime) (values : list json) :
  ts_lookup k ts = Some (times, values) ->
  ts_lookup k (ts_append k t v ts) = Some (times ++ [t], values ++ [v]).
Proof.
  induction ts as [|[k' [times' values']] ts IH]; simpl; [discriminate|].
  destruct (key_eqb k k') eqn:Hk; simpl; rewrite Hk; [by intros [= -> ->] | done].
Qed.

(** A record that carries the metric puts its timestamp and its value at
    the end of the two lists of its entity, which start empty. *)
Lemma add_record_appends (t : datetime) (metric : string) (ts ts' : timeseries)
    (record dbname value : json) :
  py_get record "datname" (JStr "unknown") = Ok dbname ->
  py_get record metric JNull = Ok value ->
  value <> JNull ->
  add_record t metric ts record = Ok ts' ->
  let '(times, values) := default ([], []) (ts_lookup dbname ts) in
  ts_lookup dbname ts' = Some (times ++ [t], values ++ [value]).
Proof.
  intros Hname Hvalue Hnn. unfold add_record. rewrite Hname, Hvalue. simpl.
  destruct (hashable dbname) eqn:Hh; simpl; [|by destruct value].
  assert (Hgoal : forall ts0,
             Ok (ts_append dbname t value
                   match ts_lookup dbname ts with
                   | Some _ => ts
                   | None => ts_new dbname ([], []) ts
                   end) = Ok ts0 ->
             let '(times, values) := default ([], []) (ts_lookup dbname ts) in
             ts_lookup dbname ts0 = Some (times ++ [t], values ++ [value])).
  { intros ts0 [= <-]. destruct (ts_lookup dbname ts) as [[times values]|] eqn:Hl.
    - simpl. by apply ts_lookup_append.
    - simpl. apply (ts_lookup_append dbname t value _ [] []).
      by apply ts_lookup_new. }
  destruct value; try done; apply Hgoal.
Qed.

Lemma add_record_grows (t : datetime) (metric : string) (ts ts' : timeseries)
    (record : json) :
  add_record t metric ts record = Ok ts' ->
  grows ts ts' /\ (balanced ts -> balanced ts').
Proof.
  unfold add_record. intros H. inv_bind H. inv_bind H.
  assert (Hdone : ts' = ts -> grows ts ts' /\ (balanced ts -> balanced ts')).
  { intros ->. split; [apply grows_refl | done]. }
  destruct a0; try (apply Hdone; congruence);
    (destruct (negb (hashable a)); [discriminate|]);
    injection H as <-;
    (destruct (ts_lookup a ts);
     [ split; [apply grows_ts_append | apply balanced_ts_append]
     | split;
       [ eapply grows_trans; [apply grows_ts_new | apply grows_ts_append]
       | intros Hb; by apply balanced_ts_append, balanced_ts_new ] ]).
Qed.

Lemma add_records_grows (t : datetime) (metric : string) (records : list json)
    (ts ts' : timeseries) :
  add_records t metric ts records = Ok ts' ->
  grows ts ts' /\ (balanced ts -> balanced ts').
Proof.
  revert ts. induction records as [|r records IH]; simpl; intros ts H.
  - injection H as <-. split; [apply grows_refl | done].
  - inv_bind H. apply add_record_grows in Ha as [Hg Hb].
    apply IH in H as [Hg' Hb']. split; [by eapply grows_trans | auto].
Qed.

Lemma build_from_grows (metric : string) (snapshots : list snapshot)
    (ts ts' : timeseries) :
  build_from ts snapshots metric = Ok ts' ->
  grows ts ts' /\ (balanced ts -> balanced ts').
Proof.
  revert ts. induction snapshots as [|snap snapshots IH]; simpl; intros ts H.
  - injection H as <-. split; [apply grows_refl | done].
  - inv_bind H. inv_bind H. apply add_records_grows in Ha0 as [Hg Hb].
    apply IH in H as [Hg' Hb']. split; [by eapply grows_trans | auto].
Qed.

Lemma build_from_app (metric : string) (before after : list snapshot)
    (ts ts' : timeseries) :
  build_from ts (before ++ after) metric = Ok ts' ->
  exists ts0, build_from ts before metric = Ok ts0
              /\ build_from ts0 after metric = Ok ts'.
Proof.
  revert ts. induction before as [|snap before IH]; simpl; intros ts H; [eauto|].
  inv_bind H. inv_bind H. rewrite Ha. simpl. rewrite Ha0. simpl. by apply IH.
Qed.

Lemma ts_lookup_elem (k : json) (ts : timeseries) (s : series) :
  ts_lookup k ts = Some s -> exists k', (k', s) ∈ ts.
Proof.
  induction ts as [|[k' s'] ts IH]; simpl; [discriminate|].
  destruct (key_eqb k k').
  - intros [= ->]. exists k'. by left.
  - intros H. destruct (IH H) as [k'' Hin]. exists k''. by right.
Qed.

(** C6: in the mapping [build_timeseries] returns, the timestamps and the
    values of every entity have the same length, whether the entity is
    enumerated or looked up; and the two lists only ever grow at the end:
    the mapping built from any prefix of the snapshots grows into the final
    one, and so does the mapping across every single record. *)
Theorem C6_series_lengths (snapshots : list snapshot) (metric : string)
    (ts : timeseries) :
  build_timeseries snapshots metric = Ok ts ->
  (forall entity times values,
      (entity, (times, values)) ∈ ts -> length times = length values)
  /\ (forall entity times values,
         ts_lookup entity ts = Some (times, values) ->
         length times = length values)
  /\ (forall before after,
         snapshots = before ++ after ->
         exists ts0, build_timeseries before metric = Ok ts0 /\ grows ts0 ts)
  /\ (forall t acc record acc',
         add_record t metric acc record = Ok acc' -> grows acc acc').
Proof.
  unfold build_timeseries. intros H.
  assert (Hb : balanced ts).
  { apply build_from_grows in H as [_ Hb]. apply Hb. constructor. }
  assert (Hall : forall entity times values,
             (entity, (times, values)) ∈ ts -> length times = length values).
  { intros entity times values Hin. unfold balanced in Hb.
    rewrite Forall_forall in Hb. apply (Hb _ Hin). }
  repeat split.
  - exact Hall.
  - intros entity times values Hl. apply ts_lookup_elem in Hl as [k' Hin]. eauto.
  - intros before after ->. apply build_from_app in H as (ts0 & H0 & H1).
    exists ts0. split; [done|]. by apply build_from_grows in H1 as [Hg _].
  - intros t acc record acc' Hr. by apply add_record_grows in Hr as [Hg _].
Qed.

(** ** Selection of the postgres record *)

Lemma is_postgres_true (db : json) :
  is_postgres db = Ok true <->
  datname_field db "String" = Ok (JStr "postgres")
  /\ exists valid, datname_field db "Valid" = Ok valid /\ truthy valid = true.
Proof.
  unfold is_postgres, datname_field.
  destruct (py_getitem db "datname") as [datname|e]; simpl;
    [|split; [discriminate | intros [? _]; discriminate]].
  destruct (py_getitem datname "String") as [name|e]; simpl;
    [|split; [discriminate | intros [? _]; discriminate]].
  destruct (eq_str name "postgres") eqn:Hname.
  - assert (name = JStr "postgres") as ->.
    { destruct name; try discriminate. simpl in Hname.
      apply String.eqb_eq in Hname. by subst. }
    destruct (py_getitem datname "Valid") as [valid|e]; simpl.
    + split.
      * intros [= Ht]. eauto.
      * intros (_ & v & [= <-] & Ht). by rewrite Ht.
    + split; [discriminate | intros (_ & v & ? & _); discriminate].
  - split; [discriminate|]. intros [[= ->] _]. discriminate.
Qed.

Lemma find_postgres_Some (dbs : list json) (r : json) :
  find_postgres dbs = Ok (Some r) -> r ∈ dbs /\ is_postgres r = Ok true.
Proof.
  induction dbs as [|db dbs IH]; simpl; [discriminate|].
  intros H. inv_bind H. destruct a.
  - injection H as <-. split; [by left | done].
  - destruct (IH H) as [Hin Hr]. split; [by right | done].
Qed.

Lemma find_postgres_first (pre post : list json) (r : json) :
  Forall (fun db => is_postgres db = Ok false) pre ->
  is_postgres r = Ok true ->
  find_postgres (pre ++ r :: post) = Ok (Some r).
Proof.
  intros Hpre Hr. induction Hpre as [|db pre Hdb Hpre IH]; simpl.
  - by rewrite Hr.
  - by rewrite Hdb.
Qed.

Lemma selected_is_truthy (r : json) : is_postgres r = Ok true -> truthy r = true.
Proof.
  unfold is_postgres. destruct r as [| | | | | |members]; try discriminate.
  destruct members; [discriminate | done].
Qed.

Lemma ratio_of_selected (r : json) :
  is_postgres r = Ok true ->
  ratio_of (Some r) =
    (let! blks_hit := py_get r "blks_hit" (JInt 0) in
     let! blks_read := py_get r "blks_read" (JInt 1) in
     py_truediv blks_hit blks_read).
Proof.
  intros Hr. unfold ratio_of, get_if. by rewrite (selected_is_truthy r Hr).
Qed.

(** The default 1 stands in for a missing [blks_read] only: a selected
    record whose [blks_read] is 0 divides by zero. *)
Lemma ratio_of_zero_reads (r : json) (hit : Z) :
  is_postgres r = Ok true ->
  py_get r "blks_hit" (JInt 0) = Ok (JInt hit) ->
  py_get r "blks_read" (JInt 1) = Ok (JInt 0) ->
  ratio_of (Some r) = Raise ZeroDivisionError.
Proof.
  intros Hr Hhit Hread. by rewrite (ratio_of_selected r Hr), Hhit, Hread.
Qed.

(** What [read_data_point] computes, field by field. *)
Lemma read_data_point_Ok (content : json) (dp : data_point) :
  read_data_point content = Ok dp ->
  exists ts_str dbs pg_stat toasts,
    py_getitem content "timestamp" = Ok ts_str
    /\ py_fromisoformat ts_str = Ok (dp_timestamp dp)
    /\ db_records content = Ok dbs
    /\ find_postgres dbs = Ok pg_stat
    /\ ratio_of pg_stat = Ok (blks_ratio dp)
    /\ toast_entries content = Ok toasts
    /\ sum_toast (JInt 0) toasts = Ok (toast_total dp).
Proof.
  unfold read_data_point. intros H.
  do 12 (inv_bind H). injection H as <-. simpl.
  exists a, a1, a2, a4. by repeat split.
Qed.

(** C4: a record is selected only when its [datname.String] equals
    "postgres" and the test of its [datname.Valid] holds; a record named
    "postgres" whose [Valid] is [false] is never selected; and when no
    record matches, the ratio is 0 / 1 = 0.0. *)
Theorem C4_postgres_selection (content : json) (dbs : list json) :
  db_records content = Ok dbs ->
  (forall r,
      find_postgres dbs = Ok (Some r) ->
      r ∈ dbs
      /\ datname_field r "String" = Ok (JStr "postgres")
      /\ exists valid, datname_field r "Valid" = Ok valid /\ truthy valid = true)
  /\ (forall r,
         datname_field r "String" = Ok (JStr "postgres") ->
         datname_field r "Valid" = Ok (JBool false) ->
         find_postgres dbs <> Ok (Some r))
  /\ (find_postgres dbs = Ok None ->
      ratio_of None = py_truediv (JInt 0) (JInt 1)
      /\ py_truediv (JInt 0) (JInt 1) = Ok (JFloat (S754_zero false))
      /\ forall dp, read_data_point content = Ok dp ->
                    blks_ratio dp = JFloat (S754_zero false)).
Proof.
  intros Hdbs. split; [|split].
  - intros r Hr. apply find_postgres_Some in Hr as [Hin Hr].
    apply is_postgres_true in Hr. tauto.
  - intros r _ Hv Hr. apply find_postgres_Some in Hr as [_ Hr].
    apply is_postgres_true in Hr as (_ & valid & Hv' & Ht).
    rewrite Hv in Hv'. injection Hv' as <-. discriminate.
  - intros Hnone. split; [done|]. split; [done|].
    intros dp Hdp.
    apply read_data_point_Ok in Hdp
      as (ts_str & dbs' & pg_stat & toasts & _ & _ & Hd & Hf & Hr & _).
    rewrite Hdbs in Hd. injection Hd as <-.
    rewrite Hnone in Hf. injection Hf as <-.
    by injection Hr as <-.
Qed.

(** C10: when the records in front of a record that passes the test all
    fail it, that record is the one selected, whatever follows it, later
    matching records included; the ratio is its [blks_hit] over its
    [blks_read]. *)
Theorem C10_first_match_wins (content : json) (pre post : list json) (r : json) :
  db_records content = Ok (pre ++ r :: post) ->
  Forall (fun db => is_postgres db = Ok false) pre ->
  datname_field r "String" = Ok (JStr "postgres") ->
  datname_field r "Valid" = Ok (JBool true) ->
  find_postgres (pre ++ r :: post) = Ok (Some r)
  /\ (forall post', find_postgres (pre ++ r :: post') = Ok (Some r))
  /\ forall dp,
       read_data_point content = Ok dp ->
       Ok (blks_ratio dp) =
         (let! blks_hit := py_get r "blks_hit" (JInt 0) in
          let! blks_read := py_get r "blks_read" (JInt 1) in
          py_truediv blks_hit blks_read).
Proof.
  intros Hdbs Hpre Hname Hvalid.
  assert (Hr : is_postgres r = Ok true).
  { apply is_postgres_true. split; [done|]. by exists (JBool true). }
  split; [by apply find_postgres_first|].
  split; [intros post'; by apply find_postgres_first|].
  intros dp Hdp.
  apply read_data_point_Ok in Hdp
    as (ts_str & dbs' & pg_stat & toasts & _ & _ & Hd & Hf & Hratio & _).
  rewrite Hdbs in Hd. injection Hd as <-.
  rewrite (find_postgres_first pre post r Hpre Hr) in Hf. injection Hf as <-.
  by rewrite <- Hratio, ratio_of_selected.
Qed.

(** ** The TOAST total *)

Lemma sum_toast_ints (toasts : list json) (sizes : list Z) (acc : Z) :
  Forall2 (fun t size => py_get t "toast_size_bytes" (JInt 0) = Ok (JInt size))
          toasts sizes ->
  sum_toast (JInt acc) toasts = Ok (JInt (acc + foldr Z.add 0 sizes)).
Proof.
  intros H. revert acc.
  induction H as [|t size toasts sizes Ht _ IH]; intros acc; simpl.
  - by rewrite Z.add_0_r.
  - rewrite Ht. simpl. rewrite IH. do 2 f_equal. lia.
Qed.

Lemma toast_entries_absent (members : list (string * json)) :
  dict_lookup "toast_stats" members = None ->
  toast_entries (JObj members) = Ok [].
Proof. unfold toast_entries. simpl. by intros ->. Qed.

(** C5: the [toast_total] of the data point is the sum of the
    [toast_size_bytes] of the entries of [toast_stats] (byte counts, an
    entry without the field counting 0): 150 for the sizes 100 and 50, and
    0 for an empty sequence, which is also what an absent [toast_stats]
    stands for. *)
Theorem C5_toast_total (content : json) (dp : data_point) (toasts : list json)
    (sizes : list Z) :
  read_data_point content = Ok dp ->
  toast_entries content = Ok toasts ->
  Forall2 (fun t size => py_get t "toast_size_bytes" (JInt 0) = Ok (JInt size))
          toasts sizes ->
  toast_total dp = JInt (foldr Z.add 0 sizes)
  /\ (toasts = [toast 100; toast 50] -> toast_total dp = JInt 150)
  /\ (toasts = [] -> toast_total dp = JInt 0)
  /\ (forall members,
         content = JObj members ->
         dict_lookup "toast_stats" members = None ->
         toasts = [] /\ toast_total dp = JInt 0).
Proof.
  intros Hdp Hentries Hsizes.
  apply read_data_point_Ok in Hdp
    as (ts_str & dbs & pg_stat & toasts' & _ & _ & _ & _ & _ & Ht & Hsum).
  rewrite Hentries in Ht. injection Ht as <-.
  assert (Htotal : forall zs,
             Forall2 (fun t size =>
                        py_get t "toast_size_bytes" (JInt 0) = Ok (JInt size))
                     toasts zs ->
             toast_total dp = JInt (foldr Z.add 0 zs)).
  { intros zs Hzs. rewrite (sum_toast_ints toasts zs 0 Hzs) in Hsum.
    by injection Hsum as <-. }
  split; [by apply Htotal|]. split; [|split].
  - intros ->. apply (Htotal [100; 50]). by repeat constructor.
  - intros ->. apply (Htotal []). constructor.
  - intros members -> Habsent.
    rewrite (toast_entries_absent members Habsent) in Hentries.
    injection Hentries as <-. split; [done|]. apply (Htotal []). constructor.
Qed.

(** ** One turn of each loader's loop *)

Lemma load_snapshots_loop_cons (export_dir : string) (d : directory)
    (filename : string) (rest : list string) (snapshots : list snapshot)
    (w : world) :
  load_snapshots_loop export_dir d (filename :: rest) snapshots w =
    match py_open d filename with
    | Raise e => (Raise e, w)
    | Ok f =>
        match read_snapshot f w with
        | (Ok snap, w') =>
            load_snapshots_loop export_dir d rest (snapshots ++ [snap]) w'
        | (Raise e, w') =>
            load_snapshots_loop export_dir d rest snapshots
              (snd (print (FileError (glob_path export_dir filename) e) w'))
        end
    end.
Proof.
  simpl. unfold and_then at 1. unfold lift at 1.
  destruct (py_open d filename) as [f|e]; [|done].
  unfold and_then at 1. unfold try_except. unfold and_then at 1.
  by destruct (read_snapshot f w) as [[snap|e] w'].
Qed.

Lemma load_metrics_loop_cons (d : directory) (filename : string)
    (rest : list string) (data : list data_point) (w : world) :
  load_metrics_loop d (filename :: rest) data w =
    if negb (ends_with ".json" filename) then load_metrics_loop d rest data w
    else
      match read_metrics_file d filename with
      | Ok dp => load_metrics_loop d rest (data ++ [dp]) w
      | Raise e =>
          load_metrics_loop d rest data (snd (print (FileError filename e) w))
      end.
Proof.
  simpl. destruct (negb (ends_with ".json" filename)); [done|].
  unfold and_then at 1. unfold try_except. unfold and_then at 1. unfold lift.
  by destruct (read_metrics_file d filename) as [dp|e].
Qed.

(** The [try] body of [load_snapshots] on a file that holds a dictionary. *)
Lemma read_snapshot_dict (members : list (string * json)) (w : world) :
  read_snapshot (Ok (JObj members)) w =
    let st := default (JArr []) (dict_lookup "stats" members) in
    match dict_lookup "timestamp" members with
    | Some (JStr s) =>
        match fromisoformat s with
        | Some t => (Ok {| timestamp := t; stats := st |}, w)
        | None => (Raise ValueError, w)
        end
    | _ => (Ok {| timestamp := now (clock w); stats := st |}, snd (datetime_now w))
    end.
Proof.
  unfold read_snapshot, and_then, lift, json_load, ret. simpl.
  destruct (dict_lookup "timestamp" members) as [[| | | |s| |]|]; simpl; try done.
  by destruct (fromisoformat s).
Qed.

(** The timestamp in [read_data_point]. *)
Lemma read_data_point_timestamp (members : list (string * json)) :
  match dict_lookup "timestamp" members with
  | Some (JStr s) =>
      match fromisoformat s with
      | Some t =>
          forall dp, read_data_point (JObj members) = Ok dp -> dp_timestamp dp = t
      | None => read_data_point (JObj members) = Raise ValueError
      end
  | Some _ => read_data_point (JObj members) = Raise TypeError
  | None => read_data_point (JObj members) = Raise (KeyError "timestamp")
  end.
Proof.
  unfold read_data_point. simpl.
  destruct (dict_lookup "timestamp" members) as [[| | | |s| |]|]; simpl; try done.
  destruct (fromisoformat s) as [t|]; simpl; [|done].
  intros dp H. repeat (inv_bind H). by injection H as <-.
Qed.

(** C2, as the code has it.  For a file that holds a dictionary:
    [load_snapshots] uses the timestamp when it is a string the parser
    accepts; when the field is absent or is not a string it takes the
    clock's reading and still appends the snapshot; when it is a string the
    parser rejects, the file is a failure like any other: logged,
    nothing appended.  [load_metrics] uses a string the parser accepts and
    excludes the file in every other case, with the exception logged. *)
Theorem C2_timestamp_rule (export_dir : string) (d : directory)
    (filename : string) (rest : list string) (members : list (string * json))
    (snapshots : list snapshot) (data : list data_point) (w : world) :
  py_open d filename = Ok (Ok (JObj members)) ->
  ends_with ".json" filename = true ->
  let st := default (JArr []) (dict_lookup "stats" members) in
  match dict_lookup "timestamp" members with
  | Some (JStr s) =>
      match fromisoformat s with
      | Some t =>
          load_snapshots_loop export_dir d (filename :: rest) snapshots w =
            load_snapshots_loop export_dir d rest
              (snapshots ++ [{| timestamp := t; stats := st |}]) w
          /\ forall dp,
               read_metrics_file d filename = Ok dp ->
               dp_timestamp dp = t
               /\ load_metrics_loop d (filename :: rest) data w =
                    load_metrics_loop d rest (data ++ [dp]) w
      | None =>
          load_snapshots_loop export_dir d (filename :: rest) snapshots w =
            load_snapshots_loop export_dir d rest snapshots
              (snd (print (FileError (glob_path export_dir filename) ValueError) w))
          /\ load_metrics_loop d (filename :: rest) data w =
               load_metrics_loop d rest data
                 (snd (print (FileError filename ValueError) w))
      end
  | other =>
      load_snapshots_loop export_dir d (filename :: rest) snapshots w =
        load_snapshots_loop export_dir d rest
          (snapshots ++ [{| timestamp := now (clock w); stats := st |}])
          (snd (datetime_now w))
      /\ load_metrics_loop d (filename :: rest) data w =
           load_metrics_loop d rest data
             (snd (print (FileError filename
                            match other with
                            | Some _ => TypeError
                            | None => KeyError "timestamp"
                            end) w))
  end.
Proof.
  intros Hopen Hjson st.
  rewrite load_snapshots_loop_cons, load_metrics_loop_cons, Hopen, Hjson.
  rewrite read_snapshot_dict. fold st. simpl negb. cbv iota.
  unfold read_metrics_file. rewrite Hopen. simpl.
  pose proof (read_data_point_timestamp members) as Hts.
  destruct (dict_lookup "timestamp" members) as [[| | | |s| |]|];
    try (by rewrite Hts).
  destruct (fromisoformat s) as [t|]; [|by rewrite Hts].
  split; [done|]. intros dp Hdp. split; [by apply Hts|]. by rewrite Hdp.
Qed.

(** ** The loaders as a whole *)

Lemma sorted_strongly (names : list string) : StronglySorted String.le (sorted names).
Proof. apply StronglySorted_merge_sort; apply _. Qed.

Lemma sorted_perm (names : list string) : sorted names ≡ₚ names.
Proof. apply merge_sort_Permutation. Qed.

(** The order in which the operating system lists the names is immaterial. *)
Lemma sorted_listing (names names' : list string) :
  names ≡ₚ names' -> sorted names = sorted names'.
Proof.
  intros Hp. apply (StronglySorted_unique String.le); try apply sorted_strongly.
  by rewrite !sorted_perm.
Qed.

Lemma StronglySorted_filter {A : Type} (R : relation A) (P : A -> Prop)
    `{forall x, Decision (P x)} (l : list A) :
  StronglySorted R l -> StronglySorted R (filter P l).
Proof.
  induction 1 as [|x l Hl IH Hx]; [constructor|].
  rewrite filter_cons. destruct (decide (P x)); [|done].
  constructor; [done|]. rewrite Forall_forall in *.
  intros y Hy. apply list_elem_of_filter in Hy as [_ Hy]. auto.
Qed.

Lemma metrics_of_name (d : directory) (n n' : string) (dp : data_point) :
  metrics_of d n = Some (n', dp) ->
  n' = n /\ ends_with ".json" n = true /\ read_metrics_file d n = Ok dp.
Proof.
  unfold metrics_of. destruct (ends_with ".json" n); [|discriminate].
  destruct (read_metrics_file d n); [|discriminate]. by intros [= <- <-].
Qed.

Lemma parsed_metrics_names (d : directory) (names : list string) :
  map fst (omap (metrics_of d) names)
  = filter (fun n => is_Some (metrics_of d n)) names.
Proof.
  induction names as [|n names IH]; [done|].
  rewrite filter_cons. simpl.
  destruct (metrics_of d n) as [[n' dp]|] eqn:Hn.
  - apply metrics_of_name in Hn as (-> & _ & _).
    destruct (decide (is_Some (Some (n, dp)))) as [_|Hno];
      [simpl; by f_equal | destruct Hno; eauto].
  - destruct (decide (is_Some (@None (string * data_point)))) as [[? ?]|_];
      [discriminate | done].
Qed.

(** [load_metrics] never raises: it returns the data points of the files
    it could read and prints one diagnostic for each of the others. *)
Lemma load_metrics_loop_spec (d : directory) (names : list string)
    (data : list data_point) (w : world) :
  load_metrics_loop d names data w =
    (Ok (data ++ map snd (omap (metrics_of d) names)),
     {| clock := clock w;
        stdout := stdout w ++ omap (metrics_failure d) names;
        figures := figures w |}).
Proof.
  revert data w. induction names as [|n names IH]; intros data w.
  - simpl. unfold ret. rewrite !app_nil_r. by destruct w.
  - rewrite load_metrics_loop_cons. simpl. unfold metrics_of, metrics_failure.
    destruct (ends_with ".json" n); simpl; [|apply IH].
    destruct (read_metrics_file d n) as [dp|e]; rewrite IH; simpl.
    + by rewrite <- app_assoc.
    + by rewrite <- app_assoc.
Qed.

(** What the [try] body of [load_snapshots] returns: the file holds an
    object, whose [stats] the snapshot takes, under the timestamp of the
    file or, when that is no string, under the next reading of the clock. *)
Lemma read_snapshot_Ok (f : result json) (w w' : world) (snap : snapshot) :
  read_snapshot f w = (Ok snap, w') ->
  exists members,
    f = Ok (JObj members)
    /\ stats snap = default (JArr []) (dict_lookup "stats" members)
    /\ (clock w <= clock w')%nat
    /\ match dict_lookup "timestamp" members with
       | Some (JStr s) => fromisoformat s = Some (timestamp snap)
       | _ => timestamp snap = now (clock w) /\ clock w' = S (clock w)
       end.
Proof.
  destruct f as [[| | | | | |members]|e]; try discriminate.
  rewrite read_snapshot_dict. intros H. exists members. split; [done|].
  cbv zeta in H.
  destruct (dict_lookup "timestamp" members) as [[| | | |s| |]|];
    try (injection H as <- <-; simpl; split; [done|]; split; [lia|]; by split).
  destruct (fromisoformat s) as [t|] eqn:Hs; [|discriminate].
  injection H as <- <-. simpl. split; [done|]. split; [lia | done].
Qed.

Lemma read_snapshot_Raise (f : result json) (w w' : world) (e : exn) :
  read_snapshot f w = (Raise e, w') -> w' = w.
Proof.
  destruct f as [[| | | | | |members]|e']; try (by intros [= _ <-]).
  rewrite read_snapshot_dict.
  destruct (dict_lookup "timestamp" members) as [[| | | |s| |]|]; try discriminate.
  destruct (fromisoformat s); [discriminate|]. by intros [= _ <-].
Qed.

(** [readable] tells whether the [try] body succeeds on the file, at any
    state of the run. *)
Lemma readable_spec (d : directory) (n : string) (w : world) :
  readable d n =
    match py_open d n with
    | Ok f => is_ok (fst (read_snapshot f w))
    | Raise _ => false
    end.
Proof.
  unfold readable.
  destruct (py_open d n) as [[[| | | | | |members]|e]|e]; try done.
  rewrite read_snapshot_dict.
  destruct (dict_lookup "timestamp" members) as [[| | | |s| |]|]; try done.
  by destruct (fromisoformat s).
Qed.

Lemma read_from_mono (first first' next next' : nat) (d : directory)
    (n : string) (snap : snapshot) :
  (first' <= first)%nat -> (next <= next')%nat ->
  read_from first next d n snap -> read_from first' next' d n snap.
Proof.
  intros Hf Hn (members & Hopen & Hstats & Hts).
  exists members. split; [done|]. split; [done|].
  destruct (dict_lookup "timestamp" members) as [[| | | |s| |]|]; try done;
    destruct Hts as (k & Hk & Hnow); exists k; (split; [lia | done]).
Qed.

Lemma load_snapshots_loop_spec (export_dir : string) (d : directory)
    (files : list string) (snapshots snaps : list snapshot) (w w' : world) :
  load_snapshots_loop export_dir d files snapshots w = (Ok snaps, w') ->
  (clock w <= clock w')%nat
  /\ exists new,
       snaps = snapshots ++ new
       /\ Forall2 (read_from (clock w) (clock w') d)
                  (filter (fun n => Is_true (readable d n)) files) new.
Proof.
  revert snapshots w. induction files as [|n files IH]; intros snapshots w.
  - simpl. unfold ret. intros [= <- <-]. split; [lia|]. exists [].
    rewrite app_nil_r. split; [done | constructor].
  - pose proof (readable_spec d n w) as Hr.
    rewrite load_snapshots_loop_cons, filter_cons.
    destruct (py_open d n) as [f|e] eqn:Hopen; [|discriminate].
    destruct (read_snapshot f w) as [[snap|e] w1] eqn:Hread; simpl in Hr; intros H.
    + apply read_snapshot_Ok in Hread as (members & -> & Hstats & Hclock & Hts).
      apply IH in H as (Hle & new & -> & Hnew).
      split; [lia|]. exists (snap :: new).
      rewrite <- app_assoc. split; [done|].
      destruct (decide (Is_true (readable d n))) as [_|Hno];
        [|by rewrite Hr in Hno].
      constructor.
      * exists members. split; [done|]. split; [done|].
        destruct (dict_lookup "timestamp" members) as [[| | | |s| |]|]; try done;
          destruct Hts as [Hnow Hnext]; exists (clock w); (split; [lia | done]).
      * eapply Forall2_impl; [exact Hnew|].
        intros n' snap'. apply read_from_mono; lia.
    + apply read_snapshot_Raise in Hread as ->.
      apply IH in H as (Hle & new & -> & Hnew). simpl in Hle, Hnew.
      split; [done|]. exists new. split; [done|].
      destruct (decide (Is_true (readable d n))) as [Hyes|_];
        [by rewrite Hr in Hyes | done].
Qed.

Lemma load_snapshots_loop_total (export_dir : string) (d : directory)
    (files : list string) (snapshots : list snapshot) (w : world) :
  Forall (fun n => is_ok (py_open d n) = true) files ->
  exists snaps w', load_snapshots_loop export_dir d files snapshots w = (Ok snaps, w').
Proof.
  intros Hopen. revert snapshots w.
  induction Hopen as [|n files Hn _ IH]; intros snapshots w.
  - simpl. unfold ret. eauto.
  - rewrite load_snapshots_loop_cons.
    destruct (py_open d n) as [f|e]; [|discriminate].
    destruct (read_snapshot f w) as [[snap|e] w1]; apply IH.
Qed.

(** The names of a directory are distinct, and then a loader's result does
    not depend on the order in which the entries are listed. *)
Lemma find_file_elem (d : directory) (n : string) (f : file) :
  NoDup (listdir d) -> find_file n d = Some f <-> (n, f) ∈ d.
Proof.
  unfold listdir. induction d as [|[n' f'] d IH]; simpl; intros Hnd.
  - split; [discriminate | by intros ?%elem_of_nil].
  - apply NoDup_cons in Hnd as [Hn' Hnd]. rewrite elem_of_cons.
    destruct (String.eqb_spec n n') as [->|Hne].
    + split; [intros [= ->]; by left|].
      intros [[= ->]|Hin]; [done|]. destruct Hn'.
      apply list_elem_of_fmap. by exists (n', f).
    + rewrite (IH Hnd). split; [by right|]. intros [[= -> _]|Hin]; done.
Qed.

Lemma find_file_listing (d d' : directory) (n : string) :
  NoDup (listdir d) -> d ≡ₚ d' -> find_file n d = find_file n d'.
Proof.
  intros Hnd Hp.
  assert (Hnd' : NoDup (listdir d')) by (unfold listdir in *; by rewrite <- Hp).
  destruct (find_file n d) as [f|] eqn:Hf.
  - symmetry. apply (find_file_elem d' n f Hnd'). rewrite <- Hp.
    by apply (find_file_elem d n f Hnd).
  - destruct (find_file n d') as [f'|] eqn:Hf'; [|done].
    apply (find_file_elem d' n f' Hnd') in Hf'. rewrite <- Hp in Hf'.
    apply (find_file_elem d n f' Hnd) in Hf'. congruence.
Qed.

Lemma load_snapshots_loop_ext (export_dir : string) (d d' : directory) :
  (forall n, py_open d n = py_open d' n) ->
  forall files snapshots w,
    load_snapshots_loop export_dir d files snapshots w
    = load_snapshots_loop export_dir d' files snapshots w.
Proof.
  intros Hopen files. induction files as [|n files IH]; intros snapshots w; [done|].
  rewrite !load_snapshots_loop_cons, <- Hopen.
  destruct (py_open d n) as [f|e]; [|done].
  by destruct (read_snapshot f w) as [[snap|e] w1].
Qed.

Lemma load_metrics_loop_ext (d d' : directory) :
  (forall n, py_open d n = py_open d' n) ->
  forall names data w,
    load_metrics_loop d names data w = load_metrics_loop d' names data w.
Proof.
  intros Hopen names. induction names as [|n names IH]; intros data w; [done|].
  rewrite !load_metrics_loop_cons. unfold read_metrics_file. rewrite <- Hopen.
  destruct (negb (ends_with ".json" n)); [done|].
  by destruct (let! f := py_open d n in let! content := json_load f in
               read_data_point content).
Qed.

(** X2: both loaders sort the names before they read the files, so for a
    directory of distinct names the order in which the operating system
    lists its entries changes neither the result nor what is printed. *)
Lemma listing_order_immaterial (export_dir : string) (d d' : directory) (w : world) :
  NoDup (listdir d) ->
  d ≡ₚ d' ->
  load_snapshots export_dir d w = load_snapshots export_dir d' w
  /\ load_metrics d w = load_metrics d' w.
Proof.
  intros Hnd Hp.
  assert (Hopen : forall n, py_open d n = py_open d' n).
  { intros n. unfold py_open. by rewrite (find_file_listing d d' n Hnd Hp). }
  assert (Hls : listdir d ≡ₚ listdir d') by (unfold listdir; by rewrite Hp).
  unfold load_snapshots, load_metrics. split.
  - rewrite (sorted_listing (glob d) (glob d')); [by apply load_snapshots_loop_ext|].
    unfold glob. by rewrite Hls.
  - rewrite (sorted_listing (listdir d) (listdir d') Hls).
    by apply load_metrics_loop_ext.
Qed.

Lemma parsed_metrics_elem (d : directory) (n : string) (dp : data_point) :
  (n, dp) ∈ parsed_metrics d <->
  n ∈ listdir d /\ ends_with ".json" n = true /\ read_metrics_file d n = Ok dp.
Proof.
  unfold parsed_metrics. rewrite list_elem_of_omap. split.
  - intros (n' & Hin & Hm). apply metrics_of_name in Hm as (<- & ? & ?).
    by rewrite sorted_perm in Hin.
  - intros (Hin & Hjson & Hread). exists n. rewrite sorted_perm.
    split; [done|]. unfold metrics_of. by rewrite Hjson, Hread.
Qed.

Lemma parsed_names_elem (d : directory) (n : string) :
  n ∈ parsed_names d <->
  n ∈ listdir d /\ glob_match n = true /\ readable d n = true.
Proof.
  unfold parsed_names, glob.
  rewrite list_elem_of_filter, sorted_perm, list_elem_of_filter.
  rewrite !Is_true_true. tauto.
Qed.

(** The data point [load_metrics] makes of a file is the one the fields of
    the file determine. *)
Lemma read_metrics_file_from (d : directory) (n : string) (dp : data_point) :
  read_metrics_file d n = Ok dp <-> metrics_from d n dp.
Proof.
  unfold read_metrics_file, metrics_from, json_load. split.
  - destruct (py_open d n) as [[content|e]|e]; try discriminate. simpl.
    destruct content as [| | | | | |members]; try discriminate.
    unfold read_data_point. cbn [py_getitem].
    destruct (dict_lookup "timestamp" members) as [ts_str|] eqn:Hts; [|discriminate].
    cbn [bind]. destruct ts_str as [| | | |s| |]; try discriminate.
    cbn [py_fromisoformat].
    destruct (fromisoformat s) as [t|] eqn:Hs; [|discriminate]. cbn [bind].
    intros H. do 5 (inv_bind H). cbn [py_get bind] in H. injection H as <-.
    exists members, s, a, a0, a2. cbn. by repeat split.
  - intros (members & s & dbs & pg_stat & toasts & -> & Hts & Hs & Hdbs & Hpg
            & Hratio & Htoasts & Hsum & H1 & H2 & H3 & H4 & H5).
    simpl. unfold read_data_point. cbn [py_getitem]. rewrite Hts. cbn [bind].
    cbn [py_fromisoformat]. rewrite Hs. cbn [bind].
    rewrite Hdbs. cbn [bind]. rewrite Hpg. cbn [bind]. rewrite Hratio. cbn [bind].
    rewrite Htoasts. cbn [bind]. rewrite Hsum. cbn [bind py_get].
    rewrite <- H1, <- H2, <- H3, <- H4, <- H5. by destruct dp.
Qed.


(** ** The single-folder pipeline *)

Lemma add_records_lacking (t : datetime) (metric : string) (ts : timeseries)
    (records : list json) :
  Forall (fun r => py_get r metric JNull = Ok JNull) records ->
  add_records t metric ts records = Ok ts.
Proof.
  induction 1 as [|r records Hr _ IH]; [done|]. simpl.
  assert (add_record t metric ts r = Ok ts) as ->; [|done].
  unfold add_record. rewrite Hr. simpl.
  destruct r; try discriminate. done.
Qed.

Lemma build_from_lacking (metric : string) (snapshots : list snapshot)
    (ts : timeseries) :
  Forall (lacks_metric metric) snapshots ->
  build_from ts snapshots metric = Ok ts.
Proof.
  induction 1 as [|snap snapshots (records & Hiter & Hrecords) _ IH]; [done|].
  simpl. rewrite Hiter. simpl. by rewrite add_records_lacking.
Qed.

Lemma main_after_load (metric export_dir : string) (d : directory)
    (snapshots : list snapshot) (w w' : world) :
  load_snapshots export_dir d w = (Ok snapshots, w') ->
  main metric export_dir d w =
    if is_empty snapshots then print (no_statistics export_dir) w'
    else
      match build_timeseries snapshots metric with
      | Ok ts =>
          if is_empty ts then print (metric_not_found metric) w'
          else plot_metric ts metric w'
      | Raise e => (Raise e, w')
      end.
Proof.
  intros Hload. unfold main, and_then at 1. rewrite Hload.
  destruct (is_empty snapshots); [done|]. unfold and_then, lift.
  destruct (build_timeseries snapshots metric) as [ts|e]; [|done].
  by destruct (is_empty ts).
Qed.


Lemma find_file_other (n n' : string) (f : file) (d : directory) :
  n <> n' -> find_file n ((n', f) :: d) = find_file n d.
Proof. intros Hne. simpl. by apply String.eqb_neq in Hne as ->. Qed.

Lemma find_file_same (n : string) (f : file) (d : directory) :
  find_file n ((n, f) :: d) = Some f.
Proof. simpl. by rewrite String.eqb_refl. Qed.

(** C9: a directory whose name is taken literally and that holds exactly
    the two sample files, under names that match the pattern and sort in
    the order of their dates, loads into the two snapshots in that order,
    and the metric "x" extracts to the single entity "a" with the two
    timestamps and the values 5 and 7; these are the series [main] hands
    to [plot_metric]. *)
Theorem C9_end_to_end (export_dir : string) (d : directory) (n1 n2 : string)
    (t1 t2 : datetime) (w : world) :
  has_magic export_dir = false ->
  fromisoformat "2024-01-01T00:00:00" = Some t1 ->
  fromisoformat "2024-01-02T00:00:00" = Some t2 ->
  d ≡ₚ [(n1, Opened (Ok first_day)); (n2, Opened (Ok second_day))] ->
  glob_match n1 = true ->
  glob_match n2 = true ->
  n1 <> n2 ->
  String.le n1 n2 ->
  let snapshots :=
    [ {| timestamp := t1; stats := JArr [JObj [("datname", JStr "a"); ("x", JInt 5)]] |};
      {| timestamp := t2; stats := JArr [JObj [("datname", JStr "a"); ("x", JInt 7)]] |} ] in
  let expected := [(JStr "a", ([t1; t2], [JInt 5; JInt 7]))] in
  load_snapshots export_dir d w = (Ok snapshots, w)
  /\ build_timeseries snapshots "x" = Ok expected
  /\ main "x" export_dir d w = plot_metric expected "x" w.
Proof.
  intros _ H1 H2 Hd Hg1 Hg2 Hne Hle snapshots expected.
  assert (Hfiles : sorted (glob d) = [n1; n2]).
  { apply (StronglySorted_unique String.le); [apply sorted_strongly | |].
    - repeat constructor. done.
    - rewrite sorted_perm. unfold glob, listdir. rewrite Hd. simpl.
      rewrite !filter_cons, filter_nil.
      destruct (decide (Is_true (glob_match n1))) as [_|Hno];
        [|by rewrite Hg1 in Hno].
      destruct (decide (Is_true (glob_match n2))) as [_|Hno];
        [done | by rewrite Hg2 in Hno]. }
  assert (Hf1 : find_file n1 d = Some (Opened (Ok first_day))
                /\ find_file n2 d = Some (Opened (Ok second_day))).
  { apply Permutation_sym, Permutation_length_2_inv in Hd as [-> | ->].
    - by rewrite find_file_same, find_file_other, find_file_same.
    - by rewrite find_file_same, find_file_other, find_file_same. }
  destruct Hf1 as [Hf1 Hf2].
  assert (Hr1 : read_snapshot (Ok first_day) w
                = (Ok {| timestamp := t1;
                         stats := JArr [JObj [("datname", JStr "a"); ("x", JInt 5)]] |}, w)).
  { unfold first_day, stats_file. rewrite read_snapshot_dict. simpl. by rewrite H1. }
  assert (Hr2 : read_snapshot (Ok second_day) w
                = (Ok {| timestamp := t2;
                         stats := JArr [JObj [("datname", JStr "a"); ("x", JInt 7)]] |}, w)).
  { unfold second_day, stats_file. rewrite read_snapshot_dict. simpl. by rewrite H2. }
  assert (Hload : load_snapshots export_dir d w = (Ok snapshots, w)).
  { unfold load_snapshots. rewrite Hfiles.
    rewrite load_snapshots_loop_cons. unfold py_open at 1. rewrite Hf1, Hr1.
    rewrite load_snapshots_loop_cons. unfold py_open at 1. by rewrite Hf2, Hr2. }
  assert (Hbuild : build_timeseries snapshots "x" = Ok expected) by done.
  split; [done|]. split; [done|].
  by rewrite (main_after_load "x" export_dir d snapshots w w Hload), Hbuild.
Qed.

(** ** More on [build_timeseries] *)

Lemma bind_ext {A B : Type} (c : result A) (k k' : A -> result B) :
  (forall a, k a = k' a) -> bind c k = bind c k'.
Proof. intros H. destruct c; simpl; [apply H | done]. Qed.

Lemma add_record_skip (t : datetime) (metric : string) (ts : timeseries)
    (record : json) :
  carries metric record = false -> add_record t metric ts record = Ok ts.
Proof.
  unfold carries, add_record.
  destruct (py_get record metric JNull) as [[]|] eqn:Hv; try discriminate.
  intros _. destruct record; try discriminate. done.
Qed.

Lemma add_records_filter (t : datetime) (metric : string) (records : list json)
    (ts : timeseries) :
  add_records t metric ts records
  = add_records t metric ts (List.filter (carries metric) records).
Proof.
  revert ts. induction records as [|r records IH]; intros ts; [done|].
  simpl. destruct (carries metric r) eqn:Hc; simpl.
  - apply bind_ext. intros ts'. apply IH.
  - rewrite (add_record_skip t metric ts r Hc). simpl. apply IH.
Qed.

Lemma py_iter_records_of (snap : snapshot) :
  is_ok (py_iter (stats snap)) = true ->
  py_iter (stats snap) = Ok (records_of snap).
Proof. unfold records_of. by destruct (py_iter (stats snap)). Qed.

Lemma build_from_prune (metric : string) (snapshots : list snapshot)
    (ts : timeseries) :
  Forall (fun snap => is_ok (py_iter (stats snap)) = true) snapshots ->
  build_from ts snapshots metric
  = build_from ts (map (prune metric) snapshots) metric.
Proof.
  intros Hiter. revert ts.
  induction Hiter as [|snap snapshots Hsnap _ IH]; intros ts; [done|].
  simpl. rewrite (py_iter_records_of snap Hsnap). simpl.
  rewrite (add_records_filter (timestamp snap) metric (records_of snap)).
  apply bind_ext. intros ts'. apply IH.
Qed.

(** X7: records without the metric leave no trace: on snapshots whose [stats]
    can be iterated, the mapping (or the exception) is the one of the
    collection reduced to the records that carry the metric. *)
Theorem build_timeseries_prune (metric : string) (snapshots : list snapshot) :
  Forall (fun snap => is_ok (py_iter (stats snap)) = true) snapshots ->
  build_timeseries snapshots metric
  = build_timeseries (map (prune metric) snapshots) metric.
Proof. apply build_from_prune. Qed.

Lemma add_record_is_ok (t : datetime) (metric : string) (ts : timeseries)
    (record : json) :
  is_ok (add_record t metric ts record) = record_ok metric record.
Proof.
  destruct record as [| | | | | |members]; try done.
  unfold add_record, record_ok. simpl.
  destruct (dict_lookup metric members) as [[]|]; simpl; try done;
    by destruct (hashable _).
Qed.

Lemma add_record_error (t : datetime) (metric : string) (ts : timeseries)
    (record : json) (e : exn) :
  add_record t metric ts record = Raise e -> e = TypeError \/ e = AttributeError.
Proof.
  destruct record as [| | | | | |members]; simpl;
    try (intros [= <-]; by right).
  unfold add_record. simpl.
  destruct (dict_lookup metric members) as [[]|]; simpl; try discriminate;
    (destruct (hashable _); simpl; [discriminate | intros [= <-]; by left]).
Qed.

Lemma add_records_is_ok (t : datetime) (metric : string) (records : list json)
    (ts : timeseries) :
  is_ok (add_records t metric ts records) = forallb (record_ok metric) records.
Proof.
  revert ts. induction records as [|r records IH]; intros ts; [done|].
  simpl. rewrite <- (add_record_is_ok t metric ts r).
  destruct (add_record t metric ts r) as [ts'|e]; simpl; [apply IH | done].
Qed.

Lemma add_records_error (t : datetime) (metric : string) (records : list json)
    (ts : timeseries) (e : exn) :
  add_records t metric ts records = Raise e -> e = TypeError \/ e = AttributeError.
Proof.
  revert ts. induction records as [|r records IH]; intros ts; [discriminate|].
  simpl. destruct (add_record t metric ts r) as [ts'|e'] eqn:Hr; simpl.
  - apply IH.
  - intros [= <-]. by apply add_record_error in Hr.
Qed.

Lemma py_iter_error (x : json) (e : exn) : py_iter x = Raise e -> e = TypeError.
Proof. destruct x; simpl; congruence. Qed.

Lemma build_from_is_ok (metric : string) (snapshots : list snapshot)
    (ts : timeseries) :
  is_ok (build_from ts snapshots metric) = forallb (snapshot_ok metric) snapshots.
Proof.
  revert ts. induction snapshots as [|snap snapshots IH]; intros ts; [done|].
  simpl. unfold snapshot_ok at 1, records_of.
  destruct (py_iter (stats snap)) as [records|e]; simpl; [|done].
  rewrite <- (add_records_is_ok (timestamp snap) metric records ts).
  destruct (add_records (timestamp snap) metric ts records) as [ts'|e]; simpl;
    [apply IH | done].
Qed.

Lemma build_from_error (metric : string) (snapshots : list snapshot)
    (ts : timeseries) (e : exn) :
  build_from ts snapshots metric = Raise e -> e = TypeError \/ e = AttributeError.
Proof.
  revert ts. induction snapshots as [|snap snapshots IH]; intros ts; [discriminate|].
  simpl. destruct (py_iter (stats snap)) as [records|e'] eqn:Hi; simpl.
  - destruct (add_records (timestamp snap) metric ts records) as [ts'|e'] eqn:Hr;
      simpl; [apply IH|].
    intros [= <-]. by apply add_records_error in Hr.
  - intros [= <-]. left. by apply py_iter_error in Hi.
Qed.

(** X8: [build_timeseries] is not guarded by any [try].  It returns a mapping
    exactly when every [stats] can be iterated and each of its records is
    a dictionary that lacks the metric or has a hashable [datname];
    otherwise it raises, and then a [TypeError] or an [AttributeError]. *)
Theorem build_timeseries_succeeds_iff (metric : string) (snapshots : list snapshot) :
  is_ok (build_timeseries snapshots metric) = forallb (snapshot_ok metric) snapshots
  /\ forall e,
       build_timeseries snapshots metric = Raise e ->
       e = TypeError \/ e = AttributeError.
Proof.
  split; [apply build_from_is_ok | intros e; apply build_from_error].
Qed.

Lemma point_count_app (ts1 ts2 : timeseries) :
  point_count (ts1 ++ ts2) = (point_count ts1 + point_count ts2)%nat.
Proof.
  unfold point_count. induction ts1 as [|e ts1 IH]; [done|].
  simpl. rewrite IH. lia.
Qed.

Lemma point_count_append (k : json) (t : datetime) (v : json) (ts : timeseries)
    (s : series) :
  ts_lookup k ts = Some s ->
  point_count (ts_append k t v ts) = S (point_count ts).
Proof.
  unfold point_count.
  induction ts as [|[k' [times values]] ts IH]; simpl; [discriminate|].
  destruct (key_eqb k k'); simpl.
  - intros _. rewrite length_app. simpl. lia.
  - intros H. rewrite (IH H). lia.
Qed.

Lemma ts_lookup_is_Some_new (k : json) (ts : timeseries) :
  hashable k = true ->
  is_Some (ts_lookup k match ts_lookup k ts with
                       | Some _ => ts
                       | None => ts_new k ([], []) ts
                       end).
Proof.
  intros Hk. destruct (ts_lookup k ts) as [s|] eqn:Hl.
  - rewrite Hl. eauto.
  - rewrite ts_lookup_new; eauto.
Qed.

Lemma add_record_points (t : datetime) (metric : string) (ts ts' : timeseries)
    (record : json) :
  add_record t metric ts record = Ok ts' ->
  point_count ts' = (point_count ts + if carries metric record then 1 else 0)%nat.
Proof.
  destruct (carries metric record) eqn:Hc.
  - destruct record as [| | | | | |members]; try discriminate.
    unfold carries in Hc. unfold add_record. simpl in *.
    set (dbname := default (JStr "unknown") (dict_lookup "datname" members)).
    assert (Hadd : forall value,
               hashable dbname = true ->
               point_count
                 (ts_append dbname t value
                    match ts_lookup dbname ts with
                    | Some _ => ts
                    | None => ts_new dbname ([], []) ts
                    end)
               = (point_count ts + 1)%nat).
    { intros value Hh.
      destruct (ts_lookup_is_Some_new dbname ts Hh) as [s Hs].
      rewrite (point_count_append _ _ _ _ s Hs).
      destruct (ts_lookup dbname ts); [lia|].
      unfold ts_new. rewrite point_count_app. unfold point_count. simpl. lia. }
    destruct (default JNull (dict_lookup metric members)) eqn:Hv;
      try discriminate;
      (destruct (hashable dbname) eqn:Hh; simpl; [|discriminate]);
      intros [= <-]; by apply Hadd.
  - rewrite (add_record_skip t metric ts record Hc). intros [= <-]. lia.
Qed.

Lemma add_records_points (t : datetime) (metric : string) (records : list json)
    (ts ts' : timeseries) :
  add_records t metric ts records = Ok ts' ->
  point_count ts'
  = (point_count ts + length (List.filter (carries metric) records))%nat.
Proof.
  revert ts. induction records as [|r records IH]; simpl; intros ts H.
  - injection H as <-. lia.
  - inv_bind H. apply add_record_points in Ha. apply IH in H.
    rewrite H, Ha. destruct (carries metric r); simpl; lia.
Qed.

Lemma build_from_points (metric : string) (snapshots : list snapshot)
    (ts ts' : timeseries) :
  build_from ts snapshots metric = Ok ts' ->
  point_count ts' = (point_count ts + carrying_records metric snapshots)%nat.
Proof.
  unfold carrying_records.
  revert ts. induction snapshots as [|snap snapshots IH]; simpl; intros ts H.
  - injection H as <-. lia.
  - inv_bind H. inv_bind H. apply add_records_points in Ha0. apply IH in H.
    assert (records_of snap = a) as -> by (unfold records_of; by rewrite Ha).
    rewrite H, Ha0. lia.
Qed.

(** X9: every record that carries the metric contributes exactly one point:
    the values of the returned mapping, over all entities, are as many as
    the records that carry the metric, and so are the timestamps. *)
Theorem build_timeseries_point_count (metric : string) (snapshots : list snapshot)
    (ts : timeseries) :
  build_timeseries snapshots metric = Ok ts ->
  point_count ts = carrying_records metric snapshots
  /\ sum_list (map (fun e : json * series => length (fst (snd e))) ts)
     = carrying_records metric snapshots.
Proof.
  intros H.
  assert (Hp : point_count ts = carrying_records metric snapshots).
  { by rewrite (build_from_points _ _ _ _ H). }
  apply build_from_grows in H as [_ Hb].
  assert (Hbal : balanced ts) by (apply Hb; constructor).
  split; [exact Hp|]. rewrite <- Hp. unfold point_count, balanced in *.
  clear Hp Hb. induction Hbal as [|e ts He _ IH]; [done|].
  simpl. rewrite He, IH. done.
Qed.

(** ** Entities and their keys *)

Lemma ts_lookup_None (k : json) (ts : timeseries) :
  ts_lookup k ts = None <-> Forall (fun k' => key_eqb k k' = false) (map fst ts).
Proof.
  induction ts as [|[k' s] ts IH]; simpl.
  - split; [constructor | done].
  - destruct (key_eqb k k') eqn:Hk.
    + split; [discriminate|]. intros H. apply Forall_cons in H as [H _]. congruence.
    + rewrite IH. split; [by constructor | by intros [_ H]%Forall_cons].
Qed.

Lemma ts_lookup_app_None (k : json) (ts1 ts2 : timeseries) :
  ts_lookup k ts1 = None -> ts_lookup k (ts1 ++ ts2) = ts_lookup k ts2.
Proof.
  induction ts1 as [|[k' s] ts1 IH]; simpl; [done|].
  destruct (key_eqb k k'); [discriminate | done].
Qed.

Lemma tidy_append (k : json) (t : datetime) (v : json) (ts : timeseries)
    (seen : list json) :
  tidy seen ts -> tidy seen (ts_append k t v ts).
Proof.
  revert seen. induction ts as [|[k' [times values]] ts IH]; intros seen; [done|].
  simpl. intros (Hh & Hseen & Hne & Hrest).
  destruct (key_eqb k k'); simpl; repeat split; auto.
  intros Happ. by apply app_eq_nil in Happ as [_ ?].
Qed.

Lemma tidy_snoc (k : json) (s : series) (ts : timeseries) (seen : list json) :
  tidy seen ts ->
  hashable k = true ->
  Forall (fun k' => key_eqb k k' = false) (seen ++ map fst ts) ->
  snd s <> [] ->
  tidy seen (ts ++ [(k, s)]).
Proof.
  revert seen. induction ts as [|[k' s'] ts IH]; intros seen; simpl.
  - rewrite app_nil_r. by intros _ Hh Hseen Hs.
  - intros (Hh' & Hseen' & Hne' & Hrest) Hh Hall Hs. repeat split; auto.
    apply IH; auto. by rewrite <- app_assoc.
Qed.

Lemma ts_append_new (k : json) (t : datetime) (v : json) (ts : timeseries) :
  hashable k = true ->
  ts_lookup k ts = None ->
  ts_append k t v (ts_new k ([], []) ts) = ts ++ [(k, ([t], [v]))].
Proof.
  intros Hh. unfold ts_new.
  induction ts as [|[k' [times values]] ts IH]; simpl.
  - by rewrite key_eqb_refl.
  - destruct (key_eqb k k'); [discriminate|]. intros H. by rewrite IH.
Qed.

Lemma add_record_tidy (t : datetime) (metric : string) (ts ts' : timeseries)
    (record : json) :
  add_record t metric ts record = Ok ts' -> tidy [] ts -> tidy [] ts'.
Proof.
  destruct record as [| | | | | |members]; try discriminate.
  unfold add_record. simpl.
  set (dbname := default (JStr "unknown") (dict_lookup "datname" members)).
  intros H Ht.
  assert (Hadd : forall value,
             hashable dbname = true ->
             tidy [] (ts_append dbname t value
                        match ts_lookup dbname ts with
                        | Some _ => ts
                        | None => ts_new dbname ([], []) ts
                        end)).
  { intros value Hh. destruct (ts_lookup dbname ts) as [s|] eqn:Hl.
    - by apply tidy_append.
    - rewrite (ts_append_new dbname t value ts Hh Hl).
      apply tidy_snoc; auto. simpl. by apply ts_lookup_None. }
  destruct (default JNull (dict_lookup metric members));
    try (injection H as <-; done);
    (destruct (hashable dbname) eqn:Hh; simpl in H; [|discriminate]);
    injection H as <-; by apply Hadd.
Qed.

Lemma add_records_tidy (t : datetime) (metric : string) (records : list json)
    (ts ts' : timeseries) :
  add_records t metric ts records = Ok ts' -> tidy [] ts -> tidy [] ts'.
Proof.
  revert ts. induction records as [|r records IH]; simpl; intros ts H.
  - by injection H as <-.
  - inv_bind H. intros Ht. apply (IH _ H). by eapply add_record_tidy.
Qed.

Lemma build_from_tidy (metric : string) (snapshots : list snapshot)
    (ts ts' : timeseries) :
  build_from ts snapshots metric = Ok ts' -> tidy [] ts -> tidy [] ts'.
Proof.
  revert ts. induction snapshots as [|snap snapshots IH]; simpl; intros ts H.
  - by injection H as <-.
  - inv_bind H. inv_bind H. intros Ht. apply (IH _ H). by eapply add_records_tidy.
Qed.

Lemma tidy_split (seen : list json) (pre rest : timeseries) :
  tidy seen (pre ++ rest) -> tidy (seen ++ map fst pre) rest.
Proof.
  revert seen. induction pre as [|[k s] pre IH]; intros seen; simpl.
  - by rewrite app_nil_r.
  - intros (_ & _ & _ & Hrest). apply IH in Hrest. by rewrite <- app_assoc in Hrest.
Qed.

(** X10: the mapping is a proper dictionary: each entity is found under its own
    key, no entry in front of it answers to that key, and it has at least
    one timestamp and one value. *)
Theorem build_timeseries_entities (metric : string) (snapshots : list snapshot)
    (ts pre post : timeseries) (k : json) (s : series) :
  build_timeseries snapshots metric = Ok ts ->
  ts = pre ++ (k, s) :: post ->
  ts_lookup k pre = None
  /\ ts_lookup k ts = Some s
  /\ fst s <> [] /\ snd s <> [].
Proof.
  intros H ->.
  pose proof (build_from_tidy _ _ _ _ H I) as Ht.
  apply build_from_grows in H as [_ Hb].
  assert (Hbal : balanced (pre ++ (k, s) :: post)) by (apply Hb; constructor).
  apply tidy_split in Ht. simpl in Ht. destruct Ht as (Hh & Hseen & Hne & _).
  assert (Hpre : ts_lookup k pre = None) by by apply ts_lookup_None.
  split; [done|]. split.
  - rewrite (ts_lookup_app_None k pre _ Hpre). simpl. by rewrite key_eqb_refl.
  - split; [|done]. unfold balanced in Hbal.
    apply Forall_app in Hbal as [_ Hbal]. apply Forall_cons in Hbal as [Hlen _].
    simpl in Hlen. intros Hnil. rewrite Hnil in Hlen. simpl in Hlen.
    destruct (snd s); [done | discriminate].
Qed.

(** ** The series of a named entity *)

Lemma key_eqb_str (a b : string) : key_eqb (JStr a) (JStr b) = String.eqb a b.
Proof. done. Qed.

Lemma ts_lookup_append_str (name s0 : string) (t : datetime) (v : json)
    (ts : timeseries) :
  string_keyed ts ->
  ts_lookup (JStr name) (ts_append (JStr s0) t v ts)
  = if String.eqb name s0
    then (fun s : series => (fst s ++ [t], snd s ++ [v])) <$> ts_lookup (JStr s0) ts
    else ts_lookup (JStr name) ts.
Proof.
  induction 1 as [|[k [times values]] ts [x Hx] _ IH]; simpl in *.
  - by destruct (String.eqb name s0).
  - subst k. rewrite !key_eqb_str.
    destruct (String.eqb_spec s0 x) as [->|Hs0]; simpl; rewrite !key_eqb_str.
    + by destruct (String.eqb_spec name x) as [->|Hn].
    + rewrite IH. destruct (String.eqb_spec name s0) as [->|Hn].
      * by apply String.eqb_neq in Hs0 as ->.
      * done.
Qed.

Lemma string_keyed_append (k : json) (t : datetime) (v : json) (ts : timeseries) :
  string_keyed ts -> string_keyed (ts_append k t v ts).
Proof.
  induction 1 as [|[k' [times values]] ts Hk Hts IH]; simpl; [constructor|].
  destruct (key_eqb k k'); by constructor.
Qed.

Lemma series_of_points_snoc (points : list (datetime * json)) (t : datetime)
    (v : json) :
  series_of_points (points ++ [(t, v)])
  = Some (default ([t], [v])
            ((fun s : series => (fst s ++ [t], snd s ++ [v]))
               <$> series_of_points points)).
Proof.
  destruct points as [|p points]; [done|].
  simpl. by rewrite !map_app.
Qed.

Lemma add_record_holds (t : datetime) (metric : string) (ts ts' : timeseries)
    (record : json) (P : string -> list (datetime * json)) :
  holds ts P ->
  (carries metric record = true -> string_named record) ->
  add_record t metric ts record = Ok ts' ->
  holds ts'
    (fun name =>
       P name ++ map (fun r => (t, value_of metric r))
                     (List.filter (fun r => carries metric r && named name r)
                                  [record])).
Proof.
  intros [Hkeys HP] Hnamed Hadd. simpl.
  destruct (carries metric record) eqn:Hc; simpl.
  - destruct (Hnamed eq_refl) as [s0 Hs0].
    assert (Hn : forall name, named name record = String.eqb s0 name).
    { intros name. unfold named. by rewrite Hs0. }
    unfold add_record in Hadd. rewrite Hs0 in Hadd. simpl in Hadd.
    unfold carries in Hc. unfold value_of.
    destruct (py_get record metric JNull) as [value|e] eqn:Hv; [|discriminate].
    simpl in Hadd.
    set (ts0 := match ts_lookup (JStr s0) ts with
                | Some _ => ts
                | None => ts_new (JStr s0) ([], []) ts
                end) in *.
    assert (Hts' : ts' = ts_append (JStr s0) t value ts0).
    { destruct value; try discriminate; by injection Hadd as <-. }
    assert (Hkeys0 : string_keyed ts0).
    { unfold ts0. destruct (ts_lookup (JStr s0) ts); [done|].
      unfold ts_new. apply Forall_app. split; [done|].
      repeat constructor. by exists s0. }
    assert (H0 : forall name,
               ts_lookup (JStr name) ts0
               = if String.eqb name s0
                 then Some (default ([], []) (series_of_points (P s0)))
                 else series_of_points (P name)).
    { intros name. unfold ts0. rewrite <- !HP.
      destruct (ts_lookup (JStr s0) ts) as [s|] eqn:Hl.
      - destruct (String.eqb_spec name s0) as [->|Hne]; [by rewrite Hl | done].
      - unfold ts_new. destruct (String.eqb_spec name s0) as [->|Hne].
        + rewrite (ts_lookup_app_None _ _ _ Hl). simpl.
          by rewrite key_eqb_str, String.eqb_refl.
        + destruct (ts_lookup (JStr name) ts) as [s|] eqn:Hl'.
          * clear -Hl'. induction ts as [|[k' s'] ts IH]; simpl in *; [done|].
            destruct (key_eqb (JStr name) k'); [done | by apply IH].
          * rewrite (ts_lookup_app_None _ _ _ Hl'). simpl.
            rewrite key_eqb_str. by apply String.eqb_neq in Hne as ->. }
    split; [subst ts'; by apply string_keyed_append|].
    intros name. subst ts'. rewrite (ts_lookup_append_str name s0 t value ts0 Hkeys0).
    rewrite Hn, (String.eqb_sym s0 name).
    destruct (String.eqb_spec name s0) as [->|Hne]; simpl.
    + rewrite H0, String.eqb_refl. simpl. rewrite series_of_points_snoc, Hv.
      by destruct (series_of_points (P s0)).
    + rewrite H0. apply String.eqb_neq in Hne as ->. by rewrite app_nil_r.
  - rewrite (add_record_skip t metric ts record Hc) in Hadd. injection Hadd as <-.
    split; [done|]. intros name. by rewrite app_nil_r.
Qed.

Lemma holds_ext (ts : timeseries) (P Q : string -> list (datetime * json)) :
  (forall name, P name = Q name) -> holds ts P -> holds ts Q.
Proof. intros Heq [Hk HP]. split; [done|]. intros name. by rewrite <- Heq. Qed.

Lemma add_records_holds (t : datetime) (metric : string) (records : list json)
    (ts ts' : timeseries) (P : string -> list (datetime * json)) :
  holds ts P ->
  Forall (fun r => carries metric r = true -> string_named r) records ->
  add_records t metric ts records = Ok ts' ->
  holds ts'
    (fun name =>
       P name ++ map (fun r => (t, value_of metric r))
                     (List.filter (fun r => carries metric r && named name r)
                                  records)).
Proof.
  intros HP Hall. revert ts P HP.
  induction Hall as [|r records Hr _ IH]; intros ts P HP; simpl.
  - intros [= <-]. apply (holds_ext ts P); [|done]. intros name. by rewrite app_nil_r.
  - intros H. inv_bind H.
    pose proof (add_record_holds t metric ts a r P HP Hr Ha) as Hstep.
    apply (IH _ _ Hstep) in H. revert H. apply holds_ext. intros name.
    simpl. rewrite <- app_assoc. f_equal.
    by destruct (carries metric r && named name r).
Qed.

Lemma build_from_holds (metric : string) (snapshots : list snapshot)
    (ts ts' : timeseries) (P : string -> list (datetime * json)) :
  holds ts P ->
  Forall (fun snap =>
            Forall (fun r => carries metric r = true -> string_named r)
                   (records_of snap)) snapshots ->
  build_from ts snapshots metric = Ok ts' ->
  holds ts' (fun name => P name ++ points_of metric name snapshots).
Proof.
  intros HP Hall. revert ts P HP.
  induction Hall as [|snap snapshots Hsnap _ IH]; intros ts P HP; simpl.
  - intros [= <-]. apply (holds_ext ts P); [|done]. intros name. by rewrite app_nil_r.
  - intros H. inv_bind H. inv_bind H.
    assert (records_of snap = a) as Hrec by (unfold records_of; by rewrite Ha).
    rewrite Hrec in Hsnap.
    pose proof (add_records_holds _ metric a ts a0 P HP Hsnap Ha0) as Hstep.
    apply (IH _ _ Hstep) in H. revert H. apply holds_ext. intros name.
    unfold points_of. simpl. by rewrite Hrec, app_assoc.
Qed.

(** X11: the functional meaning of the extraction when the entities are named by
    strings: under each name stand exactly the timestamps and values of the
    records of that name that carry the metric, in the order of processing
    (records without [datname] under "unknown"); a name without such a
    record has no entry. *)
Theorem build_timeseries_named_series (metric : string)
    (snapshots : list snapshot) (ts : timeseries) (name : string) :
  build_timeseries snapshots metric = Ok ts ->
  Forall (fun snap =>
            Forall (fun r => carries metric r = true -> string_named r)
                   (records_of snap)) snapshots ->
  ts_lookup (JStr name) ts = series_of_points (points_of metric name snapshots).
Proof.
  intros H Hall.
  assert (H0 : holds [] (fun _ => [])) by (split; [constructor | done]).
  destruct (build_from_holds metric snapshots [] ts _ H0 Hall H) as [_ HP].
  apply HP.
Qed.

(** ** Calls on the plotting library *)

Lemma and_then_ext {A B : Type} (c : prog A) (k k' : A -> prog B) (w : world) :
  (forall a w', k a w' = k' a w') -> and_then c k w = and_then c k' w.
Proof. intros H. unfold and_then. destruct (c w) as [[a|e] w']; [apply H | done]. Qed.

Lemma and_then_ext_l {A B : Type} (c c' : prog A) (k : A -> prog B) (w : world) :
  c w = c' w -> and_then c k w = and_then c' k w.
Proof. intros H. unfold and_then. by rewrite H. Qed.

Lemma and_then_cong {A B : Type} (c c' : prog A) (k k' : A -> prog B) (w : world) :
  c w = c' w -> (forall a w', k a w' = k' a w') ->
  and_then c k w = and_then c' k' w.
Proof.
  intros Hc Hk. unfold and_then. rewrite Hc.
  destruct (c' w) as [[a|e] w']; [apply Hk | done].
Qed.

Lemma and_then_assoc {A B C : Type} (c : prog A) (k : A -> prog B)
    (k' : B -> prog C) (w : world) :
  and_then (and_then c k) k' w = and_then c (fun a => and_then (k a) k') w.
Proof. unfold and_then. by destruct (c w) as [[a|e] w']. Qed.

Lemma run_calls_one (c : plt_call) (w : world) : run_calls [c] w = call c w.
Proof.
  simpl. unfold and_then, call, ret. by destruct (plt (figures w) c) as [[]|e].
Qed.

Lemma run_calls_app (calls calls' : list plt_call) (w : world) :
  run_calls (calls ++ calls') w
  = and_then (run_calls calls) (fun _ => run_calls calls') w.
Proof.
  revert w. induction calls as [|c calls IH]; intros w; [done|].
  simpl. rewrite and_then_assoc. by apply and_then_ext.
Qed.

(** A series of calls stops only on an exception of the library. *)
Lemma run_calls_Raise (calls : list plt_call) (w w' : world) (e : exn) :
  run_calls calls w = (Raise e, w') ->
  exists before c after,
    calls = before ++ c :: after /\ plt (figures w ++ before) c = Raise e.
Proof.
  revert w. induction calls as [|c calls IH]; intros w; [discriminate|].
  simpl. unfold and_then at 1, call.
  destruct (plt (figures w) c) as [[]|e'] eqn:Hc.
  - intros H. apply IH in H as (before & c' & after & -> & Hc'). simpl in Hc'.
    exists (c :: before), c', after. split; [done|].
    by rewrite <- app_assoc in Hc'.
  - intros [= <- <-]. exists [], c, calls. by rewrite app_nil_r.
Qed.

Lemma run_calls_complete (calls : list plt_call) (w : world) :
  (forall before c, plt before c = Ok tt) ->
  run_calls calls w
  = (Ok tt, {| clock := clock w; stdout := stdout w;
               figures := figures w ++ calls |}).
Proof.
  intros Hplt. revert w. induction calls as [|c calls IH]; intros w.
  - simpl. unfold ret. rewrite app_nil_r. by destruct w.
  - simpl. unfold and_then at 1, call. rewrite Hplt, IH. simpl.
    by rewrite <- app_assoc.
Qed.

Lemma plot_items_calls (ts : timeseries) (w : world) :
  plot_items ts w = run_calls (map Plot (map metric_line ts)) w.
Proof.
  revert w. induction ts as [|item ts IH]; intros w; [done|].
  simpl. by apply and_then_ext.
Qed.

(** [plot_metric] makes the calls of its chart. *)
Lemma plot_metric_calls (ts : timeseries) (metric : string) (w : world) :
  plot_metric ts metric w = run_calls (metric_calls (metric_chart ts metric)) w.
Proof.
  unfold plot_metric, metric_calls. cbn [run_calls lines metric_chart].
  apply and_then_ext. intros _ w1. rewrite run_calls_app.
  rewrite (and_then_ext_l _ _ _ _ (plot_items_calls ts w1)).
  apply and_then_ext. intros _ w2. cbn [run_calls xlabel ylabel title metric_chart].
  repeat (apply and_then_ext; intros _ ?).
  symmetry. apply run_calls_one.
Qed.

(** ** What [main] does with a loaded collection *)

Lemma carrying_none_lacks (metric : string) (snapshots : list snapshot) :
  forallb (snapshot_ok metric) snapshots = true ->
  carrying_records metric snapshots = 0%nat ->
  Forall (lacks_metric metric) snapshots.
Proof.
  unfold carrying_records.
  induction snapshots as [|snap snapshots IH]; simpl; [constructor|].
  intros [Hok Hrest]%andb_true_iff Hsum.
  assert (Hhere : length (List.filter (carries metric) (records_of snap)) = 0%nat) by lia.
  constructor; [|apply IH; [done | lia]].
  unfold snapshot_ok in Hok. apply andb_true_iff in Hok as [Hiter _].
  exists (records_of snap). split; [by apply py_iter_records_of|].
  apply length_zero_iff_nil in Hhere.
  clear -Hhere. induction (records_of snap) as [|r rs IH]; [constructor|].
  simpl in Hhere. destruct (carries metric r) eqn:Hc; [discriminate|].
  constructor; [|by apply IH].
  unfold carries in Hc. by destruct (py_get r metric JNull) as [[]|].
Qed.

(** X12: for a folder name taken literally, once the collection is loaded
    and its records are well formed, [main] does exactly one thing: it
    prints the no-statistics line for an empty collection, the
    metric-not-found line when no record carries the metric, and otherwise
    makes the calls of [plot_metric] for the extracted mapping, which is
    not empty.  Only the library can stop it then: whatever [main] raises,
    a call on the library raised. *)
Theorem main_outcome (metric export_dir : string) (d : directory)
    (snapshots : list snapshot) (w w' : world) :
  has_magic export_dir = false ->
  load_snapshots export_dir d w = (Ok snapshots, w') ->
  forallb (snapshot_ok metric) snapshots = true ->
  exists ts,
    build_timeseries snapshots metric = Ok ts
    /\ main metric export_dir d w =
         (if is_empty snapshots then print (no_statistics export_dir) w'
          else if (carrying_records metric snapshots =? 0)%nat
               then print (metric_not_found metric) w'
               else run_calls (metric_calls (metric_chart ts metric)) w')
    /\ (carrying_records metric snapshots <> 0%nat -> ts <> [])
    /\ (forall e w'',
          main metric export_dir d w = (Raise e, w'') ->
          exists before c, plt before c = Raise e).
Proof.
  intros _ Hload Hok.
  pose proof (build_from_is_ok metric snapshots []) as Hb.
  rewrite Hok in Hb. fold (build_timeseries snapshots metric) in Hb.
  destruct (build_timeseries snapshots metric) as [ts|e] eqn:Hbuild; [|discriminate].
  exists ts. split; [done|].
  pose proof (build_from_points _ _ _ _ Hbuild) as Hpoints. simpl in Hpoints.
  assert (Hmain : main metric export_dir d w =
            (if is_empty snapshots then print (no_statistics export_dir) w'
             else if (carrying_records metric snapshots =? 0)%nat
                  then print (metric_not_found metric) w'
                  else run_calls (metric_calls (metric_chart ts metric)) w')).
  { rewrite (main_after_load metric export_dir d snapshots w w' Hload), Hbuild.
    destruct (is_empty snapshots); [done|].
    destruct (Nat.eqb_spec (carrying_records metric snapshots) 0) as [Hz|Hnz].
    - pose proof (build_from_lacking metric snapshots []
                    (carrying_none_lacks metric snapshots Hok Hz)) as Hempty.
      fold (build_timeseries snapshots metric) in Hempty.
      rewrite Hbuild in Hempty. by injection Hempty as ->.
    - destruct ts; [by rewrite <- Hpoints in Hnz|]. apply plot_metric_calls. }
  split; [exact Hmain|]. split.
  - intros Hnz ->. by rewrite <- Hpoints in Hnz.
  - intros e w'' Hraise. rewrite Hmain in Hraise.
    destruct (is_empty snapshots); [discriminate|].
    destruct (carrying_records metric snapshots =? 0)%nat; [discriminate|].
    apply run_calls_Raise in Hraise as (before & c & _ & _ & Hc). eauto.
Qed.

(** ** Charts *)

Lemma metric_line_shape (e : json * series) :
  length (xs (metric_line e)) = length (fst (snd e))
  /\ length (ys (metric_line e)) = length (snd (snd e)).
Proof. destruct e as [k [times values]]. simpl. by rewrite !length_map. Qed.

(** X13: the chart [plot_metric] draws from an extracted mapping has one line
    for each entity, each with as many abscissas as ordinates and with at
    least one point. *)
Theorem metric_chart_well_shaped (metric : string) (snapshots : list snapshot)
    (ts : timeseries) :
  build_timeseries snapshots metric = Ok ts ->
  length (lines (metric_chart ts metric)) = length ts
  /\ Forall (fun l => well_shaped l /\ xs l <> []) (lines (metric_chart ts metric)).
Proof.
  intros H. simpl. split; [by rewrite length_map|].
  pose proof (build_from_tidy _ _ _ _ H I) as Ht.
  apply build_from_grows in H as [_ Hb].
  assert (Hbal : balanced ts) by (apply Hb; constructor). clear Hb.
  apply Forall_map. unfold balanced in Hbal.
  revert Ht. generalize (@nil json).
  induction Hbal as [|e ts He _ IH]; intros seen Ht; [constructor|].
  destruct e as [k [times values]]. simpl in *.
  destruct Ht as (_ & _ & Hne & Hrest). constructor; [|by eapply IH].
  unfold well_shaped. simpl. rewrite !length_map. split; [done|].
  destruct times; [|done]. by destruct values.
Qed.

Lemma dp_getitem_known (d : data_point) (key : string) :
  key ∈ dp_keys -> exists c, dp_getitem d key = Ok c.
Proof.
  clear fromisoformat now.
  unfold dp_keys, dp_getitem. rewrite !elem_of_cons, elem_of_nil.
  intros Hkey.
  repeat match goal with
         | |- context [String.eqb key ?k] =>
             destruct (String.eqb_spec key k) as [->|?]; [by eexists|]
         end.
  tauto.
Qed.

Lemma dp_getitem_unknown (d : data_point) (key : string) :
  key ∉ dp_keys -> dp_getitem d key = Raise (KeyError key).
Proof.
  clear fromisoformat now.
  unfold dp_keys, dp_getitem. rewrite !elem_of_cons, elem_of_nil.
  intros Hkey.
  repeat match goal with
         | |- context [String.eqb key ?k] =>
             destruct (String.eqb_spec key k) as [->|?]; [tauto|]
         end.
  done.
Qed.

Lemma column_known (key : string) (data : list data_point) :
  key ∈ dp_keys ->
  exists cs,
    column key data = Ok cs
    /\ Forall2 (fun d c => dp_getitem d key = Ok c) data cs.
Proof.
  intros Hkey. induction data as [|d data (cs & Hcs & Hall)].
  - exists []. split; [done | constructor].
  - destruct (dp_getitem_known d key Hkey) as [c Hc].
    exists (c :: cs). simpl. rewrite Hc. simpl. rewrite Hcs. simpl.
    split; [done | by constructor].
Qed.

Lemma column_unknown (key : string) (data : list data_point) :
  key ∉ dp_keys ->
  column key data = if is_empty data then Ok [] else Raise (KeyError key).
Proof.
  intros Hkey. destruct data as [|d data]; [done|].
  simpl. by rewrite (dp_getitem_unknown d key Hkey).
Qed.

Lemma column_timestamp (data : list data_point) :
  column "timestamp" data = Ok (map (fun d => CTime (dp_timestamp d)) data).
Proof. induction data as [|d data IH]; [done|]. simpl. by rewrite IH. Qed.

(** X14: a time-series chart for a key of the data points: two lines, one for
    each run on its own timestamps, each with one point for every data
    point of its run; the runs are not brought to a common length. *)
Theorem two_line_chart (data1 data2 : list data_point)
    (key title ylabel label1 label2 : string) :
  key ∈ dp_keys ->
  exists values1 values2,
    Forall2 (fun d c => dp_getitem d key = Ok c) data1 values1
    /\ Forall2 (fun d c => dp_getitem d key = Ok c) data2 values2
    /\ plot_two_line_time_series data1 data2 key title ylabel label1 label2
       = Ok {| lines :=
                 [ {| xs := map (fun d => CTime (dp_timestamp d)) data1;
                      ys := values1; marker := "."; linestyle := None;
                      label := CVal (JStr label1) |};
                   {| xs := map (fun d => CTime (dp_timestamp d)) data2;
                      ys := values2; marker := "."; linestyle := None;
                      label := CVal (JStr label2) |} ];
               title := title; xlabel := "Время"; ylabel := ylabel |}
    /\ length values1 = length data1 /\ length values2 = length data2.
Proof.
  intros Hkey.
  destruct (column_known key data1 Hkey) as (v1 & Hv1 & H1).
  destruct (column_known key data2 Hkey) as (v2 & Hv2 & H2).
  exists v1, v2. split; [done|]. split; [done|]. split.
  - unfold plot_two_line_time_series.
    rewrite !column_timestamp. simpl. rewrite Hv1. simpl. by rewrite Hv2.
  - split; symmetry; by eapply Forall2_length.
Qed.

(** X15: a key that no data point has is a [KeyError], unless both runs are
    empty: then the mistake goes unnoticed and the chart has two empty
    lines. *)
Theorem two_line_chart_unknown_key (data1 data2 : list data_point)
    (key title ylabel label1 label2 : string) :
  key ∉ dp_keys ->
  plot_two_line_time_series data1 data2 key title ylabel label1 label2
  = if is_empty data1 && is_empty data2
    then Ok {| lines :=
                 [ {| xs := []; ys := []; marker := "."; linestyle := None;
                      label := CVal (JStr label1) |};
                   {| xs := []; ys := []; marker := "."; linestyle := None;
                      label := CVal (JStr label2) |} ];
               title := title; xlabel := "Время"; ylabel := ylabel |}
    else Raise (KeyError key).
Proof.
  intros Hkey. unfold plot_two_line_time_series.
  rewrite !column_timestamp, !(column_unknown key _ Hkey). simpl.
  destruct data1 as [|d1 data1]; [|done]. simpl.
  by destruct data2 as [|d2 data2].
Qed.

Lemma length_indices (data : list data_point) :
  length (indices data) = length data.
Proof. unfold indices. rewrite length_map, length_seqZ. lia. Qed.

Lemma lookup_indices (data : list data_point) (i : nat) :
  (i < length data)%nat -> indices data !! i = Some (CVal (JInt (Z.of_nat i))).
Proof.
  intros Hi. unfold indices. rewrite list_lookup_fmap.
  rewrite lookup_seqZ_lt by lia. simpl. do 3 f_equal; lia.
Qed.

Lemma indexed_lines_known (data1 data2 : list data_point) (keys : list string)
    (prefix1 prefix2 : string) :
  Forall (fun key => key ∈ dp_keys) keys ->
  exists ls,
    indexed_lines data1 data2 keys prefix1 prefix2 = Ok ls
    /\ length ls = (2 * length keys)%nat
    /\ Forall (fun l => well_shaped l
                       /\ (length (xs l) = length data1
                           \/ length (xs l) = length data2)) ls
    /\ map label ls
       = flat_map (fun key => [CVal (JStr (prefix1 +:+ ":" +:+ key));
                               CVal (JStr (prefix2 +:+ ":" +:+ key))]) keys
    /\ forall i key,
         keys !! i = Some key ->
         exists l1 l2,
           ls !! (2 * i)%nat = Some l1 /\ ls !! (2 * i + 1)%nat = Some l2
           /\ label l1 = CVal (JStr (prefix1 +:+ ":" +:+ key))
           /\ label l2 = CVal (JStr (prefix2 +:+ ":" +:+ key))
           /\ xs l1 = indices data1 /\ xs l2 = indices data2
           /\ Forall2 (fun d y => dp_getitem d key = Ok y) data1 (ys l1)
           /\ Forall2 (fun d y => dp_getitem d key = Ok y) data2 (ys l2).
Proof.
  induction 1 as [|key keys Hkey _ (ls & Hls & Hlen & Hshape & Hlab & Hat)].
  - exists []. repeat split; try constructor. intros i key. by rewrite lookup_nil.
  - destruct (column_known key data1 Hkey) as (v1 & Hv1 & H1).
    destruct (column_known key data2 Hkey) as (v2 & Hv2 & H2).
    pose proof (Forall2_length _ _ _ H1) as Hl1.
    pose proof (Forall2_length _ _ _ H2) as Hl2.
    eexists. cbn [indexed_lines]. rewrite Hv1. cbn [bind]. rewrite Hv2.
    cbn [bind]. rewrite Hls. cbn [bind].
    split; [done|]. split; [simpl; lia|]. split; [|split].
    + constructor; [|constructor; [|done]];
        unfold well_shaped; simpl; rewrite length_indices;
        (split; [congruence | auto]).
    + simpl. by rewrite Hlab.
    + intros [|i] key'.
      * intros [= <-]. eexists. eexists. simpl.
        split; [reflexivity|]. split; [reflexivity|]. by repeat split.
      * intros Hi. destruct (Hat i key' Hi) as (l1 & l2 & Hi1 & Hi2 & Hrest).
        exists l1, l2.
        replace (2 * S i)%nat with (S (S (2 * i))) by lia.
        replace (S (S (2 * i)) + 1)%nat with (S (S (2 * i + 1))) by lia.
        split; [exact Hi1|]. split; [exact Hi2|]. exact Hrest.
Qed.

(** X16: the indexed chart has two lines for every key, in the order of the
    keys: the one of the first run and then the one of the second,
    labelled run:key.  The line of a run holds the values of the key in
    the data points of that run, in their order, each against its position
    0, 1, ... in that run. *)
Theorem multi_line_chart (data1 data2 : list data_point) (keys : list string)
    (title ylabel prefix1 prefix2 : string) :
  Forall (fun key => key ∈ dp_keys) keys ->
  exists ls,
    plot_multi_line_indexed data1 data2 keys title ylabel prefix1 prefix2
    = Ok {| lines := ls; title := title;
            xlabel := "Индекс метрики (порядковый номер)"; ylabel := ylabel |}
    /\ length ls = (2 * length keys)%nat
    /\ (forall i key,
          keys !! i = Some key ->
          exists values1 values2,
            ls !! (2 * i)%nat
            = Some {| xs := indices data1; ys := values1; marker := ".";
                      linestyle := None;
                      label := CVal (JStr (prefix1 +:+ ":" +:+ key)) |}
            /\ ls !! (2 * i + 1)%nat
               = Some {| xs := indices data2; ys := values2; marker := ".";
                         linestyle := None;
                         label := CVal (JStr (prefix2 +:+ ":" +:+ key)) |}
            /\ Forall2 (fun d y => dp_getitem d key = Ok y) data1 values1
            /\ Forall2 (fun d y => dp_getitem d key = Ok y) data2 values2)
    /\ (forall data i,
          (i < length data)%nat ->
          indices data !! i = Some (CVal (JInt (Z.of_nat i))))
    /\ (forall data, length (indices data) = length data).
Proof.
  intros Hkeys.
  assert (Hlines : exists ls,
             indexed_lines data1 data2 keys prefix1 prefix2 = Ok ls
             /\ length ls = (2 * length keys)%nat
             /\ forall i key,
                  keys !! i = Some key ->
                  exists values1 values2,
                    ls !! (2 * i)%nat
                    = Some {| xs := indices data1; ys := values1; marker := ".";
                              linestyle := None;
                              label := CVal (JStr (prefix1 +:+ ":" +:+ key)) |}
                    /\ ls !! (2 * i + 1)%nat
                       = Some {| xs := indices data2; ys := values2; marker := ".";
                                 linestyle := None;
                                 label := CVal (JStr (prefix2 +:+ ":" +:+ key)) |}
                    /\ Forall2 (fun d y => dp_getitem d key = Ok y) data1 values1
                    /\ Forall2 (fun d y => dp_getitem d key = Ok y) data2 values2).
  { induction Hkeys as [|key keys Hkey _ (ls & Hls & Hlen & Hat)].
    - exists []. split; [done|]. split; [done|]. intros i key.
      by rewrite lookup_nil.
    - destruct (column_known key data1 Hkey) as (v1 & Hv1 & H1).
      destruct (column_known key data2 Hkey) as (v2 & Hv2 & H2).
      eexists. cbn [indexed_lines]. rewrite Hv1. cbn [bind]. rewrite Hv2.
      cbn [bind]. rewrite Hls. cbn [bind].
      split; [done|]. split; [simpl; lia|].
      intros [|i] key'.
      + intros [= <-]. exists v1, v2. by repeat split.
      + intros Hi. destruct (Hat i key' Hi) as (w1 & w2 & Hi1 & Hi2 & Hrest).
        exists w1, w2.
        replace (2 * S i)%nat with (S (S (2 * i))) by lia.
        replace (S (S (2 * i)) + 1)%nat with (S (S (2 * i + 1))) by lia.
        split; [exact Hi1|]. split; [exact Hi2|]. exact Hrest. }
  destruct Hlines as (ls & Hls & Hlen & Hat).
  exists ls. unfold plot_multi_line_indexed. rewrite Hls. simpl.
  split; [done|]. split; [done|]. split; [done|]. split.
  - intros data. apply lookup_indices.
  - intros data. apply length_indices.
Qed.

Lemma zip_columns (xkey ykey : string) (data : list data_point)
    (x y : list cell) :
  Forall2 (fun d c => dp_getitem d xkey = Ok c) data x ->
  Forall2 (fun d c => dp_getitem d ykey = Ok c) data y ->
  Forall2 (fun d p => dp_getitem d xkey = Ok (fst p) /\ dp_getitem d ykey = Ok (snd p))
          data (zip x y).
Proof.
  intros Hx. revert y. induction Hx as [|d c data x Hc _ IH]; intros y Hy.
  - inversion Hy. constructor.
  - inversion Hy as [|d' c' data' y' Hc' Hy']; subst. simpl.
    constructor; [done | by apply IH].
Qed.

(** X17: in the XY chart the i-th point of a run pairs the two values of one
    and the same data point of that run, the i-th. *)
Theorem xy_chart_pairs (data1 data2 : list data_point)
    (xkey ykey title xlabel ylabel label1 label2 : string) :
  xkey ∈ dp_keys ->
  ykey ∈ dp_keys ->
  exists l1 l2,
    (exists c, plot_xy_lines data1 data2 xkey ykey title xlabel ylabel label1 label2
               = Ok c /\ lines c = [l1; l2])
    /\ Forall2 (fun d p => dp_getitem d xkey = Ok (fst p) /\ dp_getitem d ykey = Ok (snd p))
               data1 (zip (xs l1) (ys l1))
    /\ Forall2 (fun d p => dp_getitem d xkey = Ok (fst p) /\ dp_getitem d ykey = Ok (snd p))
               data2 (zip (xs l2) (ys l2))
    /\ well_shaped l1 /\ well_shaped l2.
Proof.
  intros Hx Hy.
  destruct (column_known xkey data1 Hx) as (x1 & Hx1 & Fx1).
  destruct (column_known ykey data1 Hy) as (y1 & Hy1 & Fy1).
  destruct (column_known xkey data2 Hx) as (x2 & Hx2 & Fx2).
  destruct (column_known ykey data2 Hy) as (y2 & Hy2 & Fy2).
  eexists. eexists. split.
  - eexists. unfold plot_xy_lines.
    rewrite Hx1. simpl. rewrite Hy1. simpl. rewrite Hx2. simpl. rewrite Hy2. simpl.
    split; reflexivity.
  - simpl. split; [by apply zip_columns|]. split; [by apply zip_columns|].
    unfold well_shaped. simpl.
    apply Forall2_length in Fx1, Fy1, Fx2, Fy2. split; congruence.
Qed.

Lemma plot_two_line_known (data1 data2 : list data_point)
    (key title ylabel label1 label2 : string) :
  key ∈ dp_keys ->
  exists l1 l2,
    plot_two_line_time_series data1 data2 key title ylabel label1 label2
    = Ok {| lines := [l1; l2]; title := title; xlabel := "Время"; ylabel := ylabel |}
    /\ well_shaped l1 /\ well_shaped l2
    /\ length (xs l1) = length data1 /\ length (xs l2) = length data2
    /\ label l1 = CVal (JStr label1) /\ label l2 = CVal (JStr label2).
Proof.
  intros Hkey.
  destruct (column_known key data1 Hkey) as (v1 & Hv1 & H1).
  destruct (column_known key data2 Hkey) as (v2 & Hv2 & H2).
  apply Forall2_length in H1, H2.
  eexists. eexists. unfold plot_two_line_time_series.
  rewrite !column_timestamp. simpl. rewrite Hv1. simpl. rewrite Hv2. simpl.
  split; [reflexivity|]. unfold well_shaped. simpl. rewrite !length_map.
  repeat split; congruence.
Qed.

Lemma plot_xy_known (data1 data2 : list data_point)
    (xkey ykey title xlabel ylabel label1 label2 : string) :
  xkey ∈ dp_keys ->
  ykey ∈ dp_keys ->
  exists l1 l2,
    plot_xy_lines data1 data2 xkey ykey title xlabel ylabel label1 label2
    = Ok {| lines := [l1; l2]; title := title; xlabel := xlabel; ylabel := ylabel |}
    /\ well_shaped l1 /\ well_shaped l2
    /\ length (xs l1) = length data1 /\ length (xs l2) = length data2
    /\ label l1 = CVal (JStr label1) /\ label l2 = CVal (JStr label2).
Proof.
  intros Hx Hy.
  destruct (column_known xkey data1 Hx) as (x1 & Hx1 & Fx1).
  destruct (column_known ykey data1 Hy) as (y1 & Hy1 & Fy1).
  destruct (column_known xkey data2 Hx) as (x2 & Hx2 & Fx2).
  destruct (column_known ykey data2 Hy) as (y2 & Hy2 & Fy2).
  apply Forall2_length in Fx1, Fy1, Fx2, Fy2.
  eexists. eexists. unfold plot_xy_lines.
  rewrite Hx1. simpl. rewrite Hy1. simpl. rewrite Hx2. simpl. rewrite Hy2. simpl.
  split; [reflexivity|]. unfold well_shaped. simpl. repeat split; congruence.
Qed.

Lemma dp_keys_main :
  "blks_ratio" ∈ dp_keys /\ "toast_total" ∈ dp_keys
  /\ "avg_select_size_bytes" ∈ dp_keys /\ "avg_select_time_ms" ∈ dp_keys
  /\ Forall (fun key => key ∈ dp_keys) time_keys.
Proof.
  unfold time_keys, dp_keys. repeat split; repeat constructor;
    rewrite !elem_of_cons; auto 10.
Qed.

(** ** The plotting functions as they run *)

Lemma and_then_lift {A B : Type} (c : result A) (k : A -> prog B) (w : world) :
  and_then (lift c) k w
  = match c with
    | Ok a => k a w
    | Raise e => (Raise e, w)
    end.
Proof. unfold and_then, lift. by destruct c. Qed.

(** When its comprehensions succeed, a plotting function makes the calls of
    its chart. *)
Lemma show_two_line_calls (data1 data2 : list data_point)
    (key ttl ylab label1 label2 : string) (c : chart) (w : world) :
  plot_two_line_time_series data1 data2 key ttl ylab label1 label2 = Ok c ->
  show_two_line_time_series data1 data2 key ttl ylab label1 label2 w
  = run_calls (two_line_calls c) w.
Proof.
  unfold plot_two_line_time_series, show_two_line_time_series.
  destruct (column "timestamp" data1) as [t1|e]; [|discriminate]. cbn [bind].
  destruct (column key data1) as [v1|e]; [|discriminate]. cbn [bind].
  destruct (column "timestamp" data2) as [t2|e]; [|discriminate]. cbn [bind].
  destruct (column key data2) as [v2|e]; [|discriminate]. cbn [bind].
  intros [= <-]. rewrite !and_then_lift.
  unfold two_line_calls. cbn [lines title xlabel ylabel map app run_calls].
  repeat (apply and_then_ext; intros _ ?).
  symmetry. apply run_calls_one.
Qed.

Lemma show_indexed_lines_calls (data1 data2 : list data_point)
    (keys : list string) (prefix1 prefix2 : string) (ls : list line) (w : world) :
  indexed_lines data1 data2 keys prefix1 prefix2 = Ok ls ->
  show_indexed_lines data1 data2 (indices data1) (indices data2) keys
    prefix1 prefix2 w
  = run_calls (map Plot ls) w.
Proof.
  revert ls w. induction keys as [|key keys IH]; intros ls w.
  - by intros [= <-].
  - cbn [indexed_lines show_indexed_lines].
    destruct (column key data1) as [v1|e]; [|discriminate]. cbn [bind].
    destruct (column key data2) as [v2|e]; [|discriminate]. cbn [bind].
    destruct (indexed_lines data1 data2 keys prefix1 prefix2) as [more|e];
      [|discriminate].
    cbn [bind]. intros [= <-]. rewrite and_then_lift.
    cbn [map run_calls]. apply and_then_ext. intros _ w1.
    rewrite and_then_lift. apply and_then_ext. intros _ w2. by apply IH.
Qed.

Lemma show_multi_line_calls (data1 data2 : list data_point) (keys : list string)
    (ttl ylab prefix1 prefix2 : string) (c : chart) (w : world) :
  plot_multi_line_indexed data1 data2 keys ttl ylab prefix1 prefix2 = Ok c ->
  show_multi_line_indexed data1 data2 keys ttl ylab prefix1 prefix2 w
  = run_calls (multi_line_calls c) w.
Proof.
  unfold plot_multi_line_indexed, show_multi_line_indexed.
  destruct (indexed_lines data1 data2 keys prefix1 prefix2) as [ls|e] eqn:Hls;
    [|discriminate].
  cbn [bind]. intros [= <-].
  unfold multi_line_calls. cbn [lines title xlabel ylabel run_calls].
  apply and_then_ext. intros _ w1. cbv zeta. rewrite run_calls_app.
  rewrite (and_then_ext_l _ _ _ _
             (show_indexed_lines_calls data1 data2 keys prefix1 prefix2 ls w1 Hls)).
  apply and_then_ext. intros _ w2. cbn [run_calls].
  repeat (apply and_then_ext; intros _ ?).
  symmetry. apply run_calls_one.
Qed.

Lemma show_xy_calls (data1 data2 : list data_point)
    (xkey ykey ttl xlab ylab label1 label2 : string) (c : chart) (w : world) :
  plot_xy_lines data1 data2 xkey ykey ttl xlab ylab label1 label2 = Ok c ->
  show_xy_lines data1 data2 xkey ykey ttl xlab ylab label1 label2 w
  = run_calls (xy_calls c) w.
Proof.
  unfold plot_xy_lines, show_xy_lines.
  destruct (column xkey data1) as [x1|e]; [|discriminate]. cbn [bind].
  destruct (column ykey data1) as [y1|e]; [|discriminate]. cbn [bind].
  destruct (column xkey data2) as [x2|e]; [|discriminate]. cbn [bind].
  destruct (column ykey data2) as [y2|e]; [|discriminate]. cbn [bind].
  intros [= <-].
  unfold xy_calls. cbn [lines title xlabel ylabel map app run_calls].
  apply and_then_ext. intros _ w1. rewrite !and_then_lift.
  apply and_then_ext. intros _ w2. rewrite !and_then_lift.
  repeat (apply and_then_ext; intros _ ?).
  symmetry. apply run_calls_one.
Qed.

(** The main block: the two folders are loaded, which always succeeds, and
    the calls of four charts are made, one chart after the other. *)
Lemma monitor_main_run (folder1 folder2 : string) (d1 d2 : directory) (w : world) :
  exists l11 l12 l21 l22 ls l41 l42,
    let data1 := map snd (parsed_metrics d1) in
    let data2 := map snd (parsed_metrics d2) in
    let c1 := {| lines := [l11; l12]; title := "Postgres: blks_hit / blks_read";
                 xlabel := "Время"; ylabel := "Доля попаданий в кэш" |} in
    let c2 := {| lines := [l21; l22]; title := "Суммарный размер TOAST таблиц";
                 xlabel := "Время"; ylabel := "Размер в байтах" |} in
    let c3 := {| lines := ls; title := "Среднее время операций (мс)";
                 xlabel := "Индекс метрики (порядковый номер)"; ylabel := "мс" |} in
    let c4 := {| lines := [l41; l42];
                 title := "Зависимость времени SELECT от размера JSONB";
                 xlabel := "Размер JSONB (бит)"; ylabel := "Время SELECT (мс)" |} in
    monitor_main folder1 folder2 d1 d2 w
    = run_calls (two_line_calls c1 ++ two_line_calls c2
                 ++ multi_line_calls c3 ++ xy_calls c4)
        {| clock := clock w;
           stdout := (stdout w ++ omap (metrics_failure d1) (sorted (listdir d1)))
                     ++ omap (metrics_failure d2) (sorted (listdir d2));
           figures := figures w |}
    /\ plot_two_line_time_series data1 data2 "blks_ratio"
         "Postgres: blks_hit / blks_read" "Доля попаданий в кэш"
         (basename folder1) (basename folder2) = Ok c1
    /\ plot_two_line_time_series data1 data2 "toast_total"
         "Суммарный размер TOAST таблиц" "Размер в байтах"
         (basename folder1) (basename folder2) = Ok c2
    /\ plot_multi_line_indexed data1 data2 time_keys
         "Среднее время операций (мс)" "мс"
         (basename folder1) (basename folder2) = Ok c3
    /\ plot_xy_lines data1 data2 "avg_select_size_bytes" "avg_select_time_ms"
         "Зависимость времени SELECT от размера JSONB"
         "Размер JSONB (бит)" "Время SELECT (мс)"
         (basename folder1) (basename folder2) = Ok c4
    /\ length ls = 8%nat
    /\ Forall (fun l => well_shaped l
                        /\ (length (xs l) = length data1
                            \/ length (xs l) = length data2))
              ([l11; l12; l21; l22] ++ ls ++ [l41; l42])
    /\ map label [l11; l12; l21; l22; l41; l42]
       = map (fun s => CVal (JStr s))
             [basename folder1; basename folder2; basename folder1;
              basename folder2; basename folder1; basename folder2]
    /\ map label ls
       = flat_map (fun key =>
                     [CVal (JStr (basename folder1 +:+ ":" +:+ key));
                      CVal (JStr (basename folder2 +:+ ":" +:+ key))]) time_keys.
Proof.
  destruct dp_keys_main as (Hk1 & Hk2 & Hk3 & Hk4 & Hk5).
  set (data1 := map snd (parsed_metrics d1)).
  set (data2 := map snd (parsed_metrics d2)).
  destruct (plot_two_line_known data1 data2 "blks_ratio"
              "Postgres: blks_hit / blks_read" "Доля попаданий в кэш"
              (basename folder1) (basename folder2) Hk1)
    as (l11 & l12 & Hc1 & S11 & S12 & L11 & L12 & B11 & B12).
  destruct (plot_two_line_known data1 data2 "toast_total"
              "Суммарный размер TOAST таблиц" "Размер в байтах"
              (basename folder1) (basename folder2) Hk2)
    as (l21 & l22 & Hc2 & S21 & S22 & L21 & L22 & B21 & B22).
  destruct (indexed_lines_known data1 data2 time_keys
              (basename folder1) (basename folder2) Hk5)
    as (ls & Hls & Hlen & Hshape & Hlab & _).
  destruct (plot_xy_known data1 data2 "avg_select_size_bytes" "avg_select_time_ms"
              "Зависимость времени SELECT от размера JSONB"
              "Размер JSONB (бит)" "Время SELECT (мс)"
              (basename folder1) (basename folder2) Hk3 Hk4)
    as (l41 & l42 & Hc4 & S41 & S42 & L41 & L42 & B41 & B42).
  assert (Hc3 : plot_multi_line_indexed data1 data2 time_keys
                  "Среднее время операций (мс)" "мс"
                  (basename folder1) (basename folder2)
                = Ok {| lines := ls; title := "Среднее время операций (мс)";
                        xlabel := "Индекс метрики (порядковый номер)";
                        ylabel := "мс" |}).
  { unfold plot_multi_line_indexed. by rewrite Hls. }
  exists l11, l12, l21, l22, ls, l41, l42. cbv zeta.
  split; [|split; [done|]; split; [done|]; split; [done|]; split; [done|]].
  - unfold monitor_main.
    unfold and_then at 1. unfold load_metrics at 1. rewrite load_metrics_loop_spec.
    unfold and_then at 1. unfold load_metrics at 1. rewrite load_metrics_loop_spec.
    cbn [app clock stdout figures].
    fold (parsed_metrics d1). fold (parsed_metrics d2). fold data1. fold data2.
    rewrite run_calls_app.
    apply and_then_cong; [by apply show_two_line_calls | intros _ w1].
    rewrite run_calls_app.
    apply and_then_cong; [by apply show_two_line_calls | intros _ w2].
    rewrite run_calls_app.
    apply and_then_cong; [by apply show_multi_line_calls | intros _ w3].
    by apply show_xy_calls.
  - split; [done|]. split; [|split].
    + repeat (constructor; [auto|]). apply Forall_app. split; [done|].
      repeat (constructor; [auto|]). constructor.
    + simpl. by rewrite B11, B12, B21, B22, B41, B42.
    + done.
Qed.

(** X18: whatever the two folders hold, nothing in the main block of
    [monitor/graphs.py] itself raises: the folders load, every key it
    plots is a key of the data points, and the run consists of the calls
    that draw four charts of 2, 2, 8 and 2 lines, every line with as many
    abscissas as ordinates.  There is no check for folders without a
    readable file: all ten lines are then empty and the charts are drawn
    all the same.  The run stops early only when the library raises on one
    of these calls, and when the library completes every call it returns
    with exactly these calls made. *)
Theorem monitor_main_charts (folder1 folder2 : string) (d1 d2 : directory)
    (w : world) :
  exists data1 data2 c1 c2 c3 c4 w0 w1,
    data1 = map snd (parsed_metrics d1)
    /\ data2 = map snd (parsed_metrics d2)
    /\ load_metrics d1 w = (Ok data1, w0)
    /\ load_metrics d2 w0 = (Ok data2, w1)
    /\ plot_two_line_time_series data1 data2 "blks_ratio"
         "Postgres: blks_hit / blks_read" "Доля попаданий в кэш"
         (basename folder1) (basename folder2) = Ok c1
    /\ plot_two_line_time_series data1 data2 "toast_total"
         "Суммарный размер TOAST таблиц" "Размер в байтах"
         (basename folder1) (basename folder2) = Ok c2
    /\ plot_multi_line_indexed data1 data2 time_keys
         "Среднее время операций (мс)" "мс"
         (basename folder1) (basename folder2) = Ok c3
    /\ plot_xy_lines data1 data2 "avg_select_size_bytes" "avg_select_time_ms"
         "Зависимость времени SELECT от размера JSONB"
         "Размер JSONB (бит)" "Время SELECT (мс)"
         (basename folder1) (basename folder2) = Ok c4
    /\ monitor_main folder1 folder2 d1 d2 w
       = run_calls (two_line_calls c1 ++ two_line_calls c2
                    ++ multi_line_calls c3 ++ xy_calls c4) w1
    /\ map (fun c => length (lines c)) [c1; c2; c3; c4] = [2; 2; 8; 2]%nat
    /\ Forall (fun c => Forall well_shaped (lines c)) [c1; c2; c3; c4]
    /\ (data1 = [] -> data2 = [] ->
        Forall (fun c => Forall empty_line (lines c)) [c1; c2; c3; c4])
    /\ (forall e w',
          monitor_main folder1 folder2 d1 d2 w = (Raise e, w') ->
          exists before c, plt before c = Raise e)
    /\ ((forall before c, plt before c = Ok tt) ->
        exists w',
          monitor_main folder1 folder2 d1 d2 w = (Ok tt, w')
          /\ figures w'
             = figures w ++ two_line_calls c1 ++ two_line_calls c2
               ++ multi_line_calls c3 ++ xy_calls c4).
Proof.
  set (data1 := map snd (parsed_metrics d1)).
  set (data2 := map snd (parsed_metrics d2)).
  destruct (monitor_main_run folder1 folder2 d1 d2 w)
    as (l11 & l12 & l21 & l22 & ls & l41 & l42 & Hrun & Hc1 & Hc2 & Hc3 & Hc4
        & Hlen & Hshape & _).
  cbv zeta in *. fold data1 data2 in Hc1, Hc2, Hc3, Hc4, Hshape.
  exists data1, data2.
  eexists. eexists. eexists. eexists. eexists. eexists.
  split; [done|]. split; [done|].
  split; [unfold load_metrics; by rewrite load_metrics_loop_spec|].
  split; [unfold load_metrics; by rewrite load_metrics_loop_spec|].
  split; [exact Hc1|]. split; [exact Hc2|]. split; [exact Hc3|].
  split; [exact Hc4|]. split; [exact Hrun|].
  assert (Hall : Forall (fun l => well_shaped l
                                  /\ (length (xs l) = length data1
                                      \/ length (xs l) = length data2))
                        [l11; l12; l21; l22]
                 /\ Forall (fun l => well_shaped l
                                     /\ (length (xs l) = length data1
                                         \/ length (xs l) = length data2)) ls
                 /\ Forall (fun l => well_shaped l
                                     /\ (length (xs l) = length data1
                                         \/ length (xs l) = length data2))
                           [l41; l42]).
  { apply Forall_app in Hshape as [H12 Hshape].
    by apply Forall_app in Hshape as [H3 H4]. }
  destruct Hall as (H12 & H3 & H4).
  apply Forall_cons in H12 as [H11 H12]. apply Forall_cons in H12 as [H12 H2].
  apply Forall_cons in H2 as [H21 H2]. apply Forall_cons in H2 as [H22 _].
  apply Forall_cons in H4 as [H41 H4]. apply Forall_cons in H4 as [H42 _].
  split; [simpl; by rewrite Hlen|]. split; [|split; [|split]].
  - repeat constructor; simpl; try tauto.
    eapply Forall_impl; [exact H3|]. simpl. tauto.
  - intros E1 E2.
    assert (Hempty : forall l,
               well_shaped l
               /\ (length (xs l) = length data1 \/ length (xs l) = length data2) ->
               empty_line l).
    { intros l [Hw Hl]. unfold well_shaped in Hw. rewrite E1, E2 in Hl.
      simpl in Hl. unfold empty_line.
      assert (length (xs l) = 0%nat) as Hx by tauto.
      rewrite Hx in Hw. symmetry in Hw.
      by apply length_zero_iff_nil in Hx, Hw. }
    assert (Htwo : forall l l', empty_line l -> empty_line l' ->
                               Forall empty_line [l; l']).
    { intros l l' Hl Hl'. constructor; [done|]. constructor; [done | constructor]. }
    apply Forall_cons. split; [apply Htwo; by apply Hempty|].
    apply Forall_cons. split; [apply Htwo; by apply Hempty|].
    apply Forall_cons. split; [exact (Forall_impl _ _ _ H3 Hempty)|].
    apply Forall_cons. split; [apply Htwo; by apply Hempty | constructor].
  - intros e w' Hraise. rewrite Hrun in Hraise.
    apply run_calls_Raise in Hraise as (before & c & _ & _ & Hc). eauto.
  - intros Hplt. rewrite Hrun, (run_calls_complete _ _ Hplt). eauto.
Qed.

(** ** Legend labels *)

Lemma append_cons (a : ascii) (s t : string) :
  String a s +:+ t = String a (s +:+ t).
Proof. reflexivity. Qed.

Lemma append_snoc (acc : string) (c : ascii) (rest : string) :
  (acc +:+ String c "") +:+ rest = acc +:+ String c rest.
Proof.
  induction acc as [|a acc IH]; [done|]. rewrite !append_cons. by rewrite IH.
Qed.

Lemma append_empty (acc : string) : acc +:+ "" = acc.
Proof. induction acc as [|a acc IH]; [done|]. rewrite append_cons. by rewrite IH. Qed.

Lemma basename_from_no_slash (name acc : string) :
  no_slash name = true -> basename_from acc name = acc +:+ name.
Proof.
  revert acc. induction name as [|c name IH]; intros acc; simpl.
  - intros _. by rewrite append_empty.
  - intros [Hc Hname]%andb_true_iff. apply negb_true_iff in Hc. rewrite Hc.
    rewrite (IH _ Hname). apply append_snoc.
Qed.

Lemma basename_from_app (p q acc : string) :
  basename_from acc (p +:+ q) = basename_from (basename_from acc p) q.
Proof.
  revert acc. induction p as [|c p IH]; intros acc; [done|].
  rewrite append_cons. simpl. destruct (Ascii.eqb c "/"); apply IH.
Qed.

(** [os.path.basename] gives what follows the last slash. *)
Lemma basename_after_last_slash (path name : string) :
  after_last_slash path name -> basename path = name.
Proof.
  intros [Hname [->|[dir ->]]]; unfold basename.
  - by rewrite (basename_from_no_slash name "" Hname).
  - rewrite basename_from_app, append_cons. simpl.
    change ("" +:+ name) with name.
    by rewrite (basename_from_no_slash name "" Hname).
Qed.

(** X19: the legends of the four comparison charts name each run by what
    follows the last slash of its folder argument: the first two charts
    and the fourth have the two entries run 1, run 2; the third has, for
    each of the four averages in turn, the entries run 1:key, run 2:key.
    A folder given as [dir/name] goes by [name]; one given with a slash at
    the end goes by the empty string, so that two folders given that way
    have the same legend entries. *)
Theorem monitor_main_labels (folder1 folder2 label1 label2 : string)
    (d1 d2 : directory) (w : world) :
  after_last_slash folder1 label1 ->
  after_last_slash folder2 label2 ->
  exists c1 c2 c3 c4 w1,
    monitor_main folder1 folder2 d1 d2 w
    = run_calls (two_line_calls c1 ++ two_line_calls c2
                 ++ multi_line_calls c3 ++ xy_calls c4) w1
    /\ plot_two_line_time_series
         (map snd (parsed_metrics d1)) (map snd (parsed_metrics d2)) "blks_ratio"
         "Postgres: blks_hit / blks_read" "Доля попаданий в кэш"
         label1 label2 = Ok c1
    /\ plot_two_line_time_series
         (map snd (parsed_metrics d1)) (map snd (parsed_metrics d2)) "toast_total"
         "Суммарный размер TOAST таблиц" "Размер в байтах"
         label1 label2 = Ok c2
    /\ plot_multi_line_indexed
         (map snd (parsed_metrics d1)) (map snd (parsed_metrics d2)) time_keys
         "Среднее время операций (мс)" "мс" label1 label2 = Ok c3
    /\ plot_xy_lines
         (map snd (parsed_metrics d1)) (map snd (parsed_metrics d2))
         "avg_select_size_bytes" "avg_select_time_ms"
         "Зависимость времени SELECT от размера JSONB"
         "Размер JSONB (бит)" "Время SELECT (мс)" label1 label2 = Ok c4
    /\ map (fun c => map label (lines c)) [c1; c2; c3; c4]
       = [ [CVal (JStr label1); CVal (JStr label2)];
           [CVal (JStr label1); CVal (JStr label2)];
           flat_map (fun key => [CVal (JStr (label1 +:+ ":" +:+ key));
                                 CVal (JStr (label2 +:+ ":" +:+ key))]) time_keys;
           [CVal (JStr label1); CVal (JStr label2)] ].
Proof.
  intros <-%basename_after_last_slash <-%basename_after_last_slash.
  destruct (monitor_main_run folder1 folder2 d1 d2 w)
    as (l11 & l12 & l21 & l22 & ls & l41 & l42 & Hrun & Hc1 & Hc2 & Hc3 & Hc4
        & _ & _ & Hlab & Hlab3).
  cbv zeta in *.
  eexists. eexists. eexists. eexists. eexists.
  split; [exact Hrun|]. split; [exact Hc1|]. split; [exact Hc2|].
  split; [exact Hc3|]. split; [exact Hc4|].
  cbn [map lines]. rewrite Hlab3. simpl in Hlab.
  injection Hlab as -> -> -> -> -> ->. done.
Qed.

(** ** Accounts of the two loaders *)

Lemma omap_cons_eq {A B : Type} (f : A -> option B) (x : A) (l : list A) :
  omap f (x :: l)
  = match f x with
    | Some y => y :: omap f l
    | None => omap f l
    end.
Proof. reflexivity. Qed.

Lemma omap_metrics_count (d : directory) (names : list string) :
  (length (omap (metrics_of d) names) + length (omap (metrics_failure d) names))%nat
  = length (filter (fun n => Is_true (ends_with ".json" n)) names).
Proof.
  induction names as [|n names IH]; [done|].
  rewrite filter_cons, !omap_cons_eq. unfold metrics_of at 1, metrics_failure at 1.
  destruct (ends_with ".json" n).
  - destruct (decide (Is_true true)) as [_|Hno]; [|by destruct Hno].
    destruct (read_metrics_file d n); rewrite !length_cons; lia.
  - destruct (decide (Is_true false)) as [[]|_]. exact IH.
Qed.

Lemma metrics_failure_elem (d : directory) (names : list string) (m : message) :
  m ∈ omap (metrics_failure d) names <->
  exists n e, m = FileError n e /\ n ∈ names /\ ends_with ".json" n = true
              /\ read_metrics_file d n = Raise e.
Proof.
  rewrite list_elem_of_omap. unfold metrics_failure. split.
  - intros (n & Hin & Hm). destruct (ends_with ".json" n) eqn:Hj; [|discriminate].
    destruct (read_metrics_file d n) as [dp|e] eqn:Hr; [discriminate|].
    injection Hm as <-. by exists n, e.
  - intros (n & e & -> & Hin & Hj & Hr). exists n. by rewrite Hj, Hr.
Qed.

(** X1: [load_metrics] always returns: each entry whose name ends in [.json]
    gives either one data point or one printed diagnostic, with the
    exception that stopped it, and nothing else is printed; the clock and
    the figures are not touched. *)
Theorem load_metrics_accounts (d : directory) (w : world) :
  exists data log,
    load_metrics d w
    = (Ok data,
       {| clock := clock w; stdout := stdout w ++ log; figures := figures w |})
    /\ (length data + length log)%nat
       = length (filter (fun n => Is_true (ends_with ".json" n)) (listdir d))
    /\ forall m,
         m ∈ log <->
         exists n e, m = FileError n e /\ n ∈ listdir d
                     /\ ends_with ".json" n = true
                     /\ read_metrics_file d n = Raise e.
Proof.
  eexists. eexists. split; [apply load_metrics_loop_spec|]. split.
  - simpl. rewrite length_map, omap_metrics_count.
    apply Permutation_length. by rewrite sorted_perm.
  - intros m. rewrite metrics_failure_elem.
    by setoid_rewrite sorted_perm.
Qed.

(** The state after the [try] body of [load_snapshots]: nothing printed,
    nothing drawn, the clock read as often as on the same file from the
    initial state; and the exception, if any, is the same. *)
Lemma read_snapshot_frame (f : result json) (w : world) :
  snd (read_snapshot f w)
  = {| clock := clock w + clock (snd (read_snapshot f initial));
       stdout := stdout w; figures := figures w |}
  /\ (forall e, fst (read_snapshot f w) = Raise e <->
                fst (read_snapshot f initial) = Raise e)
  /\ (clock (snd (read_snapshot f initial))
      <= if is_ok (fst (read_snapshot f initial)) then 1 else 0)%nat.
Proof.
  destruct w as [c out figs].
  destruct f as [[| | | | | |members]|e];
    try (unfold read_snapshot, and_then, lift, json_load, ret; simpl;
         split; [f_equal; lia | split; [done | lia]]).
  rewrite !read_snapshot_dict. simpl.
  destruct (dict_lookup "timestamp" members) as [[| | | |s| |]|]; simpl;
    try (split; [f_equal; lia | split; [done | lia]]).
  destruct (fromisoformat s); simpl; (split; [f_equal; lia | split; [done | lia]]).
Qed.

Lemma load_snapshots_loop_accounts (export_dir : string) (d : directory)
    (files : list string) (snapshots snaps : list snapshot) (w w' : world) :
  load_snapshots_loop export_dir d files snapshots w = (Ok snaps, w') ->
  Forall (fun n => is_ok (py_open d n) = true) files
  /\ stdout w' = stdout w ++ omap (snapshot_failure export_dir d) files
  /\ figures w' = figures w
  /\ (length snaps + length (omap (snapshot_failure export_dir d) files))%nat
     = (length snapshots + length files)%nat
  /\ (clock w <= clock w')%nat
  /\ (clock w' + length snapshots <= clock w + length snaps)%nat.
Proof.
  revert snapshots w. induction files as [|n files IH]; intros snapshots w.
  - simpl. unfold ret. intros [= <- <-]. rewrite app_nil_r.
    repeat split; try done; simpl; lia.
  - rewrite load_snapshots_loop_cons.
    destruct (py_open d n) as [f|e] eqn:Hopen; [|discriminate].
    rewrite !omap_cons_eq.
    assert (Hsf : snapshot_failure export_dir d n
                  = match fst (read_snapshot f initial) with
                    | Ok _ => None
                    | Raise e => Some (FileError (glob_path export_dir n) e)
                    end).
    { unfold snapshot_failure. by rewrite Hopen. }
    rewrite Hsf. clear Hsf.
    destruct (read_snapshot_frame f w) as (Hsnd & Herr & Hticks).
    destruct (read_snapshot f w) as [[snap|e] w1] eqn:Hread; simpl in Hsnd, Herr.
    + destruct (fst (read_snapshot f initial)) as [snap0|e0] eqn:H0.
      2:{ pose proof (proj2 (Herr e0) eq_refl). discriminate. }
      intros H. apply IH in H as (Hall & Hout & Hfig & Hlen & Hc1 & Hc2).
      subst w1. simpl in *. rewrite length_app in *. simpl in *.
      repeat split; try done; try lia. constructor; [by rewrite Hopen | done].
    + pose proof (proj1 (Herr e) eq_refl) as H0. rewrite H0 in *.
      intros H. apply IH in H as (Hall & Hout & Hfig & Hlen & Hc1 & Hc2).
      subst w1. simpl in *.
      repeat split; try done; try lia.
      * constructor; [by rewrite Hopen | done].
      * by rewrite Hout, <- app_assoc.
Qed.

Lemma load_snapshots_loop_raise (export_dir : string) (d : directory)
    (files : list string) (snapshots : list snapshot) (w w' : world) (e : exn) :
  load_snapshots_loop export_dir d files snapshots w = (Raise e, w') ->
  exists n, n ∈ files /\ py_open d n = Raise e.
Proof.
  revert snapshots w. induction files as [|n files IH]; intros snapshots w.
  - discriminate.
  - rewrite load_snapshots_loop_cons.
    destruct (py_open d n) as [f|e'] eqn:Hopen.
    + destruct (read_snapshot f w) as [[snap|e'] w1]; intros H;
        apply IH in H as (n' & Hin & Hn'); exists n'; split; auto; by right.
    + intros [= <- <-]. exists n. split; [by left | done].
Qed.

(** X3: for a folder name taken literally and a standard output that takes
    the diagnostics, the only exceptions that leave [load_snapshots] are
    those of [open]: it returns a collection exactly when every matching
    file of the folder can be opened, and what it raises otherwise is what
    [open] raised on a matching file. *)
Theorem load_snapshots_raises_only_open (export_dir : string) (d : directory)
    (w : world) :
  has_magic export_dir = false ->
  ((exists snaps w', load_snapshots export_dir d w = (Ok snaps, w')) <->
   Forall (fun n => is_ok (py_open d n) = true) (glob d))
  /\ forall e w',
       load_snapshots export_dir d w = (Raise e, w') ->
       exists n, n ∈ listdir d /\ glob_match n = true /\ py_open d n = Raise e.
Proof.
  intros _. unfold load_snapshots. split; [split|].
  - intros (snaps & w' & H).
    apply load_snapshots_loop_accounts in H as (Hall & _).
    rewrite Forall_forall in *. intros n Hn. apply Hall. by rewrite sorted_perm.
  - intros Hall. apply load_snapshots_loop_total.
    rewrite Forall_forall in *. intros n Hn. apply Hall. by rewrite sorted_perm in Hn.
  - intros e w' H. apply load_snapshots_loop_raise in H as (n & Hin & Hn).
    exists n. rewrite sorted_perm in Hin. unfold glob in Hin.
    apply list_elem_of_filter in Hin as [Hg Hin]. apply Is_true_true in Hg. done.
Qed.

Lemma snapshot_failure_elem (export_dir : string) (d : directory)
    (files : list string) (m : message) :
  m ∈ omap (snapshot_failure export_dir d) files <->
  exists n e f, m = FileError (glob_path export_dir n) e /\ n ∈ files
                /\ py_open d n = Ok f
                /\ fst (read_snapshot f initial) = Raise e.
Proof.
  rewrite list_elem_of_omap. unfold snapshot_failure. split.
  - intros (n & Hin & Hm). destruct (py_open d n) as [f|e] eqn:Hopen; [|discriminate].
    destruct (fst (read_snapshot f initial)) as [snap|e] eqn:Hr; [discriminate|].
    injection Hm as <-. by exists n, e, f.
  - intros (n & e & f & -> & Hin & Hopen & Hr). exists n. by rewrite Hopen, Hr.
Qed.

(** X4: for a folder name taken literally, when [load_snapshots] returns,
    every matching file of the folder has given either one snapshot or one
    printed diagnostic, which names the file by the path [glob] returned
    for it and carries the exception of its [try] body; nothing else was
    printed or drawn, and the clock was read at most once for each
    snapshot and never for a failed file. *)
Theorem load_snapshots_accounts (export_dir : string) (d : directory)
    (snaps : list snapshot) (w w' : world) :
  has_magic export_dir = false ->
  load_snapshots export_dir d w = (Ok snaps, w') ->
  exists log,
    stdout w' = stdout w ++ log
    /\ figures w' = figures w
    /\ (length snaps + length log)%nat = length (glob d)
    /\ (forall m,
           m ∈ log <->
           exists n e f, m = FileError (glob_path export_dir n) e
                         /\ n ∈ glob d /\ py_open d n = Ok f
                         /\ fst (read_snapshot f initial) = Raise e)
    /\ (clock w <= clock w' <= clock w + length snaps)%nat.
Proof.
  unfold load_snapshots. intros _ H.
  apply load_snapshots_loop_accounts in H as (_ & Hout & Hfig & Hlen & Hc1 & Hc2).
  eexists. split; [exact Hout|]. split; [done|]. split; [|split].
  - rewrite Hlen. simpl. apply Permutation_length, sorted_perm.
  - intros m. rewrite snapshot_failure_elem. by setoid_rewrite sorted_perm.
  - simpl in *. lia.
Qed.

(** ** Entries the loaders do not look at *)

Lemma find_file_filter (P : string -> bool) (d : list (string * file)) (n : string) :
  P n = true ->
  find_file n (filter (fun e : string * file => Is_true (P (fst e))) d)
  = find_file n d.
Proof.
  intros Hn. induction d as [|[n' f] d IH]; [done|].
  rewrite filter_cons. simpl.
  destruct (decide (Is_true (P n'))) as [Hyes|Hno]; simpl.
  - by rewrite IH.
  - destruct (String.eqb_spec n n') as [->|_]; [|done].
    destruct Hno. by rewrite Hn.
Qed.

Lemma listdir_filter (P : string -> bool) (d : list (string * file)) :
  listdir (filter (fun e : string * file => Is_true (P (fst e))) d)
  = filter (fun n => Is_true (P n)) (listdir d).
Proof.
  unfold listdir. induction d as [|[n f] d IH]; [done|].
  change (map fst ((n, f) :: d)) with (n :: map fst d).
  rewrite !filter_cons. change (fst (n, f)) with n.
  destruct (decide (Is_true (P n))); [simpl; f_equal|]; exact IH.
Qed.

Lemma filter_twice (P : string -> bool) (l : list string) :
  filter (fun n => Is_true (P n)) (filter (fun n => Is_true (P n)) l)
  = filter (fun n => Is_true (P n)) l.
Proof.
  induction l as [|n l IH]; [done|]. rewrite !filter_cons.
  destruct (decide (Is_true (P n))) as [Hyes|Hno]; [|done].
  rewrite filter_cons. destruct (decide (Is_true (P n))); [by rewrite IH | done].
Qed.

Lemma sorted_filter (P : string -> bool) (l : list string) :
  sorted (filter (fun n => Is_true (P n)) l)
  = filter (fun n => Is_true (P n)) (sorted l).
Proof.
  apply (StronglySorted_unique String.le).
  - apply sorted_strongly.
  - apply StronglySorted_filter, sorted_strongly.
  - by rewrite !sorted_perm.
Qed.

Lemma load_snapshots_loop_ext_in (export_dir : string) (d d' : directory)
    (files : list string) :
  Forall (fun n => py_open d n = py_open d' n) files ->
  forall snapshots w,
    load_snapshots_loop export_dir d files snapshots w
    = load_snapshots_loop export_dir d' files snapshots w.
Proof.
  induction 1 as [|n files Hn _ IH]; intros snapshots w; [done|].
  rewrite !load_snapshots_loop_cons, <- Hn.
  destruct (py_open d n) as [f|e]; [|done].
  by destruct (read_snapshot f w) as [[snap|e] w1].
Qed.

Lemma load_metrics_loop_skip (d d' : directory) (names : list string) :
  Forall (fun n => ends_with ".json" n = true -> py_open d n = py_open d' n) names ->
  forall data w,
    load_metrics_loop d names data w
    = load_metrics_loop d'
        (filter (fun n => Is_true (ends_with ".json" n)) names) data w.
Proof.
  induction 1 as [|n names Hn _ IH]; intros data w; [done|].
  rewrite filter_cons, load_metrics_loop_cons.
  destruct (ends_with ".json" n) eqn:Hj.
  - destruct (decide (Is_true true)) as [_|Hno]; [|by destruct Hno].
    rewrite load_metrics_loop_cons, Hj. cbn [negb].
    unfold read_metrics_file. rewrite <- (Hn eq_refl).
    destruct (let! f := py_open d n in let! content := json_load f in
              read_data_point content); apply IH.
  - destruct (decide (Is_true false)) as [[]|_]. apply IH.
Qed.

(** X5: entries whose names the loaders do not select play no part: a
    directory and the same directory without them give the same result,
    the same printed lines and the same state.  Such files are never
    opened. *)
Theorem loaders_ignore_other_names (export_dir : string)
    (d : list (string * file)) (w : world) :
  load_snapshots export_dir
    (filter (fun e : string * file => Is_true (glob_match (fst e))) d) w
  = load_snapshots export_dir d w
  /\ load_metrics
       (filter (fun e : string * file => Is_true (ends_with ".json" (fst e))) d) w
     = load_metrics d w.
Proof.
  split.
  - unfold load_snapshots, glob. rewrite listdir_filter, filter_twice.
    apply load_snapshots_loop_ext_in. rewrite Forall_forall. intros n Hn.
    rewrite sorted_perm in Hn. apply list_elem_of_filter in Hn as [Hg _].
    unfold py_open. rewrite find_file_filter; [done | by apply Is_true_true].
  - unfold load_metrics. rewrite listdir_filter, sorted_filter.
    set (d' := filter _ d).
    rewrite (load_metrics_loop_skip d d' (sorted (listdir d))).
    + symmetry. rewrite <- (filter_twice (ends_with ".json")) at 1.
      symmetry. apply load_metrics_loop_skip. rewrite Forall_forall. done.
    + rewrite Forall_forall. intros n _ Hj. unfold py_open, d'.
      by rewrite find_file_filter.
Qed.

(** ** Records and sizes that stop a file *)

Lemma find_postgres_broken (pre post : list json) (db : json) (e : exn) :
  Forall (fun r => is_postgres r = Ok false) pre ->
  is_postgres db = Raise e ->
  find_postgres (pre ++ db :: post) = Raise e.
Proof.
  intros Hpre Hdb. induction Hpre as [|r pre Hr _ IH]; simpl.
  - by rewrite Hdb.
  - by rewrite Hr.
Qed.

(** X20: [next] tests the records of [db_stats] one after the other until one
    passes, so a record in front of the postgres record on which the test
    raises stops the whole file with that exception (a record without
    [datname], for one, with a [KeyError]), however good the records after
    it are. *)
Theorem broken_record_before_postgres (content ts_str : json) (t : datetime)
    (pre post : list json) (db : json) (e : exn) :
  py_getitem content "timestamp" = Ok ts_str ->
  py_fromisoformat ts_str = Ok t ->
  db_records content = Ok (pre ++ db :: post) ->
  Forall (fun r => is_postgres r = Ok false) pre ->
  is_postgres db = Raise e ->
  read_data_point content = Raise e
  /\ (forall members,
         dict_lookup "datname" members = None ->
         is_postgres (JObj members) = Raise (KeyError "datname")).
Proof.
  intros Hts Ht Hdbs Hpre Hdb. split.
  - unfold read_data_point. rewrite Hts. simpl. rewrite Ht. simpl.
    rewrite Hdbs. simpl. by rewrite (find_postgres_broken pre post db e Hpre Hdb).
  - intros members Hmiss. unfold is_postgres. simpl. by rewrite Hmiss.
Qed.

Lemma sum_toast_bad (pre post : list json) (sizes : list Z) (t v : json)
    (acc : Z) :
  Forall2 (fun t size => py_get t "toast_size_bytes" (JInt 0) = Ok (JInt size))
          pre sizes ->
  py_get t "toast_size_bytes" (JInt 0) = Ok v ->
  as_number v = None ->
  sum_toast (JInt acc) (pre ++ t :: post) = Raise TypeError.
Proof.
  intros Hpre Ht Hv. revert acc.
  induction Hpre as [|t0 size pre sizes Ht0 _ IH]; intros acc; simpl.
  - rewrite Ht. simpl. unfold py_add. simpl. rewrite Hv. by destruct v.
  - rewrite Ht0. simpl. apply IH.
Qed.

(** X21: a size that is not a number, such as a JSON [null], stops the file
    with a [TypeError] when the sum reaches it: the snapshot yields no
    data point, whatever its other fields are. *)
Theorem bad_toast_size_stops_file (content ts_str : json) (t : datetime)
    (dbs : list json) (pg_stat : option json) (ratio : json)
    (pre post : list json) (sizes : list Z) (entry v : json) :
  py_getitem content "timestamp" = Ok ts_str ->
  py_fromisoformat ts_str = Ok t ->
  db_records content = Ok dbs ->
  find_postgres dbs = Ok pg_stat ->
  ratio_of pg_stat = Ok ratio ->
  toast_entries content = Ok (pre ++ entry :: post) ->
  Forall2 (fun t size => py_get t "toast_size_bytes" (JInt 0) = Ok (JInt size))
          pre sizes ->
  py_get entry "toast_size_bytes" (JInt 0) = Ok v ->
  as_number v = None ->
  read_data_point content = Raise TypeError.
Proof.
  intros Hts Ht Hdbs Hpg Hratio Hentries Hpre Hentry Hv.
  unfold read_data_point. rewrite Hts. simpl. rewrite Ht. simpl.
  rewrite Hdbs. simpl. rewrite Hpg. simpl. rewrite Hratio. simpl.
  rewrite Hentries. simpl.
  by rewrite (sum_toast_bad pre post sizes entry v 0 Hpre Hentry Hv).
Qed.

(** ** Which names the loaders select *)

Lemma length_append (s t : string) :
  String.length (s +:+ t) = (String.length s + String.length t)%nat.
Proof.
  induction s as [|a s IH]; [done|]. rewrite append_cons. simpl. by rewrite IH.
Qed.

Lemma substring_all (s : string) : substring 0 (String.length s) s = s.
Proof. induction s as [|a s IH]; [done|]. simpl. by rewrite IH. Qed.

Lemma substring_skip (p q : string) (n : nat) :
  substring (String.length p) n (p +:+ q) = substring 0 n q.
Proof. induction p as [|a p IH]; [done|]. rewrite append_cons. simpl. exact IH. Qed.

Lemma substring_split (s : string) (k : nat) :
  (k <= String.length s)%nat ->
  s = substring 0 k s +:+ substring k (String.length s - k) s.
Proof.
  revert k. induction s as [|a s IH]; intros k Hk.
  - simpl in Hk. assert (k = 0%nat) as -> by lia. done.
  - destruct k as [|k].
    + simpl. change ("" +:+ String a (substring 0 (String.length s) s))
        with (String a (substring 0 (String.length s) s)).
      by rewrite substring_all.
    + simpl in *. rewrite append_cons. f_equal. apply IH. lia.
Qed.

Lemma ends_with_iff (suffix s : string) :
  ends_with suffix s = true <-> exists stem, s = stem +:+ suffix.
Proof.
  unfold ends_with. rewrite andb_true_iff, Nat.leb_le, String.eqb_eq. split.
  - intros [Hle Hsub].
    exists (substring 0 (String.length s - String.length suffix) s).
    rewrite (substring_split s (String.length s - String.length suffix)) at 1 by lia.
    f_equal.
    replace (String.length s - (String.length s - String.length suffix))%nat
      with (String.length suffix) by lia.
    exact Hsub.
  - intros [stem ->]. rewrite length_append. split; [lia|].
    replace (String.length stem + String.length suffix - String.length suffix)%nat
      with (String.length stem) by lia.
    by rewrite substring_skip, substring_all.
Qed.

Lemma prefix_stats (name : string) :
  String.prefix "stats_" name = true <-> exists rest, name = "stats_" +:+ rest.
Proof.
  split.
  - intros H.
    do 6 (destruct name as [|? name]; [discriminate|];
          simpl in H;
          match type of H with
          | (if ?c then _ else _) = true => destruct c as [<-|]; [|discriminate]
          end).
    by exists name.
  - intros [rest ->].
    change ("stats_" +:+ rest)
      with (String "s" (String "t" (String "a" (String "t" (String "s" (String "_" rest)))))).
    simpl.
    repeat match goal with
           | |- context [ascii_dec ?a ?b] => destruct (ascii_dec a b); [|done]
           end.
    by destruct rest.
Qed.

Lemma glob_match_iff (n : string) :
  glob_match n = true <-> exists middle, n = "stats_" +:+ middle +:+ ".json".
Proof.
  unfold glob_match. rewrite andb_true_iff, prefix_stats, ends_with_iff.
  split.
  - intros [[rest ->] [stem Hstem]].
    exists stem. f_equal.
    change (String.length ("stats_" +:+ rest)) with (6 + String.length rest)%nat in Hstem.
    change (substring 6 (6 + String.length rest - 6) ("stats_" +:+ rest))
      with (substring 0 (6 + String.length rest - 6) rest) in Hstem.
    replace (6 + String.length rest - 6)%nat with (String.length rest) in Hstem by lia.
    by rewrite substring_all in Hstem.
  - intros [middle ->]. split; [by eexists|].
    exists middle.
    change (String.length ("stats_" +:+ middle +:+ ".json"))
      with (6 + String.length (middle +:+ ".json"))%nat.
    change (substring 6 (6 + String.length (middle +:+ ".json") - 6)
              ("stats_" +:+ middle +:+ ".json"))
      with (substring 0 (6 + String.length (middle +:+ ".json") - 6)
              (middle +:+ ".json")).
    replace (6 + String.length (middle +:+ ".json") - 6)%nat
      with (String.length (middle +:+ ".json")) by lia.
    apply substring_all.
Qed.

Lemma py_open_other (n m : string) (f : file) (d : directory) :
  m <> n -> py_open ((n, f) :: d) m = py_open d m.
Proof. intros Hne. unfold py_open. by rewrite find_file_other. Qed.

(** What [load_snapshots] returned and printed, counted. *)
Lemma load_snapshots_count (export_dir : string) (d : directory)
    (snaps : list snapshot) (w w' : world) :
  load_snapshots export_dir d w = (Ok snaps, w') ->
  (length snaps + length (stdout w'))%nat
  = (length (stdout w) + length (glob d))%nat.
Proof.
  unfold load_snapshots. intros H.
  apply load_snapshots_loop_accounts in H as (_ & Hout & _ & Hlen & _).
  rewrite Hout, length_app. simpl in Hlen.
  rewrite (Permutation_length (sorted_perm (glob d))) in Hlen. lia.
Qed.

Lemma load_metrics_count (d : directory) (data : list data_point) (w w' : world) :
  load_metrics d w = (Ok data, w') ->
  (length data + length (stdout w'))%nat
  = (length (stdout w)
     + length (filter (fun n => Is_true (ends_with ".json" n)) (listdir d)))%nat.
Proof.
  unfold load_metrics. rewrite load_metrics_loop_spec. intros [= <- <-].
  simpl. rewrite length_map, length_app.
  pose proof (omap_metrics_count d (sorted (listdir d))) as Hcount.
  rewrite (Permutation_length
             (filter_Permutation _ _ _ (sorted_perm (listdir d)))) in Hcount.
  lia.
Qed.

Lemma load_snapshots_loop_stops (export_dir : string) (d : directory)
    (files : list string) (n : string) (e : exn) :
  n ∈ files ->
  py_open d n = Raise e ->
  Forall (fun m => m <> n -> is_ok (py_open d m) = true) files ->
  forall snapshots w,
    exists w', load_snapshots_loop export_dir d files snapshots w = (Raise e, w').
Proof.
  intros Hin Hn Hall. induction Hall as [|m files Hm _ IH]; intros snapshots w.
  - by apply elem_of_nil in Hin.
  - rewrite load_snapshots_loop_cons.
    destruct (decide (m = n)) as [->|Hne]; [rewrite Hn; eauto|].
    apply elem_of_cons in Hin as [->|Hin]; [done|].
    specialize (Hm Hne). destruct (py_open d m) as [f|e']; [|discriminate].
    destruct (read_snapshot f w) as [[snap|e'] w1]; by apply IH.
Qed.

(** X6: which names the loaders select, seen on a file that is added to a
    folder under a new name.  Under a name of the form [stats_], anything
    or nothing, [.json], [load_snapshots] (for a folder name taken
    literally) reads the file: where it returned before, it now returns
    with one more snapshot or one more printed line, or, when the file
    cannot be opened, raises what [open] raised; under any other name the
    file changes nothing.  For [load_metrics] the same holds with the
    names that end in [.json], the bare name [.json] too, and there the
    added file always gives one more data point or one more printed
    line. *)
Theorem selected_names (export_dir : string) (d : list (string * file))
    (n : string) (f : file) (w : world) :
  has_magic export_dir = false ->
  n ∉ listdir d ->
  ((exists middle, n = "stats_" +:+ middle +:+ ".json") ->
   forall snaps w1,
     load_snapshots export_dir d w = (Ok snaps, w1) ->
     match f with
     | Opened _ =>
         exists snaps' w1',
           load_snapshots export_dir ((n, f) :: d) w = (Ok snaps', w1')
           /\ (length snaps' + length (stdout w1'))%nat
              = S (length snaps + length (stdout w1))
     | Unopenable e =>
         exists w1', load_snapshots export_dir ((n, f) :: d) w = (Raise e, w1')
     end)
  /\ (~ (exists middle, n = "stats_" +:+ middle +:+ ".json") ->
      load_snapshots export_dir ((n, f) :: d) w = load_snapshots export_dir d w)
  /\ ((exists stem, n = stem +:+ ".json") ->
      exists data w1 data' w1',
        load_metrics d w = (Ok data, w1)
        /\ load_metrics ((n, f) :: d) w = (Ok data', w1')
        /\ (length data' + length (stdout w1'))%nat
           = S (length data + length (stdout w1)))
  /\ (~ (exists stem, n = stem +:+ ".json") ->
      load_metrics ((n, f) :: d) w = load_metrics d w).
Proof.
  intros _ Hnew.
  assert (Hls : listdir ((n, f) :: d) = n :: listdir d) by done.
  split; [|split; [|split]].
  - intros Hn%glob_match_iff snaps w1 H.
    assert (Hglob : glob ((n, f) :: d) = n :: glob d).
    { unfold glob. rewrite Hls, filter_cons.
      destruct (decide (Is_true (glob_match n))) as [_|Hno];
        [done | by rewrite Hn in Hno]. }
    assert (Hold : Forall (fun m => m <> n -> is_ok (py_open ((n, f) :: d) m) = true)
                          (sorted (glob ((n, f) :: d)))).
    { unfold load_snapshots in H.
      apply load_snapshots_loop_accounts in H as (Hall & _).
      rewrite Forall_forall in *. intros m Hm Hne.
      rewrite py_open_other by done. apply Hall.
      rewrite sorted_perm, Hglob in Hm. rewrite sorted_perm.
      by apply elem_of_cons in Hm as [->|Hm]. }
    assert (Hopen : py_open ((n, f) :: d) n
                    = match f with
                      | Opened loaded => Ok loaded
                      | Unopenable e => Raise e
                      end).
    { unfold py_open. by rewrite find_file_same. }
    destruct f as [e|loaded].
    + unfold load_snapshots. apply load_snapshots_loop_stops with (n := n); [|done..].
      rewrite sorted_perm, Hglob. by left.
    + destruct (load_snapshots_loop_total export_dir ((n, Opened loaded) :: d)
                  (sorted (glob ((n, Opened loaded) :: d))) [] w)
        as (snaps' & w1' & H').
      { rewrite Forall_forall in *. intros m Hm.
        destruct (decide (m = n)) as [->|Hne]; [by rewrite Hopen | by apply Hold]. }
      exists snaps', w1'. split; [exact H'|].
      apply load_snapshots_count in H, H'. rewrite H, H', Hglob. simpl. lia.
  - intros Hn. rewrite <- glob_match_iff in Hn. apply not_true_is_false in Hn.
    unfold load_snapshots, glob. rewrite Hls, filter_cons.
    destruct (decide (Is_true (glob_match n))) as [Hyes|_];
      [by rewrite Hn in Hyes|].
    symmetry. apply load_snapshots_loop_ext_in. rewrite Forall_forall.
    intros m Hm. rewrite sorted_perm in Hm.
    apply list_elem_of_filter in Hm as [_ Hm].
    symmetry. apply py_open_other. by intros ->.
  - intros Hn%ends_with_iff.
    destruct (load_metrics d w) as [[data|e] w1] eqn:H;
      [|unfold load_metrics in H; by rewrite load_metrics_loop_spec in H].
    destruct (load_metrics ((n, f) :: d) w) as [[data'|e] w1'] eqn:H';
      [|unfold load_metrics in H'; by rewrite load_metrics_loop_spec in H'].
    exists data, w1, data', w1'. split; [done|]. split; [done|].
    apply load_metrics_count in H, H'. rewrite H, H'.
    rewrite Hls, filter_cons.
    destruct (decide (Is_true (ends_with ".json" n))) as [_|Hno];
      [simpl; lia | by rewrite Hn in Hno].
  - intros Hn. rewrite <- ends_with_iff in Hn. apply not_true_is_false in Hn.
    unfold load_metrics.
    rewrite (load_metrics_loop_skip ((n, f) :: d) ((n, f) :: d));
      [|by apply Forall_forall].
    rewrite (load_metrics_loop_skip d ((n, f) :: d)).
    + rewrite <- !sorted_filter. rewrite Hls, filter_cons.
      destruct (decide (Is_true (ends_with ".json" n))) as [Hyes|_];
        [by rewrite Hn in Hyes | done].
    + rewrite Forall_forall. intros m Hm _. rewrite sorted_perm in Hm.
      symmetry. apply py_open_other. by intros ->.
Qed.

End Scripts.

Arguments load_snapshots {datetime} fromisoformat now export_dir d _.
Arguments load_snapshots_loop {datetime} fromisoformat now export_dir d files snapshots _.
Arguments load_metrics {datetime} fromisoformat d _.
Arguments load_metrics_loop {datetime} fromisoformat d names data _.
Arguments build_timeseries {datetime} snapshots metric.
Arguments main {datetime} fromisoformat now plt metric export_dir d _.
Arguments read_data_point {datetime} fromisoformat content.
Arguments read_metrics_file {datetime} fromisoformat d filename.
Arguments read_from {datetime} fromisoformat now first next d filename snap.
Arguments parsed_names {datetime} fromisoformat d.
Arguments parsed_metrics {datetime} fromisoformat d.
Arguments lacks_metric {datetime} metric snap.
Arguments grows {datetime} _ _.
Arguments print {datetime} m _.
Arguments plot_metric {datetime} plt ts metric _.
Arguments run_calls {datetime} plt calls _.
Arguments metric_calls {datetime} c.
Arguments metric_chart {datetime} ts metric.
Arguments two_line_calls {datetime} c.
Arguments multi_line_calls {datetime} c.
Arguments xy_calls {datetime} c.
Arguments plt_call : clear implicits.
Arguments datetime_now {datetime} now _.
Arguments Build_snapshot {datetime} timestamp stats.
Arguments Build_world {datetime} clock stdout figures.
Arguments Build_data_point {datetime}.
Arguments blks_ratio {datetime} d.
Arguments toast_total {datetime} d.
Arguments dp_timestamp {datetime} d.
Arguments figures {datetime} w.
Arguments stdout {datetime} w.

(** ** Concrete runs

    The parser is [Iso8601.parse], the clock [Iso8601.clock]; every run
    starts in the [initial] state.  Where a run reaches the plotting
    library, the library is one that completes every call. *)

Abbreviation completes :=
  (fun (_ : list (plt_call Iso8601.civil)) (_ : plt_call Iso8601.civil) => Ok tt)
  (only parsing).

Abbreviation day1 :=
  {| Iso8601.year := 2024; Iso8601.month := 1; Iso8601.day := 1;
     Iso8601.hour := 0; Iso8601.minute := 0; Iso8601.second := 0 |}
  (only parsing).

Abbreviation day2 :=
  {| Iso8601.year := 2024; Iso8601.month := 1; Iso8601.day := 2;
     Iso8601.hour := 0; Iso8601.minute := 0; Iso8601.second := 0 |}
  (only parsing).

(** The snapshots of the files [first_day] and [second_day]. *)
Abbreviation two_days :=
  [ {| timestamp := day1;
       stats := JArr [JObj [("datname", JStr "a"); ("x", JInt 5)]] |};
    {| timestamp := day2;
       stats := JArr [JObj [("datname", JStr "a"); ("x", JInt 7)]] |} ]
  (only parsing).

(** C1 at the file [zero_reads]: the selected record has [blks_read] 0, the
    default 1 is not used, the division raises [ZeroDivisionError], and
    [load_metrics] logs the file and returns no data point for it. *)
Lemma C1_zero_reads_divide_by_zero :
  ratio_of (Some (db_record (nullable "postgres" true) 10 0))
    = Raise ZeroDivisionError
  /\ read_data_point Iso8601.parse zero_reads = Raise ZeroDivisionError
  /\ load_metrics Iso8601.parse [("a.json", Opened (Ok zero_reads))]
       (initial Iso8601.civil)
     = (Ok [],
        {| clock := 0; stdout := [FileError "a.json" ZeroDivisionError];
           figures := [] |}).
Proof. by vm_compute. Qed.

(** C2 fails as stated: [load_snapshots] drops a file whose timestamp is
    not a date, and [load_metrics] drops a file without a timestamp. *)
Lemma C2_bad_timestamp_excludes_file :
  Iso8601.parse "yesterday" = None
  /\ load_snapshots Iso8601.parse Iso8601.clock "export"
       [("stats_1.json", Opened (Ok misdated))] (initial Iso8601.civil)
     = (Ok [],
        {| clock := 0;
           stdout := [FileError "export/stats_1.json" ValueError];
           figures := [] |})
  /\ load_metrics Iso8601.parse
       [("a.json", Opened (Ok (JObj [("db_stats", JArr [])])))]
       (initial Iso8601.civil)
     = (Ok [],
        {| clock := 0;
           stdout := [FileError "a.json" (KeyError "timestamp")];
           figures := [] |}).
Proof. by vm_compute. Qed.

(** C2 on a file without a timestamp: [load_snapshots] dates it by the
    clock and keeps it, [load_metrics] logs a [KeyError] and drops it. *)
Lemma C2_timestamp_rule_witness :
  py_open [("stats_1.json", Opened (Ok undated))] "stats_1.json" = Ok (Ok undated)
  /\ ends_with ".json" "stats_1.json" = true
  /\ load_snapshots_loop Iso8601.parse Iso8601.clock "export"
       [("stats_1.json", Opened (Ok undated))] ["stats_1.json"] []
       (initial Iso8601.civil)
     = load_snapshots_loop Iso8601.parse Iso8601.clock "export"
         [("stats_1.json", Opened (Ok undated))] []
         [{| timestamp := Iso8601.clock 0; stats := JArr [] |}]
         {| clock := 1; stdout := []; figures := [] |}
  /\ load_metrics_loop Iso8601.parse
       [("stats_1.json", Opened (Ok undated))] ["stats_1.json"] []
       (initial Iso8601.civil)
     = load_metrics_loop Iso8601.parse
         [("stats_1.json", Opened (Ok undated))] [] []
         {| clock := 0;
            stdout := [FileError "stats_1.json" (KeyError "timestamp")];
            figures := [] |}.
Proof.
  split; [reflexivity|]. split; [reflexivity|].
  exact (C2_timestamp_rule Iso8601.civil Iso8601.parse Iso8601.clock "export"
           [("stats_1.json", Opened (Ok undated))] "stats_1.json" []
           [("stats", JArr [])] [] [] (initial Iso8601.civil)
           eq_refl eq_refl).
Defined.

(** C3 at the directory [locked_directory]: [open] fails on the first
    matching file and [load_snapshots] raises, nothing logged and the
    second file never read; [load_metrics] catches the same failure. *)
Lemma C3_open_error_propagates :
  load_snapshots Iso8601.parse Iso8601.clock "export" locked_directory
    (initial Iso8601.civil)
  = (Raise OSError, initial Iso8601.civil)
  /\ load_metrics Iso8601.parse locked_directory (initial Iso8601.civil)
     = (Ok [],
        {| clock := 0;
           stdout := [FileError "stats_1.json" OSError;
                      FileError "stats_2.json" (KeyError "db_stats")];
           figures := [] |}).
Proof. by vm_compute. Qed.

(** C4 on [no_postgres]: the only record named postgres is marked invalid,
    nothing is selected and the ratio is 0.0. *)
Lemma C4_postgres_selection_witness :
  db_records no_postgres
    = Ok [db_record (nullable "template1" true) 4 2;
          db_record (nullable "postgres" false) 9 3]
  /\ find_postgres [db_record (nullable "template1" true) 4 2;
                    db_record (nullable "postgres" false) 9 3] = Ok None
  /\ exists dp,
       read_data_point Iso8601.parse no_postgres = Ok dp
       /\ blks_ratio dp = JFloat (S754_zero false).
Proof.
  split; [reflexivity|]. split; [reflexivity|].
  eexists. split; [vm_compute; reflexivity|].
  refine (proj2 (proj2 (proj2 (proj2
            (C4_postgres_selection Iso8601.civil Iso8601.parse no_postgres _ eq_refl))
            eq_refl)) _ _).
  vm_compute. reflexivity.
Defined.

(** C5 on [two_postgres]: the sizes 100 and 50 add up to 150. *)
Lemma C5_toast_total_witness :
  toast_entries two_postgres = Ok [toast 100; toast 50]
  /\ exists dp,
       read_data_point Iso8601.parse two_postgres = Ok dp
       /\ toast_total dp = JInt 150.
Proof.
  split; [reflexivity|].
  eexists. split; [vm_compute; reflexivity|].
  refine (proj1 (C5_toast_total Iso8601.civil Iso8601.parse two_postgres _
                   [toast 100; toast 50] [100; 50] _ eq_refl _)).
  - vm_compute. reflexivity.
  - repeat constructor.
Defined.

(** C6 on two snapshots with a record without [datname] and one without
    the metric. *)
Lemma C6_series_lengths_witness :
  exists ts,
    build_timeseries
      [ {| timestamp := Iso8601.clock 0;
           stats := JArr [JObj [("datname", JStr "a"); ("x", JInt 5)];
                          JObj [("x", JInt 1)];
                          JObj [("datname", JStr "b")]] |};
        {| timestamp := Iso8601.clock 1;
           stats := JArr [JObj [("datname", JStr "a"); ("x", JInt 7)]] |} ]
      "x" = Ok ts
    /\ ts_lookup Iso8601.civil (JStr "a") ts
       = Some ([Iso8601.clock 0; Iso8601.clock 1], [JInt 5; JInt 7])
    /\ forall entity times values,
         (entity, (times, values)) ∈ ts -> length times = length values.
Proof.
  eexists. split; [vm_compute; reflexivity|]. split; [reflexivity|].
  refine (proj1 (C6_series_lengths Iso8601.civil
                   [ {| timestamp := Iso8601.clock 0;
                        stats := JArr [JObj [("datname", JStr "a"); ("x", JInt 5)];
                                       JObj [("x", JInt 1)];
                                       JObj [("datname", JStr "b")]] |};
                     {| timestamp := Iso8601.clock 1;
                        stats := JArr [JObj [("datname", JStr "a"); ("x", JInt 7)]] |} ]
                   "x" _ _)).
  vm_compute. reflexivity.
Defined.



(** C9 on the two sample files, listed in reverse order. *)
Lemma C9_end_to_end_witness :
  has_magic "export" = false
  /\ Iso8601.parse "2024-01-01T00:00:00" = Some day1
  /\ Iso8601.parse "2024-01-02T00:00:00" = Some day2
  /\ load_snapshots Iso8601.parse Iso8601.clock "export"
       [("stats_2.json", Opened (Ok second_day));
        ("stats_1.json", Opened (Ok first_day))]
       (initial Iso8601.civil)
     = (Ok two_days, initial Iso8601.civil)
  /\ build_timeseries two_days "x"
     = Ok [(JStr "a", ([day1; day2], [JInt 5; JInt 7]))]
  /\ main Iso8601.parse Iso8601.clock completes "x" "export"
       [("stats_2.json", Opened (Ok second_day));
        ("stats_1.json", Opened (Ok first_day))]
       (initial Iso8601.civil)
     = plot_metric completes [(JStr "a", ([day1; day2], [JInt 5; JInt 7]))] "x"
         (initial Iso8601.civil).
Proof.
  split; [reflexivity|].
  split; [vm_compute; reflexivity|]. split; [vm_compute; reflexivity|].
  refine (C9_end_to_end Iso8601.civil Iso8601.parse Iso8601.clock completes "export"
            [("stats_2.json", Opened (Ok second_day));
             ("stats_1.json", Opened (Ok first_day))]
            "stats_1.json" "stats_2.json" day1 day2 (initial Iso8601.civil)
            eq_refl _ _ _ _ _ _ _).
  - vm_compute. reflexivity.
  - vm_compute. reflexivity.
  - apply perm_swap.
  - reflexivity.
  - reflexivity.
  - discriminate.
  - vm_compute. exact I.
Defined.

(** C10 on [two_postgres]: the first valid record gives 6 / 3 = 2.0, the
    second one (8 / 2) is not looked at. *)
Lemma C10_first_match_wins_witness :
  db_records two_postgres
    = Ok ([db_record (nullable "postgres" false) 1 1]
          ++ db_record (nullable "postgres" true) 6 3
          :: [db_record (nullable "postgres" true) 8 2])
  /\ exists dp,
       read_data_point Iso8601.parse two_postgres = Ok dp
       /\ Ok (blks_ratio dp) = py_truediv (JInt 6) (JInt 3)
       /\ blks_ratio dp = JFloat (S754_finite false 4503599627370496 (-51)).
Proof.
  split; [reflexivity|].
  eexists. split; [vm_compute; reflexivity|]. split; [|reflexivity].
  refine (proj2 (proj2
            (C10_first_match_wins Iso8601.civil Iso8601.parse two_postgres
               [db_record (nullable "postgres" false) 1 1]
               [db_record (nullable "postgres" true) 8 2]
               (db_record (nullable "postgres" true) 6 3)
               eq_refl _ eq_refl eq_refl)) _ _).
  - repeat constructor.
  - vm_compute. reflexivity.
Defined.

(** ** Further concrete runs *)

Arguments plot_two_line_time_series {datetime} data1 data2 key title ylabel label1 label2.
Arguments plot_multi_line_indexed {datetime} data1 data2 keys title ylabel label_prefix1 label_prefix2.
Arguments plot_xy_lines {datetime} data1 data2 xkey ykey title xlabel ylabel label1 label2.
Arguments monitor_main {datetime} fromisoformat plt folder1 folder2 d1 d2 _.
Arguments dp_getitem {datetime} d key.
Arguments well_shaped {datetime} l.
Arguments lines {datetime} c.
Arguments xs {datetime} l.
Arguments ys {datetime} l.
Arguments label {datetime} l.
Arguments CVal {datetime} v.
Arguments CTime {datetime} t.
Arguments prune {datetime} metric snap.
Arguments points_of {datetime} metric name snapshots.
Arguments series_of_points {datetime} points.
Arguments point_count {datetime} ts.
Arguments carrying_records {datetime} metric snapshots.
Arguments snapshot_ok {datetime} metric snap.
Arguments records_of {datetime} snap.
Arguments read_snapshot {datetime} fromisoformat now f _.

(** Two snapshots: the first with a record of "a", a record without
    [datname] and one without the metric, the second with a record of "a"
    and one whose value is [null]. *)
Abbreviation sample_snapshots :=
  [ {| timestamp := Iso8601.clock 0;
       stats := JArr [JObj [("datname", JStr "a"); ("x", JInt 5)];
                      JObj [("x", JInt 1)];
                      JObj [("datname", JStr "b")]] |};
    {| timestamp := Iso8601.clock 1;
       stats := JArr [JObj [("datname", JStr "a"); ("x", JInt 7)];
                      JObj [("datname", JStr "b"); ("x", JNull)]] |} ]
  (only parsing).

Abbreviation sample_series :=
  [ (JStr "a", ([Iso8601.clock 0; Iso8601.clock 1], [JInt 5; JInt 7]));
    (JStr "unknown", ([Iso8601.clock 0], [JInt 1])) ]
  (only parsing).

(** Data points of two runs, of two and of one snapshot. *)
Abbreviation sample_point t ratio total ms size :=
  {| dp_timestamp := Iso8601.clock t; blks_ratio := ratio; toast_total := JInt total;
     avg_select_time_ms := ms; avg_insert_time_ms := JNull;
     avg_update_time_ms := JNull; avg_delete_time_ms := JNull;
     avg_select_size_bytes := JInt size |}
  (only parsing).

Abbreviation run1 :=
  [ sample_point 0%nat (JFloat (S754_zero false)) 150 (JInt 3) 64;
    sample_point 1%nat (JFloat (S754_zero false)) 170 JNull 128 ]
  (only parsing).

Abbreviation run2 :=
  [ sample_point 5%nat (JFloat (S754_zero false)) 90 (JInt 4) 32 ] (only parsing).

(** X2 on a concrete input. *)
Lemma listing_order_immaterial_witness :
  NoDup (listdir mixed_directory)
  /\ load_snapshots Iso8601.parse Iso8601.clock "export" mixed_directory
       (initial Iso8601.civil)
     = load_snapshots Iso8601.parse Iso8601.clock "export"
         [("stats_0.json", Opened (Raise JSONDecodeError));
          ("stats_2.json", Opened (Ok second_day));
          ("notes.txt", Opened (Raise JSONDecodeError));
          ("stats_1.json", Opened (Ok first_day))]
         (initial Iso8601.civil).
Proof.
  assert (Hnd : NoDup (listdir mixed_directory)).
  { apply (bool_decide_unpack _). vm_compute. exact I. }
  split; [exact Hnd|].
  refine (proj1 (listing_order_immaterial Iso8601.civil Iso8601.parse Iso8601.clock
                   "export" mixed_directory _ (initial Iso8601.civil) Hnd _)).
  apply perm_swap.
Defined.

(** X7 on a concrete input. *)
Lemma build_timeseries_prune_witness :
  build_timeseries sample_snapshots "x"
  = build_timeseries
      [ {| timestamp := Iso8601.clock 0;
           stats := JArr [JObj [("datname", JStr "a"); ("x", JInt 5)];
                          JObj [("x", JInt 1)]] |};
        {| timestamp := Iso8601.clock 1;
           stats := JArr [JObj [("datname", JStr "a"); ("x", JInt 7)]] |} ]
      "x".
Proof.
  refine (build_timeseries_prune Iso8601.civil "x" sample_snapshots _).
  repeat constructor.
Defined.

(** X9 on a concrete input. *)
Lemma build_timeseries_point_count_witness :
  build_timeseries sample_snapshots "x" = Ok sample_series
  /\ point_count sample_series = 3%nat
  /\ carrying_records "x" sample_snapshots = 3%nat.
Proof.
  split; [reflexivity|]. split; [reflexivity|].
  symmetry.
  exact (proj1 (build_timeseries_point_count Iso8601.civil "x" sample_snapshots
                  sample_series eq_refl)).
Defined.

(** X10 on a concrete input. *)
Lemma build_timeseries_entities_witness :
  ts_lookup Iso8601.civil (JStr "unknown")
    [(JStr "a", ([Iso8601.clock 0; Iso8601.clock 1], [JInt 5; JInt 7]))] = None
  /\ ts_lookup Iso8601.civil (JStr "unknown") sample_series
     = Some ([Iso8601.clock 0], [JInt 1]).
Proof.
  pose proof (build_timeseries_entities Iso8601.civil "x" sample_snapshots
                sample_series
                [(JStr "a", ([Iso8601.clock 0; Iso8601.clock 1], [JInt 5; JInt 7]))]
                [] (JStr "unknown") ([Iso8601.clock 0], [JInt 1])
                eq_refl eq_refl) as (H1 & H2 & _).
  exact (conj H1 H2).
Defined.

(** X11 on a concrete input. *)
Lemma build_timeseries_named_series_witness :
  points_of "x" "a" sample_snapshots
    = [(Iso8601.clock 0, JInt 5); (Iso8601.clock 1, JInt 7)]
  /\ ts_lookup Iso8601.civil (JStr "a") sample_series
     = series_of_points (points_of "x" "a" sample_snapshots)
  /\ ts_lookup Iso8601.civil (JStr "b") sample_series = None.
Proof.
  assert (Hnamed :
            Forall (fun snap : snapshot Iso8601.civil =>
                      Forall (fun r => carries "x" r = true -> string_named r)
                             (records_of snap))
                   sample_snapshots).
  { repeat constructor; intros _; eexists; reflexivity. }
  split; [reflexivity|]. split.
  - exact (build_timeseries_named_series Iso8601.civil "x" sample_snapshots
             sample_series "a" eq_refl Hnamed).
  - exact (build_timeseries_named_series Iso8601.civil "x" sample_snapshots
             sample_series "b" eq_refl Hnamed).
Defined.

(** X12 on a concrete input. *)
Lemma main_outcome_witness :
  has_magic "export" = false
  /\ exists ts,
       build_timeseries two_days "x" = Ok ts
       /\ main Iso8601.parse Iso8601.clock completes "x" "export" mixed_directory
            (initial Iso8601.civil)
          = run_calls completes (metric_calls (metric_chart ts "x"))
              {| clock := 0;
                 stdout := [FileError "export/stats_0.json" JSONDecodeError];
                 figures := [] |}.
Proof.
  split; [reflexivity|].
  destruct (main_outcome Iso8601.civil Iso8601.parse Iso8601.clock completes
              "x" "export" mixed_directory two_days (initial Iso8601.civil)
              {| clock := 0;
                 stdout := [FileError "export/stats_0.json" JSONDecodeError];
                 figures := [] |}
              eq_refl)
    as (ts & Hbuild & Hmain & _).
  - vm_compute. reflexivity.
  - reflexivity.
  - exists ts. split; [exact Hbuild | exact Hmain].
Defined.

(** X13 on a concrete input. *)
Lemma metric_chart_well_shaped_witness :
  length (lines (metric_chart sample_series "x")) = 2%nat
  /\ Forall (fun l => well_shaped l /\ xs l <> [])
            (lines (metric_chart sample_series "x")).
Proof.
  exact (metric_chart_well_shaped Iso8601.civil "x" sample_snapshots sample_series
           eq_refl).
Defined.

Lemma key_blks_ratio : "blks_ratio" ∈ dp_keys.
Proof. unfold dp_keys. rewrite !elem_of_cons. auto. Defined.

Lemma key_select_ms : "avg_select_time_ms" ∈ dp_keys.
Proof. unfold dp_keys. rewrite !elem_of_cons. auto 6. Defined.

Lemma key_select_size : "avg_select_size_bytes" ∈ dp_keys.
Proof. unfold dp_keys. rewrite !elem_of_cons. auto 10. Defined.

(** X14 on a concrete input. *)
Lemma two_line_chart_witness :
  exists c,
    plot_two_line_time_series run1 run2 "blks_ratio" "t" "y" "a" "b" = Ok c
    /\ map (fun l => (length (xs l), length (ys l))) (lines c)
       = [(2, 2); (1, 1)]%nat.
Proof.
  destruct (two_line_chart Iso8601.civil run1 run2 "blks_ratio" "t" "y" "a" "b"
              key_blks_ratio)
    as (v1 & v2 & _ & _ & Hplot & Hl1 & Hl2).
  eexists. split; [exact Hplot|]. simpl. by rewrite Hl1, Hl2.
Defined.

(** X15 on a concrete input. *)
Lemma two_line_chart_unknown_key_witness :
  plot_two_line_time_series run1 run2 "blks_rate" "t" "y" "a" "b"
    = Raise (KeyError "blks_rate")
  /\ is_ok (plot_two_line_time_series (@nil (data_point Iso8601.civil)) []
              "blks_rate" "t" "y" "a" "b") = true.
Proof.
  assert (Hkey : "blks_rate" ∉ dp_keys).
  { unfold dp_keys. rewrite !not_elem_of_cons.
    repeat split; try discriminate. apply not_elem_of_nil. }
  split.
  - exact (two_line_chart_unknown_key Iso8601.civil run1 run2 "blks_rate"
             "t" "y" "a" "b" Hkey).
  - by rewrite (two_line_chart_unknown_key Iso8601.civil [] [] "blks_rate"
                  "t" "y" "a" "b" Hkey).
Defined.

(** X16 on a concrete input. *)
Lemma multi_line_chart_witness :
  exists ls,
    plot_multi_line_indexed run1 run2 time_keys "t" "y" "a" "b"
    = Ok {| lines := ls; title := "t";
            xlabel := "Индекс метрики (порядковый номер)"; ylabel := "y" |}
    /\ length ls = 8%nat
    /\ ls !! 0%nat
       = Some {| xs := [CVal (JInt 0); CVal (JInt 1)];
                 ys := [CVal (JInt 3); CVal JNull];
                 marker := "."; linestyle := None;
                 label := CVal (JStr "a:avg_select_time_ms") |}
    /\ ls !! 1%nat
       = Some {| xs := [CVal (JInt 0)];
                 ys := [CVal (JInt 4)];
                 marker := "."; linestyle := None;
                 label := CVal (JStr "b:avg_select_time_ms") |}.
Proof.
  destruct (multi_line_chart Iso8601.civil run1 run2 time_keys "t" "y" "a" "b")
    as (ls & Hplot & Hlen & Hat & _).
  - unfold time_keys, dp_keys. repeat constructor; rewrite !elem_of_cons; auto 10.
  - exists ls. split; [exact Hplot|]. split; [exact Hlen|].
    vm_compute in Hplot. injection Hplot as <-. split; reflexivity.
Defined.

(** X17 on a concrete input. *)
Lemma xy_chart_pairs_witness :
  exists l1 l2,
    (exists c, plot_xy_lines run1 run2 "avg_select_size_bytes" "avg_select_time_ms"
                 "t" "x" "y" "a" "b" = Ok c /\ lines c = [l1; l2])
    /\ zip (xs l1) (ys l1)
       = [(CVal (JInt 64), CVal (JInt 3)); (CVal (JInt 128), CVal JNull)].
Proof.
  destruct (xy_chart_pairs Iso8601.civil run1 run2
              "avg_select_size_bytes" "avg_select_time_ms" "t" "x" "y" "a" "b"
              key_select_size key_select_ms)
    as (l1 & l2 & Hplot & H1 & _).
  exists l1, l2. split; [exact Hplot|].
  destruct Hplot as (c & Hc & Hlines).
  vm_compute in Hc. injection Hc as <-. simpl in Hlines.
  injection Hlines as <- <-. reflexivity.
Defined.

(** X3 on a concrete input. *)
Lemma load_snapshots_raises_only_open_witness :
  has_magic "export" = false
  /\ load_snapshots Iso8601.parse Iso8601.clock "export" locked_directory
       (initial Iso8601.civil)
     = (Raise OSError, initial Iso8601.civil)
  /\ exists n,
       n ∈ listdir locked_directory /\ glob_match n = true
       /\ py_open locked_directory n = Raise OSError.
Proof.
  split; [reflexivity|]. split; [vm_compute; reflexivity|].
  refine (proj2 (load_snapshots_raises_only_open Iso8601.civil Iso8601.parse
                   Iso8601.clock "export" locked_directory (initial Iso8601.civil)
                   eq_refl)
            OSError (initial Iso8601.civil) _).
  vm_compute. reflexivity.
Defined.

(** X4 on a concrete input. *)
Lemma load_snapshots_accounts_witness :
  has_magic "export" = false
  /\ load_snapshots Iso8601.parse Iso8601.clock "export" mixed_directory
       (initial Iso8601.civil)
     = (Ok two_days,
        {| clock := 0;
           stdout := [FileError "export/stats_0.json" JSONDecodeError];
           figures := [] |})
  /\ glob_path "export//" "stats_0.json" = "export/stats_0.json"
  /\ exists log,
       [FileError "export/stats_0.json" JSONDecodeError]
       = stdout (initial Iso8601.civil) ++ log
       /\ (length two_days + length log)%nat = length (glob mixed_directory).
Proof.
  split; [reflexivity|]. split; [vm_compute; reflexivity|].
  split; [vm_compute; reflexivity|].
  destruct (load_snapshots_accounts Iso8601.civil Iso8601.parse Iso8601.clock
              "export" mixed_directory two_days (initial Iso8601.civil)
              {| clock := 0;
                 stdout := [FileError "export/stats_0.json" JSONDecodeError];
                 figures := [] |}
              eq_refl ltac:(vm_compute; reflexivity))
    as (log & Hout & _ & Hlen & _).
  exists log. split; [exact Hout | exact Hlen].
Defined.

(** X6 on a concrete input: a file added to [mixed_directory] under the
    name [stats_.json]. *)
Lemma selected_names_witness :
  has_magic "export" = false
  /\ ("stats_.json" ∉ listdir mixed_directory)
  /\ load_snapshots Iso8601.parse Iso8601.clock "export"
       (("stats_.json", Opened (Raise UnicodeDecodeError)) :: mixed_directory)
       (initial Iso8601.civil)
     = (Ok two_days,
        {| clock := 0;
           stdout := [FileError "export/stats_.json" UnicodeDecodeError;
                      FileError "export/stats_0.json" JSONDecodeError];
           figures := [] |})
  /\ exists snaps' w1',
       load_snapshots Iso8601.parse Iso8601.clock "export"
         (("stats_.json", Opened (Raise UnicodeDecodeError)) :: mixed_directory)
         (initial Iso8601.civil)
       = (Ok snaps', w1')
       /\ (length snaps' + length (stdout w1'))%nat
          = S (length two_days
               + length [FileError "export/stats_0.json" JSONDecodeError]).
Proof.
  assert (Hnew : "stats_.json" ∉ listdir mixed_directory).
  { apply (bool_decide_unpack _). vm_compute. exact I. }
  split; [reflexivity|]. split; [exact Hnew|].
  split; [vm_compute; reflexivity|].
  refine (proj1 (selected_names Iso8601.civil Iso8601.parse Iso8601.clock
                   "export" mixed_directory "stats_.json"
                   (Opened (Raise UnicodeDecodeError)) (initial Iso8601.civil)
                   eq_refl Hnew)
            (ex_intro _ "" eq_refl)
            two_days
            {| clock := 0;
               stdout := [FileError "export/stats_0.json" JSONDecodeError];
               figures := [] |}
            _).
  vm_compute. reflexivity.
Defined.

(** X19 on a concrete input: the folders [runs/a] and [runs/b/]. *)
Lemma monitor_main_labels_witness :
  after_last_slash "runs/a" "a"
  /\ after_last_slash "runs/b/" ""
  /\ exists c1 c2 c3 c4 w1,
       map (fun c => map label (lines c)) [c1; c2; c3; c4]
       = [ [CVal (JStr "a"); CVal (JStr "")];
           [CVal (JStr "a"); CVal (JStr "")];
           [CVal (JStr "a:avg_select_time_ms"); CVal (JStr ":avg_select_time_ms");
            CVal (JStr "a:avg_insert_time_ms"); CVal (JStr ":avg_insert_time_ms");
            CVal (JStr "a:avg_update_time_ms"); CVal (JStr ":avg_update_time_ms");
            CVal (JStr "a:avg_delete_time_ms"); CVal (JStr ":avg_delete_time_ms")];
           [CVal (JStr "a"); CVal (JStr "")] ]
       /\ monitor_main Iso8601.parse completes "runs/a" "runs/b/" [] []
            (initial Iso8601.civil)
          = run_calls completes
              (two_line_calls c1 ++ two_line_calls c2
               ++ multi_line_calls c3 ++ xy_calls c4) w1.
Proof.
  assert (Ha : after_last_slash "runs/a" "a").
  { split; [reflexivity|]. right. by exists "runs". }
  assert (Hb : after_last_slash "runs/b/" "").
  { split; [reflexivity|]. right. by exists "runs/b". }
  split; [exact Ha|]. split; [exact Hb|].
  destruct (monitor_main_labels Iso8601.civil Iso8601.parse completes
              "runs/a" "runs/b/" "a" "" [] [] (initial Iso8601.civil) Ha Hb)
    as (c1 & c2 & c3 & c4 & w1 & Hrun & _ & _ & _ & _ & Hlab).
  exists c1, c2, c3, c4, w1. split; [exact Hlab | exact Hrun].
Defined.

(** X20 on a concrete input. *)
Lemma broken_record_before_postgres_witness :
  read_data_point Iso8601.parse
    (metrics_file (JStr "2024-01-01T00:00:00")
       [db_record (nullable "template1" true) 4 2;
        JObj [("blks_hit", JInt 1)];
        db_record (nullable "postgres" true) 6 3] [])
  = Raise (KeyError "datname").
Proof.
  refine (proj1 (broken_record_before_postgres Iso8601.civil Iso8601.parse
                   (metrics_file (JStr "2024-01-01T00:00:00")
                      [db_record (nullable "template1" true) 4 2;
                       JObj [("blks_hit", JInt 1)];
                       db_record (nullable "postgres" true) 6 3] [])
                   (JStr "2024-01-01T00:00:00") _
                   [db_record (nullable "template1" true) 4 2]
                   [db_record (nullable "postgres" true) 6 3]
                   (JObj [("blks_hit", JInt 1)]) (KeyError "datname")
                   eq_refl _ eq_refl _ eq_refl)).
  - vm_compute. reflexivity.
  - repeat constructor.
Defined.

(** X21 on a concrete input. *)
Lemma bad_toast_size_stops_file_witness :
  read_data_point Iso8601.parse
    (metrics_file (JStr "2024-01-01T00:00:00")
       [db_record (nullable "postgres" true) 6 3]
       [toast 100; JObj [("toast_size_bytes", JNull)]; toast 50])
  = Raise TypeError.
Proof.
  refine (bad_toast_size_stops_file Iso8601.civil Iso8601.parse
            (metrics_file (JStr "2024-01-01T00:00:00")
               [db_record (nullable "postgres" true) 6 3]
               [toast 100; JObj [("toast_size_bytes", JNull)]; toast 50])
            (JStr "2024-01-01T00:00:00") _
            [db_record (nullable "postgres" true) 6 3]
            (Some (db_record (nullable "postgres" true) 6 3)) _
            [toast 100] [toast 50] [100] (JObj [("toast_size_bytes", JNull)]) JNull
            eq_refl _ eq_refl eq_refl _ eq_refl _ eq_refl eq_refl).
  - vm_compute. reflexivity.
  - vm_compute. reflexivity.
  - repeat constructor.
Defined.
